(** * up-template: the report assembler and the menu interpreter

    A shallow embedding of [up_template/NetlOlcaReport.py] and
    [up_template/Interface.py].

    Conventions of the embedding.
    - A Python [str] is a [string]; its characters are read as ASCII code
      points.  [str.lower], [str.upper], [str.title], [str.isspace],
      [str.strip], [int] and the regular-expression class [\s] are modelled
      on that range, where they are what Python computes.  Outside it
      Python knows further white space (U+0085, U+00A0, U+2003, ...),
      further digits and further case mappings (U+0131 is raised to [I]):
      a statement that depends on how such a character is classed is made
      for the texts that [Py.isascii] accepts.
    - A Python object is a record of its attributes; a method takes the
      record and returns the new one.
    - An exception is a value of [exn]; a method that can raise returns a
      [result].
    - The collaborators that are not part of the repository (netlolca, sympy,
      the operating system, the clock) are parameters of the definitions
      that use them.
    - The console is part of the interpreter's state: the lines still to
      be typed and the texts written so far, a prompt being written before
      its line is read.  [input] on an exhausted console raises [EOFError].
    - Calls of the logging module write nothing on the console and change
      no attribute; they are left out.
    - A [while] loop takes a bound on its number of rounds; a run that
      needs more ends as [OutOfFuel], which no [except] clause catches. *)

From stdpp Require Import gmap strings list sorting pretty.
From Equations Require Import Equations.
From Stdlib Require Import ZArith Ascii.

(** * Exceptions and results *)

Inductive exn : Type :=
  | ValueError (msg : string)
  | TypeError (msg : string)
  | OSError (msg : string)
  | KeyError (key : string)
  | IndexError
  | NameError (name : string)
  | AttributeError (name : string)
  | EOFError
  | CollaboratorError (msg : string).

Inductive result (A : Type) : Type :=
  | Ok (a : A)
  | Raise (e : exn).
Arguments Ok {A} a.
Arguments Raise {A} e.

(** * Python string primitives *)

Module Py.

Definition code (c : ascii) : N := N_of_ascii c.

Definition between (lo hi : N) (c : ascii) : bool :=
  ((lo <=? code c) && (code c <=? hi))%N.

(** [str.isspace] on one character: TAB, LF, VT, FF, CR, the four
    separators FS, GS, RS, US, and the space. *)
Definition isspace_char (c : ascii) : bool :=
  between 9 13 c || between 28 32 c.

Definition isupper_char (c : ascii) : bool := between 65 90 c.
Definition islower_char (c : ascii) : bool := between 97 122 c.
Definition isalpha_char (c : ascii) : bool := isupper_char c || islower_char c.
Definition isdigit_char (c : ascii) : bool := between 48 57 c.

Definition lower_char (c : ascii) : ascii :=
  if isupper_char c then ascii_of_N (code c + 32) else c.
Definition upper_char (c : ascii) : ascii :=
  if islower_char c then ascii_of_N (code c - 32) else c.

Fixpoint map_chars (f : ascii → ascii) (s : string) : string :=
  match s with
  | EmptyString => EmptyString
  | String c s' => String (f c) (map_chars f s')
  end.

(** [s.lower()] and [s.upper()] *)
Definition lower : string → string := map_chars lower_char.
Definition upper : string → string := map_chars upper_char.

(** [s.startswith(p)] *)
Fixpoint startswith (s p : string) : bool :=
  match p, s with
  | EmptyString, _ => true
  | String _ _, EmptyString => false
  | String a p', String b s' => Ascii.eqb a b && startswith s' p'
  end.

(** [s.isspace()]: at least one character, and all of them white space. *)
Fixpoint all_chars (p : ascii → bool) (s : string) : bool :=
  match s with
  | EmptyString => true
  | String c s' => p c && all_chars p s'
  end.

Definition isspace (s : string) : bool :=
  match s with
  | EmptyString => false
  | _ => all_chars isspace_char s
  end.

(** [s.rstrip()]: drop the white space at the end. *)
Fixpoint rstrip (s : string) : string :=
  match s with
  | EmptyString => EmptyString
  | String c s' =>
      match rstrip s' with
      | EmptyString => if isspace_char c then EmptyString else String c EmptyString
      | r => String c r
      end
  end.

(** [s.lstrip()] and [s.strip()] *)
Fixpoint lstrip (s : string) : string :=
  match s with
  | EmptyString => EmptyString
  | String c s' => if isspace_char c then lstrip s' else s
  end.
Definition strip (s : string) : string := rstrip (lstrip s).

(** [s[-1]] and [s[0:-1]] *)
Fixpoint last_char (s : string) : option ascii :=
  match s with
  | EmptyString => None
  | String c EmptyString => Some c
  | String _ s' => last_char s'
  end.

Fixpoint drop_last (s : string) : string :=
  match s with
  | EmptyString => EmptyString
  | String _ EmptyString => EmptyString
  | String c s' => String c (drop_last s')
  end.

(** [sep.join(l)] *)
Fixpoint join (sep : string) (l : list string) : string :=
  match l with
  | [] => EmptyString
  | [x] => x
  | x :: l' => x +:+ sep +:+ join sep l'
  end.

(** [s.replace(a, b)] for one-character [a] and [b]. *)
Definition replace_char (a b : ascii) : string → string :=
  map_chars (λ c, if Ascii.eqb c a then b else c).

(** [s.title()]: a letter that follows a letter is lowered, any other
    letter is raised. *)
Fixpoint title_from (prev_cased : bool) (s : string) : string :=
  match s with
  | EmptyString => EmptyString
  | String c s' =>
      if isalpha_char c
      then String (if prev_cased then lower_char c else upper_char c)
                  (title_from true s')
      else String c (title_from false s')
  end.
Definition title : string → string := title_from false.

(** The longest prefix of [s] inside a character class, and the rest. *)
Fixpoint span (cls : ascii → bool) (s : string) : string * string :=
  match s with
  | EmptyString => (EmptyString, EmptyString)
  | String c s' =>
      if cls c then let '(a, b) := span cls s' in (String c a, b)
      else (EmptyString, s)
  end.

(** [re.sub("[cls]+", repl, s)]: scan from the left; where the class
    matches, the match is greedy, the replacement is written once and
    the scan goes on behind the match; any other character is copied. *)
Equations? re_sub_plus (cls : ascii → bool) (repl s : string) : string
  by wf (String.length s) lt :=
  re_sub_plus cls repl EmptyString := EmptyString;
  re_sub_plus cls repl (String c s') :=
    if cls c then repl +:+ re_sub_plus cls repl (span cls s').2
    else String c (re_sub_plus cls repl s').
Proof.
  all: simpl; try lia.
  assert (Hspan : ∀ t, String.length (span cls t).2 ≤ String.length t).
  { induction t as [|a t IH]; simpl; [lia|].
    destruct (cls a); [|simpl; lia].
    destruct (span cls t); simpl in *; lia. }
  specialize (Hspan s'). lia.
Qed.

(** [re.sub("[cls]", repl, s)]: every character of the class is replaced. *)
Fixpoint re_sub_one (cls : ascii → bool) (repl s : string) : string :=
  match s with
  | EmptyString => EmptyString
  | String c s' =>
      if cls c then repl +:+ re_sub_one cls repl s'
      else String c (re_sub_one cls repl s')
  end.

(** Membership of a character in the characters of a string, for the
    bracket classes of the regular expressions. *)
Fixpoint char_in (set : string) (c : ascii) : bool :=
  match set with
  | EmptyString => false
  | String a set' => Ascii.eqb a c || char_in set' c
  end.

(** [s.isascii()]: every character is below 128. *)
Definition isascii : string → bool := all_chars (λ c, (code c <? 128)%N).

End Py.

(** * The report assembler: [NetlOlcaReport.py] *)

(** Python values that reach the formula formatter: a string, [None], or
    the float NaN that a spreadsheet reader leaves in an empty cell. *)
Inductive pyval : Type :=
  | PyNone
  | PyNaN
  | PyStr (s : string).

(** A calendar date, as [datetime.datetime.now().date()] returns it. *)
Record date : Type := { year : nat; month : nat; day : nat }.

Module Report.

Definition CALC_DIR : string := "calculations".
Definition DATA_DIR : string := "data".
Definition OUTPUT_DIR : string := "output".

Definition LF : ascii := ascii_of_N 10.
Definition CR : ascii := ascii_of_N 13.
Definition nl : string := String LF EmptyString.

(** The attributes of a [NetlOlcaReport] instance.  The collaborator
    [netlolca] is kept by the interpreter state, which owns it. *)
Record NetlOlcaReport : Type := {
  data_fetched : bool;
  logo : string;
  boundary_doc : option string;
  create_date : option string;
  reference_name : option string;
  reference_flow : option string;
  reference_description : option string;
  version : option string;
  emissions_flows : option string;
  input_flows : option string;
  location : option string;
  output_flows : option string;
  poc : option string;
  process_doc : option string;
  project_doc : option string;
  allocation_info : option string;
  param_table : option string;
  sources : list string;
  md : option string;
  process_code : string;
  template_path : option string;
  calculations_content : option string;
  disclaimer : string
}.

(** [self.valid_ext], [self.process_types] and [self.allocation_types] are
    set once in [__init__] and never assigned again. *)
Definition valid_ext : list string := [".md"; ".txt"; ".docx"; ".html"; ".pdf"].

Definition process_types : list (string * string) :=
  [ ("EP", "Extraction Process");
    ("MP", "Manufacturing Process");
    ("BP", "Basic Process");
    ("IP", "Installation Process");
    ("EC", "Energy Conversion");
    ("TP", "Transportation Process");
    ("RP", "Recovery Process");
    ("WT", "Waste Treatment");
    ("AP", "Auxiliary Process") ].

Definition default_disclaimer : string :=
  "This report was prepared as an account of work " +:+
  "sponsored by an agency of the United States Government. " +:+
  "Neither the United States Government nor any agency thereof, " +:+
  "nor any of their employees, makes any warranty, express or " +:+
  "implied, or assumes any legal liability or responsibility for " +:+
  "the accuracy, completeness, or usefulness of any information, " +:+
  "apparatus, product, or process disclosed, or represents that " +:+
  "its use would not infringe privately owned rights. Reference " +:+
  "herein to any specific commercial product, process, or service " +:+
  "by trade name, trademark, manufacturer, or otherwise does not " +:+
  "necessarily constitute or imply its endorsement, recommendation, " +:+
  "or favoring by the United States Government or any agency " +:+
  "thereof. The views and opinions of authors expressed herein do " +:+
  "not necessarily state or reflect those of the United States " +:+
  "Government or any agency thereof.".

(** [NetlOlcaReport.__init__] *)
Definition init : NetlOlcaReport := {|
  data_fetched := false;
  logo := "netl_logo_100x52.png";
  boundary_doc := None;
  create_date := None;
  reference_name := None;
  reference_flow := None;
  reference_description := None;
  version := None;
  emissions_flows := None;
  input_flows := None;
  location := None;
  output_flows := None;
  poc := None;
  process_doc := None;
  project_doc := None;
  allocation_info := None;
  param_table := None;
  sources := [];
  md := None;
  process_code := "BP";
  template_path := None;
  calculations_content := None;
  disclaimer := default_disclaimer
|}.

Definition set_md (v : option string) (self : NetlOlcaReport) : NetlOlcaReport :=
  {| data_fetched := data_fetched self; logo := logo self;
     boundary_doc := boundary_doc self; create_date := create_date self;
     reference_name := reference_name self;
     reference_flow := reference_flow self;
     reference_description := reference_description self;
     version := version self; emissions_flows := emissions_flows self;
     input_flows := input_flows self; location := location self;
     output_flows := output_flows self; poc := poc self;
     process_doc := process_doc self; project_doc := project_doc self;
     allocation_info := allocation_info self; param_table := param_table self;
     sources := sources self; md := v; process_code := process_code self;
     template_path := template_path self;
     calculations_content := calculations_content self;
     disclaimer := disclaimer self |}.

Definition set_process_code (v : string) (self : NetlOlcaReport) : NetlOlcaReport :=
  {| data_fetched := data_fetched self; logo := logo self;
     boundary_doc := boundary_doc self; create_date := create_date self;
     reference_name := reference_name self;
     reference_flow := reference_flow self;
     reference_description := reference_description self;
     version := version self; emissions_flows := emissions_flows self;
     input_flows := input_flows self; location := location self;
     output_flows := output_flows self; poc := poc self;
     process_doc := process_doc self; project_doc := project_doc self;
     allocation_info := allocation_info self; param_table := param_table self;
     sources := sources self; md := md self; process_code := v;
     template_path := template_path self;
     calculations_content := calculations_content self;
     disclaimer := disclaimer self |}.

Definition set_reference_name (v : option string) (self : NetlOlcaReport) : NetlOlcaReport :=
  {| data_fetched := data_fetched self; logo := logo self;
     boundary_doc := boundary_doc self; create_date := create_date self;
     reference_name := v;
     reference_flow := reference_flow self;
     reference_description := reference_description self;
     version := version self; emissions_flows := emissions_flows self;
     input_flows := input_flows self; location := location self;
     output_flows := output_flows self; poc := poc self;
     process_doc := process_doc self; project_doc := project_doc self;
     allocation_info := allocation_info self; param_table := param_table self;
     sources := sources self; md := md self; process_code := process_code self;
     template_path := template_path self;
     calculations_content := calculations_content self;
     disclaimer := disclaimer self |}.

(** [x or default] on an attribute that is [None] or a string. *)
Definition or_default (x : option string) (default : string) : string :=
  match x with
  | None => default
  | Some EmptyString => default
  | Some s => s
  end.

(** [bool(x)] on an attribute that is [None] or a string. *)
Definition truthy (x : option string) : bool :=
  match x with
  | None | Some EmptyString => false
  | Some _ => true
  end.

(** ["%s" % d] for a date: ISO format, the year on four digits, month and
    day on two. *)
Definition zfill (width : nat) (s : string) : string :=
  String.string_of_list_ascii
    (replicate (width - String.length s) "0"%char) +:+ s.

Definition isoformat (d : date) : string :=
  zfill 4 (pretty (year d)) +:+ "-" +:+ zfill 2 (pretty (month d)) +:+ "-"
  +:+ zfill 2 (pretty (day d)).

(** [create_report_markdown]; [today] is what the clock gives when the
    method runs. *)
Definition create_report_markdown (self : NetlOlcaReport) (today : date) : string :=
  let create_date := or_default (create_date self) (isoformat today) in
  let ref_name := or_default (reference_name self) "N/A" in
  let ref_flow := or_default (reference_flow self) "N/A" in
  let process_desc := or_default (reference_description self) "N/A" in
  let boundary_desc :=
    or_default (boundary_doc self) "Detailed boundary description not available" in
  let input_flows_md := or_default (input_flows self) "No input flows available." in
  let output_flows_md := or_default (output_flows self) "No output flows available." in
  let process_doc_md :=
    or_default (process_doc self) "No process documentation available." in
  let param_table_md := or_default (param_table self) "None" in
  let project_doc_md :=
    or_default (project_doc self) "No goal or scope info available." in
  let project_poc_md := or_default (poc self) "NETL" in
  let version_number := or_default (version self) "1.0.0" in
  let allocation_md := or_default (allocation_info self) "No allocation" in
  let sources_md :=
    if bool_decide (0 < length (sources self))
    then Py.join (nl +:+ nl) (sources self) else "None" in
  let calculations_md :=
    or_default (calculations_content self) "No calculations available." in
  Py.join nl [
    "# Overview";
    EmptyString;
    "## Process Name";
    ref_name;
    EmptyString;
    "## Reference Flow";
    ref_flow;
    EmptyString;
    "## Brief Description";
    process_desc;
    EmptyString;
    "# Metadata";
    process_doc_md;
    EmptyString;
    "## Relevant Flows Included:";
    EmptyString;
    "Releases to Air";
    ":   - [ ] Greenhouse Gases";
    "    - [ ] Criteria Air Pollutants";
    "    - [ ] Other";
    EmptyString;
    "Releases to Water";
    ":   - [ ] Inorganic Emissions";
    "    - [ ] Organic Emissions";
    "    - [ ] Other";
    EmptyString;
    "Releases to Soil";
    ":   - [ ] Inorganic Emissions";
    "    - [ ] Organic Emissions";
    "    - [ ] Other";
    EmptyString;
    "Water Usage";
    ":   - [ ] Water Demand";
    "    - [ ] Water Consumption";
    EmptyString;
    EmptyString;
    "# Process Description";
    EmptyString;
    "## Goal & Scope";
    project_doc_md;
    EmptyString;
    "## Boundary & Description";
    boundary_desc;
    EmptyString;
    "## Methods";
    EmptyString;
    "### Block Flow Diagram";
    "Link to your block flow diagram.";
    "For example:";
    EmptyString;
    "```sh";
    "![](data/diagram.png)";
    "```";
    EmptyString;
    "### Input Flows";
    input_flows_md;
    EmptyString;
    "## Output Flows";
    output_flows_md;
    EmptyString;
    "### Process Parameters";
    param_table_md;
    EmptyString;
    "### Allocation";
    allocation_md;
    EmptyString;
    "### Calculations";
    calculations_md;
    EmptyString;
    "## References";
    sources_md;
    EmptyString;
    "# Document Control Information";
    "Date Created";
    ":   " +:+ create_date;
    EmptyString;
    "Point of Contact";
    ":   " +:+ project_poc_md;
    EmptyString;
    "Revision History";
    ":   " +:+ version_number;
    EmptyString;
    "How to Cite This Document";
    ":   TBA";
    EmptyString;
    "# Disclaimer/Terms of Use";
    disclaimer self;
    "        " ].

(** The bracket class of the pattern [p2] of [get_file_name]: the regular
    expression is [[/@.,&'\\\(|\)<>#;]+], whose members are the fourteen
    characters below (the backslash is number 92). *)
Definition special_chars : string :=
  "/@.,&'" +:+ String (ascii_of_N 92) "(|)<>#;".

Definition is_special (c : ascii) : bool := Py.char_in special_chars c.
Definition is_underscore (c : ascii) : bool := Ascii.eqb c "_"%char.

(** [get_file_name] *)
Definition get_file_name (self : NetlOlcaReport) (ext : string) : result string :=
  let ext := Py.lower ext in
  (* Correct parameters missing the dot with extension *)
  let ext := if negb (Py.startswith ext ".") then "." +:+ ext else ext in
  (* Error handle non-valid file extensions *)
  if negb (bool_decide (ext ∈ valid_ext)) then
    Raise (ValueError ("Invalid file extension: '" +:+ ext +:+ "'"))
  else
    let ext := if String.eqb ext ".txt" then ".md" else ext in
    let r_name := "report" +:+ ext in
    if truthy (reference_name self) then
      let name := default EmptyString (reference_name self) in
      (* No spaces in file names *)
      let r_name := Py.re_sub_plus Py.isspace_char "_" name in
      (* No special characters in file names *)
      let r_name := Py.re_sub_plus is_special "_" r_name in
      (* Reduce extra underscores *)
      let r_name := Py.re_sub_plus is_underscore "_" r_name in
      (* Drop trailing underscore *)
      match Py.last_char r_name with
      | None => Raise IndexError
      | Some c =>
          let r_name := if Ascii.eqb c "_"%char then Py.drop_last r_name else r_name in
          Ok (r_name +:+ ext)
      end
    else Ok r_name.

(** [os.path.join(a, b)] with the POSIX separator. *)
Definition path_join (a b : string) : string :=
  if Py.startswith b "/" then b
  else match Py.last_char a with
       | None => b
       | Some c => if Ascii.eqb c "/"%char then a +:+ b else a +:+ "/" +:+ b
       end.

(** [get_file_path] *)
Definition get_file_path (self : NetlOlcaReport) (ext : string) : result string :=
  match get_file_name self ext with
  | Ok f_name => Ok (path_join OUTPUT_DIR f_name)
  | Raise e => Raise e
  end.

(** The files of the machine: the text of each file that exists, and the
    paths that can be opened for writing. *)
Record FileSystem : Type := {
  files : gmap string string;
  writable : string → bool
}.

Definition write_file (path text : string) (fs : FileSystem) : FileSystem :=
  {| files := <[path := text]> (files fs); writable := writable fs |}.

(** Reading a text file opened with the default [newline=None]: the line
    ends CR LF and CR come back as LF. *)
Fixpoint universal_newlines (s : string) : string :=
  match s with
  | EmptyString => EmptyString
  | String c s' =>
      if Ascii.eqb c CR then
        match s' with
        | String c' s'' =>
            if Ascii.eqb c' LF then String LF (universal_newlines s'')
            else String LF (universal_newlines s')
        | EmptyString => String LF EmptyString
        end
      else String c (universal_newlines s')
  end.

(** The lines of a text, each with its line end; the last one may have none. *)
Fixpoint keepends (s : string) : list string :=
  match s with
  | EmptyString => []
  | String c s' =>
      if Ascii.eqb c LF then String c EmptyString :: keepends s'
      else match keepends s' with
           | [] => [String c EmptyString]
           | l :: ls => String c l :: ls
           end
  end.

(** [f.readlines()] *)
Definition readlines (contents : string) : list string :=
  keepends (universal_newlines contents).

(** The loop of [read_report_markdown] over the lines read. *)
Definition strip_lines (lines : list string) : string :=
  foldl (λ md_txt line, md_txt +:+ (Py.rstrip line +:+ nl)) EmptyString lines.

(** [read_report_markdown] *)
Definition read_report_markdown (self : NetlOlcaReport) (fs : FileSystem)
    (md_file : option string) : result NetlOlcaReport :=
  let path :=
    match md_file with
    | None => get_file_path self "md"
    | Some p => Ok p
    end in
  match path with
  | Raise e => Raise e
  | Ok md_file =>
      match files fs !! md_file with
      | None => Raise (OSError ("Could not read markdown file, " +:+ md_file +:+ "!"))
      | Some contents => Ok (set_md (Some (strip_lines (readlines contents))) self)
      end
  end.

(** [save_markdown]: the report is rendered and kept in [md] before the
    file is opened; the file is written in one piece, with no translation
    of line ends. *)
Definition save_markdown (self : NetlOlcaReport) (today : date) (fs : FileSystem)
    : result unit * NetlOlcaReport * FileSystem :=
  let self := set_md (Some (create_report_markdown self today)) self in
  match get_file_path self "md" with
  | Raise e => (Raise e, self, fs)
  | Ok file_path =>
      if writable fs file_path then
        (Ok (), self, write_file file_path (default EmptyString (md self)) fs)
      else (Raise (OSError file_path), self, fs)
  end.

(** [_fix_formula]; [latex_of s] stands for [sympy.latex(sympy.sympify(s))]
    and is [None] where sympy raises. *)
Definition is_given (v : pyval) : bool :=
  match v with
  | PyStr EmptyString | PyNaN | PyNone => false
  | PyStr _ => true
  end.

Definition str_of (v : pyval) : string :=
  match v with
  | PyStr s => s
  | _ => EmptyString
  end.

Definition is_star (c : ascii) : bool := Ascii.eqb c "*"%char.
Definition backslash : string := String (ascii_of_N 92) EmptyString.

Definition _fix_formula (latex_of : string → option string)
    (p_name f_txt : pyval) (in_line : bool) : result string :=
  (* Return empty string if there is no formula *)
  if negb (is_given f_txt) then Ok EmptyString
  else
    let has_name := is_given p_name in
    let has_form := is_given f_txt in
    let left_side := if has_name then latex_of (str_of p_name) else Some EmptyString in
    let right_side :=
      match left_side with
      | None => None
      | Some _ => if has_form then latex_of (str_of f_txt) else Some EmptyString
      end in
    match left_side, right_side with
    | Some left_side, Some right_side =>
        let new_txt :=
          if has_name && has_form then left_side +:+ " = " +:+ right_side
          else if has_name && negb has_form then left_side
          else right_side in
        if in_line then Raise (ValueError "incomplete format")
        else Ok ("$$" +:+ nl +:+ new_txt +:+ nl +:+ "$$")
    | _, _ =>
        let f_txt :=
          if has_name && has_form then str_of p_name +:+ " = " +:+ str_of f_txt
          else if has_name && negb has_form then str_of p_name
          else str_of f_txt in
        let new_txt := Py.re_sub_one is_star (backslash +:+ "*") f_txt in
        let new_txt := Py.re_sub_one is_underscore (backslash +:+ "_") new_txt in
        Ok new_txt
    end.

(** [_fix_uncertainty].  The numbers of an uncertainty are floats; [V] is
    their type and [show v] the text of ["%s" % v]. *)
Record Uncertainty (V : Type) : Type := {
  distribution_type : option string;
  geom_mean : option V;
  geom_sd : option V;
  maximum : option V;
  mean : option V;
  minimum : option V;
  mode : option V;
  sd : option V
}.
Arguments distribution_type {V} _.
Arguments geom_mean {V} _.
Arguments geom_sd {V} _.
Arguments maximum {V} _.
Arguments mean {V} _.
Arguments minimum {V} _.
Arguments mode {V} _.
Arguments sd {V} _.

Record OlcaParameter (V : Type) : Type := {
  uncertainty : option (Uncertainty V)
}.
Arguments uncertainty {V} _.

Definition u_names : list string :=
  ["gmean"; "gsdev"; "max"; "ave"; "min"; "mode"; "sdev"].

Definition _fix_uncertainty {V : Type} (show : V → string)
    (param : option (OlcaParameter V)) : result string :=
  match param with
  | None => Ok "none"
  | Some param =>
      match uncertainty param with
      | None => Ok "none"
      | Some u =>
          match distribution_type u with
          | None => Raise (AttributeError "name")
          | Some u_type =>
              let u_type := Py.replace_char "_" " " u_type in
              let u_type := Py.title u_type in
              let u_params :=
                [geom_mean u; geom_sd u; maximum u; mean u; minimum u; mode u; sd u] in
              let num_params := length u_params in
              let u_params :=
                omap (λ i,
                  match u_params !! i with
                  | Some (Some v) =>
                      Some (default EmptyString (u_names !! i) +:+ ":" +:+ show v)
                  | _ => None
                  end) (seq 0 num_params) in
              let u_params := Py.join ", " u_params in
              Ok (u_type +:+ " (" +:+ u_params +:+ ")")
          end
      end
  end.

(** ** The formatters of the fetched data *)

(** [re.sub("\\r\\n", repl, s)]: the pattern is the pair CR LF; every
    pair is replaced, from the left. *)
Fixpoint re_sub_crlf (repl s : string) : string :=
  match s with
  | EmptyString => EmptyString
  | String c s' =>
      match s' with
      | String c' s'' =>
          if Ascii.eqb c CR && Ascii.eqb c' LF then repl +:+ re_sub_crlf repl s''
          else String c (re_sub_crlf repl s')
      | EmptyString => String c EmptyString
      end
  end.

(** [s.split(sep)] for a one-character separator. *)
Fixpoint split (sep : ascii) (s : string) : list string :=
  match s with
  | EmptyString => [EmptyString]
  | String c s' =>
      if Ascii.eqb c sep then EmptyString :: split sep s'
      else match split sep s' with
           | [] => [String c EmptyString]
           | w :: ws => String c w :: ws
           end
  end.

(** An olca-schema [Source], by the attributes that [format_source]
    reads.  ["%s" % None] is the text [None]; a year is an integer. *)
Record Source : Type := {
  source_name : option string;
  source_year : option Z;
  source_text_reference : option string;
  source_description : option string;
  source_url : option string
}.

(** [format_source] *)
Definition format_source (s_obj : Source) : string :=
  (* Part 1 of the citation, author. *)
  let s_txt := default "None" (source_name s_obj) in
  (* Part 2, year *)
  let s_txt :=
    match source_year s_obj with
    | Some y =>
        if bool_decide (y = 0%Z) then s_txt
        else s_txt +:+ " (" +:+ pretty y +:+ ")"
    | None => s_txt
    end in
  (* Part 3, title *)
  let s_txt :=
    if truthy (source_text_reference s_obj)
    then s_txt +:+ ". " +:+ default EmptyString (source_text_reference s_obj)
    else if truthy (source_description s_obj)
    then s_txt +:+ ". " +:+ default EmptyString (source_description s_obj)
    else s_txt in
  (* Part 4, URL *)
  let s_txt :=
    if truthy (source_url s_obj)
    then s_txt +:+ ". Online: "
         +:+ re_sub_crlf EmptyString (default EmptyString (source_url s_obj))
    else s_txt in
  (* Clean-up step *)
  re_sub_crlf " " s_txt.

(** [p.get(key, d)] on a dictionary of texts. *)
Definition dict_get (p : gmap string string) (key d : string) : string :=
  match p !! key with
  | Some v => v
  | None => d
  end.

(** [format_process_doc] on a dictionary of texts.  The unpacking
    [date_part, _ = creation.split('T')] raises [ValueError] unless the
    split gives two parts; [unpack_error n] is the text of that exception
    for [n] parts, which the [except] clause puts in the returned
    sentence. *)
Definition format_process_doc (unpack_error : nat → string)
    (self : NetlOlcaReport) (p : gmap string string) : string :=
  if bool_decide (p = ∅) then "No process documentation available."
  else
    (* Initialize table *)
    let pd_markdown :=
      "| Feature | Information |" +:+ nl +:+ "|-----------|----------|" +:+ nl in
    let location := or_default (location self) "N/A" in
    (* Extracting data from process documentation *)
    let valid_from := dict_get p "validFrom" "N/A" in
    let valid_until := dict_get p "validUntil" "N/A" in
    let creation := dict_get p "creationDate" "N/A" in
    match split "T" creation with
    | [date_part; _] =>
        let process_type := dict_get p "processType" (process_code self) in
        let process_scope := dict_get p "technologyDescription" "N/A" in
        let data_completeness := dict_get p "completeness_description" "N/A" in
        let system_boundary := "Cradle-to-Gate" in
        let process_scope := Py.replace_char LF " " process_scope in
        pd_markdown
        +:+ ("| Location | " +:+ location +:+ " |" +:+ nl)
        +:+ ("| Valid From | " +:+ valid_from +:+ " |" +:+ nl)
        +:+ ("| Valid Until | " +:+ valid_until +:+ " |" +:+ nl)
        +:+ ("| Creation Date | " +:+ date_part +:+ " |" +:+ nl)
        +:+ ("| Process Type | " +:+ process_type +:+ " |" +:+ nl)
        +:+ ("| Process Scope | " +:+ process_scope +:+ " |" +:+ nl)
        +:+ ("| System Boundary | " +:+ system_boundary +:+ " |" +:+ nl)
        +:+ ("| Completeness | " +:+ data_completeness +:+ " |" +:+ nl)
    | parts =>
        "Error in processing process documentation: "
        +:+ unpack_error (length parts)
    end.

(** The dictionary of flows that [format_flows] receives: a list under
    each of its five keys.  [V] is the type of the amounts. *)
Record FlowTable (V : Type) : Type := {
  flow_category : list string;
  flow_dq : list string;
  flow_name : list string;
  flow_amount : list V;
  flow_unit : list string
}.
Arguments flow_category {V} _.
Arguments flow_dq {V} _.
Arguments flow_name {V} _.
Arguments flow_amount {V} _.
Arguments flow_unit {V} _.

(** The argument of [format_flows]: [None] or an empty dictionary, a
    string, or a dictionary of flows. *)
Inductive flows_arg (V : Type) : Type :=
  | FlowsNone
  | FlowsStr (s : string)
  | FlowsDict (t : FlowTable V).
Arguments FlowsNone {V}.
Arguments FlowsStr {V} s.
Arguments FlowsDict {V} t.

(** One round of the loop of [format_flows].  [sci v] is the text of
    ["%0.3E" % v], and [None] where the operator raises [TypeError]; the
    round then gives [Ok None], the exception being one that the method
    catches.  An index out of range raises [IndexError], which it does
    not catch. *)
Definition flow_row {V : Type} (sci : V → option string) (t : FlowTable V)
    (i : nat) : result (option string) :=
  match flow_category t !! i with
  | None => Raise IndexError
  | Some comp =>
  match flow_dq t !! i with
  | None => Raise IndexError
  | Some dq =>
  match flow_name t !! i with
  | None => Raise IndexError
  | Some name =>
  match flow_amount t !! i with
  | None => Raise IndexError
  | Some amount =>
  match sci amount with
  | None => Ok None
  | Some quantity =>
  match flow_unit t !! i with
  | None => Raise IndexError
  | Some unit =>
      Ok (Some ("| " +:+ comp +:+ " | " +:+ name +:+ " | " +:+ quantity
                +:+ " | " +:+ unit +:+ " | " +:+ dq +:+ " |" +:+ nl))
  end end end end end end.

Fixpoint flow_rows {V : Type} (sci : V → option string) (t : FlowTable V)
    (range : list nat) (flows_markdown : string) : result (option string) :=
  match range with
  | [] => Ok (Some flows_markdown)
  | i :: range' =>
      match flow_row sci t i with
      | Raise e => Raise e
      | Ok None => Ok None
      | Ok (Some row) => flow_rows sci t range' (flows_markdown +:+ row)
      end
  end.

Definition flows_header : string :=
  "| Compartment | Flow Name | Quantity | Unit | DQI |" +:+ nl +:+
  "|-------------|-----------|----------|------|-----|" +:+ nl.

(** [format_flows] *)
Definition format_flows {V : Type} (sci : V → option string)
    (flows : flows_arg V) : result string :=
  match flows with
  | FlowsNone | FlowsStr _ => Ok "No flow data available."
  | FlowsDict t =>
      (* Check for expected list length: *)
      let num_vals := length (flow_name t) in
      match flow_rows sci t (seq 0 num_vals) flows_header with
      | Raise e => Raise e
      | Ok None => Ok "Error in processing flow data."
      | Ok (Some flows_markdown) => Ok flows_markdown
      end
  end.

(** [get_multiline_input] on a console with the lines [stdin] to come:
    the value returned, the lines left, and the two lines printed.  The
    call [input()] has no prompt. *)
Fixpoint read_until (end_marker : string) (stdin lines : list string)
    : result (list string) * list string :=
  match stdin with
  | [] => (Raise EOFError, [])
  | line :: rest =>
      if String.eqb (Py.strip line) end_marker then (Ok lines, rest)
      else read_until end_marker rest (lines ++ [line])
  end.

Definition get_multiline_input (prompt end_marker : string) (stdin : list string)
    : result string * list string * list string :=
  let printed :=
    [prompt; "(Type '" +:+ end_marker +:+ "' on a new line to finish)"] in
  match read_until end_marker stdin [] with
  | (Ok lines, rest) => (Ok (Py.join nl lines), rest, printed)
  | (Raise e, rest) => (Raise e, rest, printed)
  end.

(** ** The parameter section *)

(** An olca-schema [Parameter], by the attributes that
    [format_parameter_table] reads; [parameter_scope] is the name of the
    scope, [x.parameter_scope.name]. *)
Record ProcessParameter (V : Type) : Type := {
  parameter_name : string;
  parameter_value : V;
  is_input_parameter : bool;
  parameter_scope : string;
  parameter_formula : pyval;
  parameter_description : string;
  parameter_uncertainty : option (Uncertainty V)
}.
Arguments parameter_name {V} _.
Arguments parameter_value {V} _.
Arguments is_input_parameter {V} _.
Arguments parameter_scope {V} _.
Arguments parameter_formula {V} _.
Arguments parameter_description {V} _.
Arguments parameter_uncertainty {V} _.

(** [o.ParameterScope.PROCESS_SCOPE.name] and
    [o.ParameterScope.GLOBAL_SCOPE.name] *)
Definition PROCESS_SCOPE : string := "PROCESS_SCOPE".
Definition GLOBAL_SCOPE : string := "GLOBAL_SCOPE".

(** The body of the four loops of [format_parameter_table]: the row of
    the table and, for a calculated parameter, its formula.  [sci v] is
    the text of ["%0.3E" % v], and [None] where the operator raises
    [TypeError]. *)
Definition parameter_row {V : Type} (sci : V → option string) (show : V → string)
    (latex_of : string → option string) (calculated : bool)
    (param : ProcessParameter V) : result (string * string) :=
  let p_name := parameter_name param in
  match sci (parameter_value param) with
  | None => Raise (TypeError "must be real number")
  | Some p_value =>
      match _fix_uncertainty show
              (Some {| uncertainty := parameter_uncertainty param |}) with
      | Raise e => Raise e
      | Ok p_uncert =>
          match (if calculated
                 then _fix_formula latex_of (PyStr p_name)
                        (parameter_formula param) false
                 else Ok EmptyString) with
          | Raise e => Raise e
          | Ok p_form =>
              let p_descr := re_sub_crlf " " (parameter_description param) in
              let p_items := [EmptyString; p_name; p_value; p_uncert; p_descr] in
              let p_string := Py.join " | " p_items in
              Ok ("| " +:+ p_string +:+ " |" +:+ nl, p_form)
          end
      end
  end.

(** [for param in params: ...], on the table and the formulas so far. *)
Fixpoint parameter_rows {V : Type} (sci : V → option string) (show : V → string)
    (latex_of : string → option string) (calculated : bool)
    (params : list (ProcessParameter V)) (md_table md_formula : string)
    : result (string * string) :=
  match params with
  | [] => Ok (md_table, md_formula)
  | param :: params' =>
      match parameter_row sci show latex_of calculated param with
      | Raise e => Raise e
      | Ok (row, p_form) =>
          parameter_rows sci show latex_of calculated params'
            (md_table +:+ row)
            (if calculated then md_formula +:+ (p_form +:+ nl +:+ nl)
             else md_formula)
      end
  end.

(** [format_parameter_table] *)
Definition format_parameter_table {V : Type} (sci : V → option string)
    (show : V → string) (latex_of : string → option string)
    (param_list : list (ProcessParameter V)) : result string :=
  (* Calculate total number of parameters *)
  let num_params := length param_list in
  let proc_input_params :=
    List.filter (λ x, is_input_parameter x
                      && String.eqb (parameter_scope x) PROCESS_SCOPE) param_list in
  let proc_calc_params :=
    List.filter (λ x, negb (is_input_parameter x)
                      && String.eqb (parameter_scope x) PROCESS_SCOPE) param_list in
  let glob_input_params :=
    List.filter (λ x, is_input_parameter x
                      && String.eqb (parameter_scope x) GLOBAL_SCOPE) param_list in
  let glob_calc_params :=
    List.filter (λ x, negb (is_input_parameter x)
                      && String.eqb (parameter_scope x) GLOBAL_SCOPE) param_list in
  (* Get total number of process-level parameters *)
  let num_proc_params := length proc_input_params + length proc_calc_params in
  (* Get total number of global parameters *)
  let num_glob_params := length glob_input_params + length glob_calc_params in
  (* Initialize formula section *)
  let md_formula :=
    if bool_decide (0 < length proc_calc_params ∨ 0 < length glob_calc_params)
    then "The following are parameter formulas used or referenced "
         +:+ "in this process." +:+ nl +:+ nl
    else EmptyString in
  (* Initialize parameter table *)
  let md_table :=
    if bool_decide (0 < num_params)
    then "The following table provides process and global parameter "
         +:+ "values and their associated uncertainty." +:+ nl +:+ nl
         +:+ ("| Scope | Name | Value | Uncertainty | Description |" +:+ nl)
         +:+ ("|:------|:-----|------:|:------------|:------------|" +:+ nl)
    else EmptyString in
  let process_part :=
    if bool_decide (0 < num_proc_params) then
      match parameter_rows sci show latex_of false proc_input_params
              (md_table +:+ ("| Process |  |  |  |  |" +:+ nl)) md_formula with
      | Raise e => Raise e
      | Ok (md_table, md_formula) =>
          parameter_rows sci show latex_of true proc_calc_params md_table md_formula
      end
    else Ok (md_table, md_formula) in
  match process_part with
  | Raise e => Raise e
  | Ok (md_table, md_formula) =>
      let global_part :=
        if bool_decide (0 < num_glob_params) then
          match parameter_rows sci show latex_of false glob_input_params
                  (md_table +:+ ("| Global |  |  |  |  |" +:+ nl)) md_formula with
          | Raise e => Raise e
          | Ok (md_table, md_formula) =>
              parameter_rows sci show latex_of true glob_calc_params md_table md_formula
          end
        else Ok (md_table, md_formula) in
      match global_part with
      | Raise e => Raise e
      | Ok (md_table, md_formula) =>
          (* Add the formulas before the parameter table. *)
          Ok (md_formula +:+ md_table)
      end
  end.

(** ** Publishing with pandoc *)

(** [os.path.isfile] on the files of the machine. *)
Definition isfile (fs : FileSystem) (path : string) : bool :=
  bool_decide (is_Some (files fs !! path)).











End Report.

(** * The menu interpreter: [Interface.py] *)

(** ** The collaborators

    [NetlOlca] is the connector of the third-party package netlolca; the
    interpreter reaches it as [self.netl].  Each method is a function of
    the connector's state; a method that changes the connector returns the
    new state, also when it raises. *)
Class NetlOlca : Type := {
  connector : Type;
  actor : Type;
  process : Type;
  actor_name : actor → string;
  actor_address : actor → string;
  (* p.process_documentation.reviewer = a.to_ref() *)
  with_reviewer : actor → process → process;
  netl_open : string → connector → result unit * connector;
  netl_read : connector → result unit * connector;
  netl_connect : connector → result unit * connector;
  netl_port : connector → Z;
  (* the setter of the port property *)
  netl_set_port : string → connector → result unit * connector;
  get_number_product_systems : connector → result nat;
  (* the lines that print_project writes *)
  print_project : string → connector → result (list string);
  (* get_spec_ids(get_spec_class(cls)) *)
  get_spec_ids : string → connector → result (list string);
  get_reference_name : string → connector → result (option string);
  (* the name in the pair that get_reviewer returns *)
  get_reviewer : string → connector → result string;
  (* the lists under the keys name, address and uuid of get_actors(unique=True) *)
  get_actors : connector → result (list string * list string * list string);
  get_actor_yaml : string → connector → result string;
  get_yaml_entities : string → connector → result (list actor);
  (* query(get_spec_class('Actor'), uid) *)
  query_actor : string → connector → result (option actor);
  (* get_reference_process(uuid, as_ref=False)[0] *)
  get_reference_process : string → connector → result (option process);
  (* add(entity, out_file) *)
  add_actor_entity : actor → connector → result bool * connector;
  add_process_entity : process → connector → result bool * connector
}.

(** What the interpreter asks of the operating system. *)
Record OperatingSystem : Type := {
  isdir : string → bool;
  isfile : string → bool;
  glob : string → list string;
  pandoc_installed : bool
}.

Module Interface.

(** The bound methods of the option table. *)
Inductive action : Type :=
  | ConnectJson | AssignWorkingDir | AssignProjectFile
  | ConnectOlca | AssignServerPort | OpenServer
  | Query | QueryDescription | QueryDocumentation | QueryCategory | QueryFlows
  | HandleReportGeneration | PrintReport | SaveReport | ReadReport
  | HandleReportPublication | ConvertToPdf | ConvertToWord | ConvertToHtml
  | AddProcessType | AssignCalculationFile
  | Quit | ShowOptions | ShowMisc
  | Edit | AddActor | EditReviewer | AssignProductSystem.

Inductive dump_action : Type :=
  | GetWorkingDir | GetProjectFile | GetServerPort.

(** One entry of [self.params]. *)
Record MenuOption : Type := {
  name : string;
  text : string;
  type : string;
  show : bool;
  func : option action;
  dump : option dump_action;
  help : string
}.

Definition set_show (v : bool) (o : MenuOption) : MenuOption :=
  {| name := name o; text := text o; type := type o; show := v;
     func := func o; dump := dump o; help := help o |}.

Definition dquote : string := String (ascii_of_N 34) EmptyString.

(** The option table of [__init__], in the order of the source. *)
Definition initial_params (work_dir : string) : list (string * MenuOption) :=
  [
    ("1", {| name := "CONNECT TO JSON-LD";
            text := "connect to JSON-LD";
            type := "option"; show := true; func := Some ConnectJson; dump := None;
            help := "Connect to a JSON-LD file in your data directory." |});
    ("1a", {| name := "SET DIRECTORY";
            text := "change data directory (default " +:+ dquote +:+ work_dir +:+ dquote +:+ ")";
            type := "connection_json"; show := true; func := Some AssignWorkingDir; dump := Some GetWorkingDir;
            help := "Type the path to the folder on you computer where your " +:+
              "openLCA JSON-LD zip files are located." |});
    ("1b", {| name := "OPEN JSON-LD FILE";
            text := "select JSON-LD file from data directory";
            type := "connection_json"; show := true; func := Some AssignProjectFile; dump := Some GetProjectFile;
            help := "Connect to an openLCA project using a JSON-LD zip file." |});
    ("2", {| name := "CONNECT TO OPENLCA";
            text := "connect to openLCA";
            type := "option"; show := true; func := Some ConnectOlca; dump := None;
            help := "Connect to an openLCA database (e.g., using IPC service)" |});
    ("2a", {| name := "SET IPC SERVER PORT";
            text := "define the server port number";
            type := "connection_olca"; show := true; func := Some AssignServerPort; dump := Some GetServerPort;
            help := "Set port number for openLCA IPC/GDT server." |});
    ("2b", {| name := "OPEN IPC SERVER";
            text := "connect to openLCA server";
            type := "connection_olca"; show := true; func := Some OpenServer; dump := None;
            help := "Connect to an openLCA project using IPC server." |});
    ("3", {| name := "REVIEW DATA";
            text := "review data";
            type := "option"; show := false; func := Some Query; dump := None;
            help := "Open the review data menu." |});
    ("3a", {| name := "DESCRIPTION";
            text := "review process description";
            type := "query"; show := true; func := Some QueryDescription; dump := None;
            help := "Show the unit process description." |});
    ("3b", {| name := "DOCUMENTATION";
            text := "review process documentation";
            type := "query"; show := true; func := Some QueryDocumentation; dump := None;
            help := "Show the unit process documentation." |});
    ("3c", {| name := "CATEGORY";
            text := "review process category";
            type := "query"; show := true; func := Some QueryCategory; dump := None;
            help := "Show the unit process category." |});
    ("3d", {| name := "FLOW";
            text := "review process flows";
            type := "query"; show := true; func := Some QueryFlows; dump := None;
            help := "Show the unit process input/output flows." |});
    ("4", {| name := "GENERATE REPORT";
            text := "generate report";
            type := "option"; show := false; func := Some HandleReportGeneration; dump := None;
            help := "Generate a detailed report of the current process." |});
    ("4a", {| name := "DISPLAY REPORT";
            text := "Display a draft of the report template";
            type := "report"; show := true; func := Some PrintReport; dump := None;
            help := "Show the generated report on screen." |});
    ("4b", {| name := "WRITE REPORT";
            text := "Write report template to file";
            type := "report"; show := true; func := Some SaveReport; dump := None;
            help := "Writes the report as a plain text file in markdown format" |});
    ("4c", {| name := "READ REPORT";
            text := "Read report template from file";
            type := "report"; show := true; func := Some ReadReport; dump := None;
            help := "Read existing plain text report" |});
    ("5", {| name := "PUBLISH REPORT";
            text := "publish report";
            type := "option"; show := false; func := Some HandleReportPublication; dump := None;
            help := "Publish report to a file format (e.g., .docx, .pdf, or " +:+
              ".html)." |});
    ("5a", {| name := "TO PDF";
            text := "publish report as .pdf";
            type := "publish"; show := true; func := Some ConvertToPdf; dump := None;
            help := "Convert the markdown report to published document format." |});
    ("5b", {| name := "TO WORD";
            text := "publish report as .docx";
            type := "publish"; show := true; func := Some ConvertToWord; dump := None;
            help := "Convert the markdown report to Microsoft Word format." |});
    ("5c", {| name := "TO HTML";
            text := "publish report as .html";
            type := "publish"; show := true; func := Some ConvertToHtml; dump := None;
            help := "Convert the markdown report to hypertext markup language " +:+
              "format." |});
    ("6", {| name := "PROCESS TYPE";
            text := "choose process type";
            type := "option"; show := false; func := Some AddProcessType; dump := None;
            help := "Select the proper process type (e.g., .EP, MP, BP, IP, " +:+
              "EC, TP, RP)." |});
    ("7", {| name := "CALCULATION WORKBOOK";
            text := "choose calculation workbook";
            type := "option"; show := false; func := Some AssignCalculationFile; dump := None;
            help := "Select an auxillary Excel workbook with supplemental " +:+
              "calculations to add to your report." |});
    ("q", {| name := "QUIT";
            text := "quit";
            type := "option"; show := false; func := Some Quit; dump := None;
            help := "Use this command any time to exit the program." |});
    ("h", {| name := "HELP";
            text := EmptyString;
            type := "option"; show := false; func := None; dump := None;
            help := "Displays the help message for a given option." |});
    ("m", {| name := "MAIN MENU";
            text := "main menu";
            type := "option"; show := false; func := Some ShowOptions; dump := None;
            help := "Open the main menu." |});
    ("o", {| name := "OTHER OPTIONS";
            text := "other options";
            type := "option"; show := false; func := Some ShowMisc; dump := None;
            help := "Open the other options menu (e.g., for editing and " +:+
              "changing product systems)." |});
    ("e", {| name := "EDIT PROCESS";
            text := "edit process";
            type := "misc"; show := true; func := Some Edit; dump := None;
            help := "Open edit menu. Only available for JSON-LD." |});
    ("e1", {| name := "ADD ACTOR";
            text := "add new person or organization";
            type := "edit"; show := true; func := Some AddActor; dump := None;
            help := "Add actor to openLCA project." |});
    ("e2", {| name := "EDIT REVIEWER";
            text := "edit reviewer";
            type := "edit"; show := true; func := Some EditReviewer; dump := None;
            help := "Edit reviewer name in the process documentation." |});
    ("p", {| name := "CHANGE UNIT PROCESS";
            text := "select product system";
            type := "misc"; show := true; func := Some AssignProductSystem; dump := None;
            help := "Select the product system that represents the unit " +:+
              "process to review and report." |})
  ].

(** The outcome of a method: it returns, it raises, or (a loop of the
    model only) it runs out of fuel. *)
Inductive outcome (A : Type) : Type :=
  | Done (a : A)
  | Raised (e : exn)
  | OutOfFuel.
Arguments Done {A} a.
Arguments Raised {A} e.
Arguments OutOfFuel {A}.

Section Interpreter.

Context `{NetlOlca}.
Variable os : OperatingSystem.

(** The attributes of an [Interface] instance, the connector it reaches
    through [self.rd.netlolca], and the console: the lines still to be
    typed and what has been written so far. *)
Record Session : Type := {
  is_okay : bool;
  is_running : bool;
  _hidden_state : Z;
  json_set : list string;
  calc_set : list string;
  calc_dir : string;
  calc_file : string;
  work_dir : string;
  work_file : string;
  output_dir : string;
  product_sys_uid : string;
  rd : Report.NetlOlcaReport;
  netl : connector;
  params : gmap string MenuOption;
  stdin : list string;
  stdout : list string
}.

Definition with_is_okay (v : bool) (s : Session) : Session :=
  {| is_okay := v; is_running := is_running s;
     _hidden_state := _hidden_state s; json_set := json_set s;
     calc_set := calc_set s; calc_dir := calc_dir s;
     calc_file := calc_file s; work_dir := work_dir s;
     work_file := work_file s; output_dir := output_dir s;
     product_sys_uid := product_sys_uid s; rd := rd s; netl := netl s;
     params := params s; stdin := stdin s; stdout := stdout s |}.

Definition with_is_running (v : bool) (s : Session) : Session :=
  {| is_okay := is_okay s; is_running := v; _hidden_state := _hidden_state s;
     json_set := json_set s; calc_set := calc_set s; calc_dir := calc_dir s;
     calc_file := calc_file s; work_dir := work_dir s;
     work_file := work_file s; output_dir := output_dir s;
     product_sys_uid := product_sys_uid s; rd := rd s; netl := netl s;
     params := params s; stdin := stdin s; stdout := stdout s |}.

Definition with_hidden_state (v : Z) (s : Session) : Session :=
  {| is_okay := is_okay s; is_running := is_running s; _hidden_state := v;
     json_set := json_set s; calc_set := calc_set s; calc_dir := calc_dir s;
     calc_file := calc_file s; work_dir := work_dir s;
     work_file := work_file s; output_dir := output_dir s;
     product_sys_uid := product_sys_uid s; rd := rd s; netl := netl s;
     params := params s; stdin := stdin s; stdout := stdout s |}.

Definition with_json_set (v : list string) (s : Session) : Session :=
  {| is_okay := is_okay s; is_running := is_running s;
     _hidden_state := _hidden_state s; json_set := v; calc_set := calc_set s;
     calc_dir := calc_dir s; calc_file := calc_file s;
     work_dir := work_dir s; work_file := work_file s;
     output_dir := output_dir s; product_sys_uid := product_sys_uid s;
     rd := rd s; netl := netl s; params := params s; stdin := stdin s;
     stdout := stdout s |}.

Definition with_calc_set (v : list string) (s : Session) : Session :=
  {| is_okay := is_okay s; is_running := is_running s;
     _hidden_state := _hidden_state s; json_set := json_set s; calc_set := v;
     calc_dir := calc_dir s; calc_file := calc_file s;
     work_dir := work_dir s; work_file := work_file s;
     output_dir := output_dir s; product_sys_uid := product_sys_uid s;
     rd := rd s; netl := netl s; params := params s; stdin := stdin s;
     stdout := stdout s |}.

Definition with_calc_file (v : string) (s : Session) : Session :=
  {| is_okay := is_okay s; is_running := is_running s;
     _hidden_state := _hidden_state s; json_set := json_set s;
     calc_set := calc_set s; calc_dir := calc_dir s; calc_file := v;
     work_dir := work_dir s; work_file := work_file s;
     output_dir := output_dir s; product_sys_uid := product_sys_uid s;
     rd := rd s; netl := netl s; params := params s; stdin := stdin s;
     stdout := stdout s |}.

Definition with_work_dir (v : string) (s : Session) : Session :=
  {| is_okay := is_okay s; is_running := is_running s;
     _hidden_state := _hidden_state s; json_set := json_set s;
     calc_set := calc_set s; calc_dir := calc_dir s;
     calc_file := calc_file s; work_dir := v; work_file := work_file s;
     output_dir := output_dir s; product_sys_uid := product_sys_uid s;
     rd := rd s; netl := netl s; params := params s; stdin := stdin s;
     stdout := stdout s |}.

Definition with_work_file (v : string) (s : Session) : Session :=
  {| is_okay := is_okay s; is_running := is_running s;
     _hidden_state := _hidden_state s; json_set := json_set s;
     calc_set := calc_set s; calc_dir := calc_dir s;
     calc_file := calc_file s; work_dir := work_dir s; work_file := v;
     output_dir := output_dir s; product_sys_uid := product_sys_uid s;
     rd := rd s; netl := netl s; params := params s; stdin := stdin s;
     stdout := stdout s |}.

Definition with_product_sys_uid (v : string) (s : Session) : Session :=
  {| is_okay := is_okay s; is_running := is_running s;
     _hidden_state := _hidden_state s; json_set := json_set s;
     calc_set := calc_set s; calc_dir := calc_dir s;
     calc_file := calc_file s; work_dir := work_dir s;
     work_file := work_file s; output_dir := output_dir s;
     product_sys_uid := v; rd := rd s; netl := netl s; params := params s;
     stdin := stdin s; stdout := stdout s |}.

Definition with_rd (v : Report.NetlOlcaReport) (s : Session) : Session :=
  {| is_okay := is_okay s; is_running := is_running s;
     _hidden_state := _hidden_state s; json_set := json_set s;
     calc_set := calc_set s; calc_dir := calc_dir s;
     calc_file := calc_file s; work_dir := work_dir s;
     work_file := work_file s; output_dir := output_dir s;
     product_sys_uid := product_sys_uid s; rd := v; netl := netl s;
     params := params s; stdin := stdin s; stdout := stdout s |}.

Definition with_netl (v : connector) (s : Session) : Session :=
  {| is_okay := is_okay s; is_running := is_running s;
     _hidden_state := _hidden_state s; json_set := json_set s;
     calc_set := calc_set s; calc_dir := calc_dir s;
     calc_file := calc_file s; work_dir := work_dir s;
     work_file := work_file s; output_dir := output_dir s;
     product_sys_uid := product_sys_uid s; rd := rd s; netl := v;
     params := params s; stdin := stdin s; stdout := stdout s |}.

Definition with_params (v : gmap string MenuOption) (s : Session) : Session :=
  {| is_okay := is_okay s; is_running := is_running s;
     _hidden_state := _hidden_state s; json_set := json_set s;
     calc_set := calc_set s; calc_dir := calc_dir s;
     calc_file := calc_file s; work_dir := work_dir s;
     work_file := work_file s; output_dir := output_dir s;
     product_sys_uid := product_sys_uid s; rd := rd s; netl := netl s;
     params := v; stdin := stdin s; stdout := stdout s |}.

Definition with_stdin (v : list string) (s : Session) : Session :=
  {| is_okay := is_okay s; is_running := is_running s;
     _hidden_state := _hidden_state s; json_set := json_set s;
     calc_set := calc_set s; calc_dir := calc_dir s;
     calc_file := calc_file s; work_dir := work_dir s;
     work_file := work_file s; output_dir := output_dir s;
     product_sys_uid := product_sys_uid s; rd := rd s; netl := netl s;
     params := params s; stdin := v; stdout := stdout s |}.

Definition with_stdout (v : list string) (s : Session) : Session :=
  {| is_okay := is_okay s; is_running := is_running s;
     _hidden_state := _hidden_state s; json_set := json_set s;
     calc_set := calc_set s; calc_dir := calc_dir s;
     calc_file := calc_file s; work_dir := work_dir s;
     work_file := work_file s; output_dir := output_dir s;
     product_sys_uid := product_sys_uid s; rd := rd s; netl := netl s;
     params := params s; stdin := stdin s; stdout := v |}.

(** ** The interpreter monad

    A method runs on the session.  The session is kept when the method
    raises, as Python keeps the object when an exception unwinds. *)
Definition M (A : Type) : Type := Session → outcome A * Session.

#[export] Instance M_ret : MRet M := λ A a s, (Done a, s).

#[export] Instance M_bind : MBind M := λ A B k m s,
  match m s with
  | (Done a, s') => k a s'
  | (Raised e, s') => (Raised e, s')
  | (OutOfFuel, s') => (OutOfFuel, s')
  end.

#[export] Instance M_fmap : FMap M := λ A B f m, a ← m; mret (f a).

Definition raise {A : Type} (e : exn) : M A := λ s, (Raised e, s).
Definition out_of_fuel {A : Type} : M A := λ s, (OutOfFuel, s).
Definition gets {A : Type} (f : Session → A) : M A := λ s, (Done (f s), s).
Definition modify (f : Session → Session) : M unit := λ s, (Done (), f s).

(** [try: body / except <handled>: handler / else: orelse] *)
Definition try_except_else {A B : Type} (body : M A) (handled : exn → bool)
    (handler : M B) (orelse : A → M B) : M B := λ s,
  match body s with
  | (Done a, s') => orelse a s'
  | (Raised e, s') => if handled e then handler s' else (Raised e, s')
  | (OutOfFuel, s') => (OutOfFuel, s')
  end.

Definition any_exception (e : exn) : bool := true.

(** A read-only call of the connector, and a call that changes it. *)
Definition ask {A : Type} (f : connector → result A) : M A := λ s,
  match f (netl s) with
  | Ok a => (Done a, s)
  | Raise e => (Raised e, s)
  end.

Definition tell {A : Type} (f : connector → result A * connector) : M A := λ s,
  match f (netl s) with
  | (Ok a, n) => (Done a, with_netl n s)
  | (Raise e, n) => (Raised e, with_netl n s)
  end.

(** [for x in l: body] *)
Fixpoint for_each {A : Type} (l : list A) (body : A → M unit) : M unit :=
  match l with
  | [] => mret ()
  | x :: l' => body x;; for_each l' body
  end.

(** [is_done = False / while not is_done: is_done = body()] *)
Fixpoint until_done (fuel : nat) (body : M bool) : M unit :=
  match fuel with
  | 0 => out_of_fuel
  | S fuel' =>
      is_done ← body;
      if is_done : bool then mret () else until_done fuel' body
  end.

(** [print(line)] and [input(prompt)] *)
Definition print (line : string) : M unit :=
  modify (λ s, with_stdout (stdout s ++ [line]) s).

Definition input (prompt : string) : M string := λ s,
  let s := with_stdout (stdout s ++ [prompt]) s in
  match stdin s with
  | [] => (Raised EOFError, s)
  | line :: rest => (Done line, with_stdin rest s)
  end.

(** ** Formatting helpers *)

(** ["%d" % n] *)
Definition fmt_nat (n : nat) : string := pretty n.
Definition fmt_int (z : Z) : string := pretty z.

(** ["-" * n] *)
Definition dashes (n : nat) : string :=
  String.string_of_list_ascii (replicate n "-"%char).

(** ["{0:>2s}".format(s)] *)
Definition rjust2 (s : string) : string :=
  String.string_of_list_ascii (replicate (2 - String.length s) " "%char) +:+ s.

(** ["%s" % x] for a value that is a string or [None]. *)
Definition fmt_opt (x : option string) : string := default "None" x.

(** [os.path.basename] *)
Fixpoint basename_from (cur s : string) : string :=
  match s with
  | EmptyString => cur
  | String c s' =>
      if Ascii.eqb c "/"%char then basename_from s' s' else basename_from cur s'
  end.
Definition basename (s : string) : string := basename_from s s.

(** [int(s)] on a string: surrounding white space, an optional sign, and
    digits that single underscores may separate.  The white space that
    [int] skips in an ASCII text is that of C's [isspace] (TAB, LF, VT,
    FF, CR and the space): the separators FS, GS, RS and US, which
    [str.strip] removes, make [int] raise [ValueError]. *)
Definition int_space (c : ascii) : bool :=
  Py.between 9 13 c || Ascii.eqb c " "%char.

Fixpoint int_lstrip (s : string) : string :=
  match s with
  | EmptyString => EmptyString
  | String c s' => if int_space c then int_lstrip s' else s
  end.

Fixpoint int_rstrip (s : string) : string :=
  match s with
  | EmptyString => EmptyString
  | String c s' =>
      match int_rstrip s' with
      | EmptyString => if int_space c then EmptyString else String c EmptyString
      | r => String c r
      end
  end.

Fixpoint digits_value (acc : Z) (after_digit : bool) (s : string) : option Z :=
  match s with
  | EmptyString => if after_digit then Some acc else None
  | String c s' =>
      if Py.isdigit_char c
      then digits_value (acc * 10 + (Z.of_N (Py.code c) - 48)) true s'
      else if Ascii.eqb c "_"%char && after_digit then digits_value acc false s'
      else None
  end.

Definition py_int (s : string) : option Z :=
  match int_rstrip (int_lstrip s) with
  | String c s' =>
      if Ascii.eqb c "-"%char then Z.opp <$> digits_value 0 false s'
      else if Ascii.eqb c "+"%char then digits_value 0 false s'
      else digits_value 0 false (String c s')
  | EmptyString => None
  end.

(** ** Module-level functions *)

(** [sorted(list(set(l)))] *)
Definition sorted_set (l : list string) : list string :=
  merge_sort String.le (remove_dups l).

Definition find_json_files (my_dir : string) : list string :=
  sorted_set (glob os (Report.path_join my_dir "*.zip")
              ++ glob os (Report.path_join my_dir "*.json")).

Definition find_excel_files (my_dir : string) : list string :=
  sorted_set (glob os (Report.path_join my_dir "*.xls")
              ++ glob os (Report.path_join my_dir "*.xlsx")).

Definition dir_has_json (my_dir : string) : bool :=
  bool_decide (0 < length (find_json_files my_dir)).

(** ** Methods *)

Definition num_files (s : Session) : nat := length (json_set s).
Definition num_workbooks (s : Session) : nat := length (calc_set s).
Definition process_code (s : Session) : string := Report.process_code (rd s).

Definition warn (msg : string) : M unit := print ("!!! " +:+ msg +:+ " !!!").
Definition success : M unit := print "Success!".

Definition request (msg : string) : M unit :=
  let msg_len := String.length msg in
  print (dashes msg_len);;
  print msg;;
  print (dashes msg_len).

Definition quit : M unit :=
  modify (with_is_running false);;
  modify (with_hidden_state (-1));;
  print "Exiting...".

Definition check_ans (val : string) : M bool :=
  let prompt := "You entered '" +:+ val +:+ "', is this correct (y/n)? " in
  ans ← input prompt;
  if String.eqb (Py.lower ans) "y" || String.eqb (Py.lower ans) "yes"
  then mret true
  else mret false.

(** The two tests of [check_val]:
    [val.lower() == 'q' or val.lower() == 'quit'] and
    [val.isspace() or val == ''] *)
Definition quit_keyword (val : string) : bool :=
  String.eqb (Py.lower val) "q" || String.eqb (Py.lower val) "quit".

Definition blank (val : string) : bool :=
  Py.isspace val || String.eqb val EmptyString.

Definition check_val (val : string) : M bool :=
  if quit_keyword val then
    quit;; mret true
  else if blank val then
    (* Skip parameter setting *)
    mret true
  else mret false.

Definition make_param_visible (p : string) (v : bool) : M unit :=
  ps ← gets params;
  match ps !! p with
  | None => raise (ValueError ("Parameter, '" +:+ p +:+ "', not found!"))
  | Some o => modify (with_params (<[p := set_show v o]> ps))
  end.

Definition print_menu_option (opt : string) : M unit :=
  ps ← gets params;
  match ps !! opt with
  | Some o => print (rjust2 opt +:+ " ..... " +:+ text o)
  | None => mret ()   (* logging.error, nothing on the console *)
  end.

(** [sorted(list(self.params.keys()))] *)
Definition sorted_keys (ps : gmap string MenuOption) : list string :=
  merge_sort String.le (map_to_list ps).*1.

(** The loop head shared by the menu methods:
    [for arg in sorted(list(self.params.keys())):
         param_type = self.params[arg]['type']
         to_show = self.params[arg]['show']
         body] *)
Definition for_sorted_params (body : string → string → bool → M unit) : M unit :=
  ps ← gets params;
  for_each (sorted_keys ps) (λ arg,
    ps ← gets params;
    match ps !! arg with
    | Some o => body arg (type o) (show o)
    | None => raise (KeyError arg)
    end).

Definition show_options : M unit :=
  request "MAIN MENU: Select an option";;
  for_sorted_params (λ arg param_type to_show,
    if String.eqb param_type "option" && to_show
    then print_menu_option arg else mret ());;
  print_menu_option "q".

Definition load_json_set (my_dir : string) : M unit :=
  (if isdir os my_dir then modify (with_json_set (find_json_files my_dir))
   else mret ());;
  n ← gets num_files;
  if bool_decide (0 < n) then modify (with_is_okay true)
  else modify (with_is_okay false);; warn "No JSON-LD files".

Definition load_excel_set (my_dir : string) : M unit :=
  (if isdir os my_dir then modify (with_calc_set (find_excel_files my_dir))
   else mret ());;
  n ← gets num_files;
  if bool_decide (0 < n) then modify (with_is_okay true)
  else modify (with_is_okay false);; warn "No Excel files found".

Definition set_working_dir (val : string) : M bool :=
  if isdir os val && dir_has_json val then
    load_json_set val;;
    modify (with_work_dir val);;
    n ← gets num_files;
    print ("Read " +:+ fmt_nat n +:+ " files in working directory");;
    mret true
  else mret false.

Definition set_calc_file (val : string) : M bool :=
  if isfile os val then modify (with_calc_file val);; mret true
  else mret false.

Definition set_process_type (val : string) : M bool :=
  (* Correct case sensitivity *)
  let val := Py.upper val in
  (* Check if valid option *)
  if bool_decide (val ∈ Report.process_types.*1) then
    modify (λ s, with_rd (Report.set_process_code val (rd s)) s);;
    mret true
  else mret false.

Definition set_product_system (val : string) : M bool :=
  id_list ← ask (get_spec_ids "Product system");
  if bool_decide (val ∈ id_list) then
    modify (with_product_sys_uid val);;
    r_name ← ask (get_reference_name val);
    modify (λ s, with_rd (Report.set_reference_name r_name (rd s)) s);;
    print ("Product system set to '" +:+ fmt_opt r_name +:+ "'");;
    mret true
  else mret false.

Definition open_file (val : string) : M unit :=
  tell (netl_open val);;
  tell netl_read.

Definition set_project_file (val : string) : M bool :=
  if isfile os val then
    try_except_else (open_file val) any_exception
      (mret false)
      (λ _, modify (with_work_file val);; mret true)
  else mret false.

Definition is_value_or_type_error (e : exn) : bool :=
  match e with
  | ValueError _ | TypeError _ => true
  | _ => false
  end.

Definition set_server_port (val : string) : M bool :=
  try_except_else (tell (netl_set_port val)) is_value_or_type_error
    (mret false)
    (λ _, mret true).

Definition set_reviewer (val : string) : M bool :=
  a ← ask (query_actor val);
  uid ← gets product_sys_uid;
  p ← ask (get_reference_process uid);
  match p with
  | Some p =>
      match a with
      | Some a => tell (add_process_entity (with_reviewer a p))
      | None => warn ("Failed to find actor ('" +:+ val +:+ "')");; mret false
      end
  | None =>
      warn ("Failed to find reference process ('" +:+ uid +:+ "')");;
      mret false
  end.

(** The numbered list that the selection prompts print:
    [for i in range(n): my_str += "%d ... %s\n" % (i+1, item(l[i]))] *)
Definition numbered (sep : string) (items : list string) : string :=
  foldl (λ my_str '(i, x), my_str +:+ fmt_nat (i + 1) +:+ sep +:+ x +:+ Report.nl)
        EmptyString (imap (λ i x, (i, x)) items).

(** [l[i]] *)
Definition index {A : Type} (l : list A) (i : nat) : M A :=
  match l !! i with
  | Some x => mret x
  | None => raise IndexError
  end.

Definition prompt_new_actor : M bool :=
  (* Read user input from YAML *)
  wd ← gets work_dir;
  a_name ← ask (get_actor_yaml wd);
  a_list ← ask (get_yaml_entities a_name);
  let num_names := length a_list in
  (* Print actor names, get user selection and check for exit sequence *)
  let my_str :=
    numbered ". " ((λ a, actor_name a +:+ ", " +:+ actor_address a) <$> a_list)
    +:+ "select > " in
  ans ← input my_str;
  is_done ← check_val ans;
  (* Process user response, and attempt to add new actor to project *)
  if negb is_done then
    match py_int ans with
    | None => warn "Selection should be an integer.";; mret is_done
    | Some ans =>
        if bool_decide (ans < 1 ∨ ans > Z.of_nat num_names)%Z then
          warn ("Choose a number from 1 to " +:+ fmt_nat num_names);;
          mret is_done
        else
          ok ← check_ans (fmt_int ans);
          if ok : bool then
            a ← index a_list (Z.to_nat (ans - 1));
            is_done ← tell (add_actor_entity a);
            (if negb is_done then warn "Failed to set new actor" else success);;
            mret is_done
          else mret is_done
    end
  else mret is_done.

Definition add_actor (fuel : nat) : M unit :=
  request "Select actor";;
  until_done fuel prompt_new_actor.

Definition prompt_process_type : M bool :=
  for_each Report.process_types (λ '(k, v), print (k +:+ " ... " +:+ v));;
  code ← gets process_code;
  let q := "choose process type (" +:+ code +:+ ") > " in
  ans ← input q;
  is_done ← check_val ans;
  if negb is_done then
    is_done ← set_process_type ans;
    (if negb is_done then warn "Selection should be a two-letter option."
     else mret ());;
    mret is_done
  else mret is_done.

Definition prompt_product_system : M bool :=
  (* Check to see how many product systems there are in the dataset. *)
  num_ps ← ask get_number_product_systems;
  (* Short-circuit the selection when there is only one to choose. *)
  '(ans, is_done) ←
    (if bool_decide (num_ps = 1) then mret ("1", false)
     else
       lines ← ask (print_project "Product system");
       for_each lines print;;
       ans ← input "choose product system > ";
       is_done ← check_val ans;
       mret (ans, is_done));
  if negb is_done then
    match py_int ans with
    | None => warn "Selection should be an integer.";; mret is_done
    | Some ans =>
        let choose :=
          ids ← ask (get_spec_ids "Product system");
          ps_uid ← index ids (Z.to_nat (ans - 1));
          is_done ← set_product_system ps_uid;
          (if negb is_done then warn "Product system failed to set" else success);;
          mret is_done in
        if bool_decide (ans < 1 ∨ ans > Z.of_nat num_ps)%Z then
          warn ("Choose number from 1 to " +:+ fmt_nat num_ps);;
          mret is_done
        else if bool_decide (num_ps = 1) && bool_decide (ans = 1%Z) then
          (* Skip the line. *)
          choose
        else
          ok ← check_ans (fmt_int ans);
          if ok : bool then choose else mret is_done
    end
  else mret is_done.

Definition assign_product_system (fuel : nat) (val : option string) : M (option bool) :=
  match val with
  | Some val => Some <$> set_product_system val
  | None =>
      request "Select product system for UP";;
      until_done fuel prompt_product_system;;
      mret None
  end.

Definition prompt_project_file (fuel : nat) : M bool :=
  wd ← gets work_dir;
  load_json_set wd;;
  files ← gets json_set;
  let my_str := numbered " ... " (basename <$> files) +:+ "choose file > " in
  ans ← input my_str;
  is_done ← check_val ans;
  n ← gets num_files;
  match py_int ans with
  | None => warn ("Select from 1 to " +:+ fmt_nat n);; mret is_done
  | Some ans =>
      if bool_decide (ans < 1 ∨ ans > Z.of_nat n)%Z then
        warn ("Choose number from 1 to " +:+ fmt_nat n);;
        mret is_done
      else
        ok ← check_ans (fmt_int ans);
        if ok : bool then
          p_file ← index files (Z.to_nat (ans - 1));
          is_done ← set_project_file p_file;
          (if negb is_done then warn "Project file not set!"
           else assign_product_system fuel None;; mret ());;
          mret is_done
        else mret is_done
  end.

Definition assign_project_file (fuel : nat) (val : option string) : M (option bool) :=
  match val with
  | Some val => open_file val;; mret None
  | None =>
      request "Select project file";;
      until_done fuel (prompt_project_file fuel);;
      make_param_visible "1" false;;
      make_param_visible "2" false;;
      make_param_visible "3" true;;
      make_param_visible "4" true;;
      make_param_visible "5" true;;
      make_param_visible "6" true;;
      make_param_visible "7" true;;
      make_param_visible "o" true;;
      show_options;;
      mret None
  end.

Definition open_server (fuel : nat) : M unit :=
  tell netl_connect;;
  try_except_else (tell netl_read) any_exception
    (port ← gets (λ s, netl_port (netl s));
     warn ("Failed to connect to IPC server on port " +:+ fmt_int port))
    (λ _,
      assign_product_system fuel None;;
      make_param_visible "1" false;;
      make_param_visible "2" false;;
      make_param_visible "3" true;;
      make_param_visible "4" true;;
      make_param_visible "5" true;;
      make_param_visible "6" true;;
      make_param_visible "7" true;;
      make_param_visible "o" true;;
      show_options).

Definition prompt_calculation_file : M bool :=
  cd ← gets calc_dir;
  load_excel_set cd;;
  books ← gets calc_set;
  let my_str := numbered " ... " (basename <$> books) +:+ "choose file > " in
  ans ← input my_str;
  is_done ← check_val ans;
  n ← gets num_workbooks;
  match py_int ans with
  | None => warn ("Select from 1 to " +:+ fmt_nat n);; mret is_done
  | Some ans =>
      if bool_decide (ans < 1 ∨ ans > Z.of_nat n)%Z then
        warn ("Choose number from 1 to " +:+ fmt_nat n);;
        mret is_done
      else
        ok ← check_ans (fmt_int ans);
        if ok : bool then
          p_file ← index books (Z.to_nat (ans - 1));
          is_done ← set_calc_file p_file;
          (if negb is_done then warn "Calculation file not set!" else mret ());;
          mret is_done
        else mret is_done
  end.

Definition assign_calculation_file (fuel : nat) (val : option string) : M (option bool) :=
  match val with
  | Some val => Some <$> set_calc_file val
  | None =>
      request "Select calculation workbook";;
      until_done fuel prompt_calculation_file;;
      show_options;;
      mret None
  end.

Definition add_process_type (fuel : nat) (val : option string) : M (option bool) :=
  match val with
  | Some val => Some <$> set_process_type val
  | None =>
      request "Select process type";;
      until_done fuel prompt_process_type;;
      show_options;;
      mret None
  end.

(** The text of the [TypeError] that [str + int] raises. *)
Definition str_plus_int : string :=
  "can only concatenate str (not " +:+ dquote +:+ "int" +:+ dquote +:+ ") to str".

Definition prompt_reviewer (fuel : nat) : M bool :=
  (* Get current reviewer's name *)
  uid ← gets product_sys_uid;
  r_name ← ask (get_reviewer uid);
  (* Print unique reviewer selection options *)
  '(name_list, addr_list, uuid_list) ← ask get_actors;
  let num_names := length name_list in
  rows ← (fix rows (i : nat) (names : list string) : M (list string) :=
            match names with
            | [] => mret []
            | nm :: names' =>
                addr ← index addr_list i;
                rest ← rows (S i) names';
                mret ((nm +:+ ", " +:+ addr) :: rest)
            end) 0 name_list;
  (* the loop variable i is unbound when the list of names is empty *)
  (if bool_decide (num_names = 0) then raise (NameError "i") else mret ());;
  let my_str :=
    numbered ". " rows
    +:+ fmt_nat (num_names - 1 + 2) +:+ ". Add new name to YAML." +:+ Report.nl
    +:+ "select reviewer (" +:+ r_name +:+ ")> " in
  (* Get user's input and check for exit character *)
  ans ← input my_str;
  is_done ← check_val ans;
  if negb is_done then
    match py_int ans with
    | None => warn "Selection should be an integer.";; mret is_done
    | Some ans =>
        if bool_decide (ans < 1 ∨ ans > Z.of_nat num_names + 1)%Z then
          (* "Choose number from 1 to %d" % num_names+1 adds 1 to a string *)
          raise (TypeError str_plus_int)
        else
          ok ← check_ans (fmt_int ans);
          if ok : bool then
            if bool_decide (ans > Z.of_nat num_names)%Z then
              (* User selected "Add new to YAML," send to add actor *)
              add_actor fuel;; mret is_done
            else
              r_uid ← index uuid_list (Z.to_nat (ans - 1));
              is_done ← set_reviewer r_uid;
              (if negb is_done then warn "Failed to set reviewer" else success);;
              mret is_done
          else mret is_done
    end
  else mret is_done.

Definition edit_reviewer (fuel : nat) (val : option string) : M (option bool) :=
  match val with
  | Some val => Some <$> set_reviewer val
  | None =>
      request "Select reviewer";;
      until_done fuel (prompt_reviewer fuel);;
      mret None
  end.

Definition prompt_server_port : M bool :=
  port ← gets (λ s, netl_port (netl s));
  let prompt := "server port (" +:+ fmt_int port +:+ ")> " in
  ans ← input prompt;
  is_done ← check_val ans;
  if negb is_done then
    ok ← check_ans ans;
    if ok : bool then
      is_done ← set_server_port ans;
      (if negb is_done then warn "Port number not set!" else success);;
      mret is_done
    else mret is_done
  else mret is_done.

Definition assign_server_port (fuel : nat) (val : option string) : M (option bool) :=
  match val with
  | Some val => Some <$> set_server_port val
  | None =>
      request "Enter port number for IPC server";;
      until_done fuel prompt_server_port;;
      mret None
  end.

Definition prompt_working_dir : M bool :=
  wd ← gets work_dir;
  let prompt := "working dir (" +:+ wd +:+ ")> " in
  ans ← input prompt;
  is_done ← check_val ans;
  if negb is_done then
    ok ← check_ans ans;
    if ok : bool then
      is_done ← set_working_dir ans;
      (if negb is_done && isdir os ans then warn "No files found in directory"
       else if negb is_done then warn "Working directory must exist"
       else success);;
      mret is_done
    else mret is_done
  else mret is_done.

Definition assign_working_dir (fuel : nat) (val : option string) : M (option bool) :=
  match val with
  | Some val => Some <$> set_working_dir val
  | None =>
      request "Enter the directory with project files";;
      until_done fuel prompt_working_dir;;
      mret None
  end.

(** ** The menus *)

Definition connect_json : M unit :=
  (* Read working directory for JSON-LD files *)
  wd ← gets work_dir;
  set_working_dir wd;;
  request "CONNECTION MENU: Select an option";;
  for_sorted_params (λ arg param_type to_show,
    if String.eqb param_type "connection_json" && to_show
    then print_menu_option arg else mret ());;
  print_menu_option "m";;
  print_menu_option "q".

Definition connect_olca : M unit :=
  request "CONNECTION MENU: Select an option";;
  for_sorted_params (λ arg param_type to_show,
    if String.eqb param_type "connection_olca" && to_show
    then print_menu_option arg else mret ());;
  print_menu_option "m";;
  print_menu_option "q".

Definition edit : M unit :=
  request "EDIT MENU: Select an option";;
  for_sorted_params (λ arg param_type to_show,
    if String.eqb param_type "edit" && to_show
    then print_menu_option arg else mret ());;
  print_menu_option "m";;
  print_menu_option "q".

Definition handle_report_generation : M unit :=
  request "REPORT MENU: Select an option";;
  for_sorted_params (λ arg param_type to_show,
    if String.eqb param_type "report" && to_show
    then print_menu_option arg else mret ());;
  print_menu_option "m";;
  print_menu_option "q".

Definition publishing_menu (pandoc_required : bool) : M unit :=
  request "PUBLISHING MENU: Select an option";;
  for_sorted_params (λ arg param_type to_show,
    if String.eqb param_type "publish" && to_show && negb pandoc_required
    then print_menu_option arg else mret ());;
  print_menu_option "m";;
  print_menu_option "q".

Definition handle_report_publication : M unit :=
  (* Check if pandoc is installed *)
  if negb (pandoc_installed os) then
    print ("Pandoc is not installed. " +:+
           "Reports in PDF, Word, or HTML format cannot be generated.");;
    ans ← input "Would you like to continue anyway? (y/n): ";
    let user_decision := Py.lower (Py.strip ans) in
    (* Exit the method if the user decides not to continue *)
    if negb (String.eqb (Py.lower user_decision) "y") then mret ()
    else publishing_menu true
  else publishing_menu false.

Definition query : M unit :=
  request "REVIEW MENU: Select an option";;
  for_sorted_params (λ arg param_type to_show,
    if String.eqb param_type "query" && to_show then
      ps ← gets params;
      match ps !! arg with
      | Some o => print (arg +:+ " ..... " +:+ text o)
      | None => raise (KeyError arg)
      end
    else mret ());;
  ps ← gets params;
  match ps !! "q" with
  | Some o => print ("q" +:+ "  ..... " +:+ text o)
  | None => raise (KeyError "q")
  end.

Definition show_misc : M unit :=
  request "MISCELLANY MENU: Select an option";;
  for_sorted_params (λ arg param_type to_show,
    if String.eqb param_type "misc" && to_show
    then print_menu_option arg else mret ());;
  print_menu_option "m";;
  print_menu_option "q".

(** [Interface.__init__] on a console with the given lines to come. *)
Definition init (n : connector) (lines : list string) : Session := {|
  is_okay := true;
  is_running := false;
  _hidden_state := 0;
  json_set := [];
  calc_set := [];
  calc_dir := Report.CALC_DIR;
  calc_file := EmptyString;
  work_dir := Report.DATA_DIR;
  work_file := EmptyString;
  output_dir := Report.OUTPUT_DIR;
  product_sys_uid := EmptyString;
  rd := Report.init;
  netl := n;
  params := list_to_map (initial_params Report.DATA_DIR);
  stdin := lines;
  stdout := []
|}.

(** ** Messages and help *)

(** ["{0:>3.2}".format(s)]: the first two characters, right-justified on
    three. *)
Definition rjust (width : nat) (s : string) : string :=
  String.string_of_list_ascii (replicate (width - String.length s) " "%char) +:+ s.

(** [msg.replace("\r", "").replace("\n", " \n ").split(" ")] *)
Definition words (msg : string) : list string :=
  Report.split " "
    (Py.re_sub_one (Ascii.eqb Report.LF) (" " +:+ Report.nl +:+ " ")
       (Py.re_sub_one (Ascii.eqb Report.CR) EmptyString msg)).

(** One round of the loop of [print_messages] over the words of a
    message; [prev] is [msg[j-1]] where [j > 0]. *)
Definition wrap_word (char_count : nat) (prev : option string) (word : string)
    (out_lines : list string) (line_num : nat) : result (list string * nat) :=
  match out_lines !! line_num with
  | None => Raise IndexError
  | Some cur =>
      let count := String.length (cur +:+ word) in
      let '(out_lines, line_num) :=
        if bool_decide (prev = Some Report.nl) then
          (out_lines ++ [word], line_num + 1)
        else if bool_decide (Z.of_nat count > Z.of_nat char_count - 4)%Z then
          (out_lines ++ [word], line_num + 1)
        else (<[line_num := cur +:+ word]> out_lines, line_num) in
      match out_lines !! line_num with
      | None => Raise IndexError
      | Some cur => Ok (<[line_num := cur +:+ " "]> out_lines, line_num)
      end
  end.

Fixpoint wrap_words (char_count : nat) (prev : option string) (msg : list string)
    (out_lines : list string) (line_num : nat) : result (list string) :=
  match msg with
  | [] => Ok out_lines
  | word :: msg' =>
      match wrap_word char_count prev word out_lines line_num with
      | Raise e => Raise e
      | Ok (out_lines, line_num) =>
          wrap_words char_count (Some word) msg' out_lines line_num
      end
  end.

(** The lines of one message: [out_lines] after the loop over its words. *)
Definition wrap (char_count : nat) (msg : string) : result (list string) :=
  wrap_words char_count None (words msg) [EmptyString] 0.

(** [print_messages] *)
Definition print_messages (msg_list : list string) (char_count : nat)
    (prefix : option string) : M unit :=
  for_each (imap (λ i m, (i, m)) msg_list) (λ '(i, m),
    match wrap char_count m with
    | Raise e => raise e
    | Ok out_lines =>
        for_each (imap (λ k l, (k, l)) out_lines) (λ '(k, line),
          if negb (Py.isspace line) && negb (String.eqb line EmptyString) then
            match prefix with
            | None =>
                if bool_decide (k = 0)
                then print (rjust2 (fmt_nat (i + 1)) +:+ ". " +:+ line)
                else print ("    " +:+ line)
            | Some prefix =>
                if bool_decide (k = 0)
                then print (rjust 3 (String.substring 0 2 prefix) +:+ " " +:+ line)
                else print ("    " +:+ line)
            end
          else mret ())
    end);;
  print (dashes char_count).

(** [show_help] *)
Definition show_help (h_opt : string) : M unit :=
  ps ← gets params;
  let msg :=
    match ps !! h_opt with
    | Some o => [name o +:+ ": " +:+ help o]
    | None => ["ERROR: Option '" +:+ h_opt +:+ "' not recognized."]
    end in
  print_messages msg 79 (Some ">>").

(** The class [[a-z|0-9]] of the help pattern. *)
Definition help_class (c : ascii) : bool :=
  Py.islower_char c || Ascii.eqb c "|"%char || Py.isdigit_char c.

(** [self.h_pattern.match(h_str)], the pattern being
    [^h(elp)?\(([a-z|0-9]{1,2})\)]; the value is the second group.  The
    optional group and the greedy repetition need no backtracking: after
    [h], a text that opens with [elp] cannot open with a parenthesis, and
    a character of the class is no closing parenthesis. *)
Definition h_pattern_match (h_str : string) : option string :=
  match h_str with
  | String "h"%char rest =>
      let rest := if Py.startswith rest "elp" then String.substring 3 (String.length rest - 3) rest else rest in
      match rest with
      | String "("%char (String a (String b (String c _))) =>
          if help_class a && help_class b && Ascii.eqb c ")"%char
          then Some (String a (String b EmptyString))
          else if help_class a && Ascii.eqb b ")"%char
          then Some (String a EmptyString)
          else None
      | String "("%char (String a (String b EmptyString)) =>
          if help_class a && Ascii.eqb b ")"%char
          then Some (String a EmptyString)
          else None
      | _ => None
      end
  | _ => None
  end.

(** [help] *)
Definition help_request (h_str : string) : M unit :=
  (* Match the help string against the defined pattern: *)
  let m := h_pattern_match h_str in
  if bool_decide (m = None) && Py.startswith (Py.lower h_str) "help" then
    print "Usage: help(<option>)"
  else if bool_decide (m = None) && Py.startswith (Py.lower h_str) "h" then
    print "Usage: h(<option>)"
  else
    match m with
    | Some h_opt => show_help h_opt
    | None => show_options
    end.

(** [print_report] *)
Definition print_report : M unit :=
  r ← gets rd;
  match Report.md r with
  | None => print "Please read or write report to file first."
  | Some md => print md
  end.

(** ** The main loop *)

(** The call [self.params[ans]['func']()] of a bound method, without
    argument.  The methods that query the connector for the review texts,
    or that reach the file system and pandoc through the report
    assembler, are the parameter [extern]. *)
Definition call (extern : action → M unit) (fuel : nat) (f : action) : M unit :=
  match f with
  | ConnectJson => connect_json
  | AssignWorkingDir => assign_working_dir fuel None;; mret ()
  | AssignProjectFile => assign_project_file fuel None;; mret ()
  | ConnectOlca => connect_olca
  | AssignServerPort => assign_server_port fuel None;; mret ()
  | OpenServer => open_server fuel
  | Query => query
  | HandleReportGeneration => handle_report_generation
  | PrintReport => print_report
  | HandleReportPublication => handle_report_publication
  | AddProcessType => add_process_type fuel None;; mret ()
  | AssignCalculationFile => assign_calculation_file fuel None;; mret ()
  | Quit => quit
  | ShowOptions => show_options
  | ShowMisc => show_misc
  | Edit => edit
  | AddActor => add_actor fuel
  | EditReviewer => edit_reviewer fuel None;; mret ()
  | AssignProductSystem => assign_product_system fuel None;; mret ()
  | QueryDescription | QueryDocumentation | QueryCategory | QueryFlows
  | SaveReport | ReadReport | ConvertToPdf | ConvertToWord | ConvertToHtml =>
      extern f
  end.

(** [do_next] *)
Definition do_next (extern : action → M unit) (fuel : nat) : M unit :=
  ans ← input "(h for help) > ";
  (* Catch non-argument quit keywords: *)
  if bool_decide (Py.lower ans ∈ ["exit"; "quit"]) then quit
  else if Py.startswith (Py.lower ans) "h" then help_request ans
  else
    ps ← gets params;
    if bool_decide (is_Some (ps !! Py.lower ans)) then
      (* Execute the corresponding function from the params dictionary *)
      match ps !! ans with
      | None => raise (KeyError ans)
      | Some o =>
          match func o with
          | None => raise (TypeError "'NoneType' object is not callable")
          | Some f => call extern fuel f
          end
      end
    else
      print "Invalid option.";;
      (* Show options again for invalid input *)
      show_options.

(** [while self.is_okay and self.is_running: self.do_next()] *)
Fixpoint main_loop (extern : action → M unit) (fuel rounds : nat) : M unit :=
  okay ← gets is_okay;
  running ← gets is_running;
  if okay && running then
    match rounds with
    | 0 => out_of_fuel
    | S rounds' => do_next extern fuel;; main_loop extern fuel rounds'
    end
  else mret ().

(** [run] *)
Definition run (extern : action → M unit) (fuel : nat) : M unit :=
  modify (with_is_running true);;
  hidden ← gets _hidden_state;
  if bool_decide (hidden = 0%Z) then
    wd ← gets work_dir;
    (if negb (isdir os wd) then assign_working_dir fuel None;; mret ()
     else mret ());;
    running ← gets is_running;
    if running : bool then
      show_options;;
      main_loop extern fuel fuel
    else mret ()
  else mret ().

End Interpreter.
End Interface.

(** * An in-memory project for the concrete runs

    A double of the connector: a project can be read once a file has been
    opened or the server is up.  It stands for no behaviour of netlolca
    beyond its interface. *)
Module Demo.

Record project : Type := {
  opened : option string;
  server_up : bool;
  port : Z;
  systems : list (string * string)
}.

Definition netlolca : NetlOlca := {|
  connector := project;
  actor := string * string;
  process := string;
  actor_name := fst;
  actor_address := snd;
  with_reviewer := λ _ p, p;
  netl_open := λ path n,
    (Ok (), {| opened := Some path; server_up := server_up n; port := port n;
               systems := systems n |});
  netl_read := λ n,
    (if bool_decide (is_Some (opened n)) || server_up n then Ok ()
     else Raise (CollaboratorError "nothing to read"), n);
  netl_connect := λ n, (Ok (), n);
  netl_port := port;
  netl_set_port := λ v n,
    match Interface.py_int v with
    | Some z => (Ok (), {| opened := opened n; server_up := server_up n; port := z;
                           systems := systems n |})
    | None => (Raise (ValueError "port must be an integer"), n)
    end;
  get_number_product_systems := λ n, Ok (length (systems n));
  print_project := λ _ n, Ok ((systems n).*2);
  get_spec_ids := λ _ n, Ok ((systems n).*1);
  get_reference_name := λ uid n,
    Ok (snd <$> List.find (λ x, String.eqb (fst x) uid) (systems n));
  get_reviewer := λ _ _, Ok "N/A";
  get_actors := λ _, Ok (["NETL"], ["Pittsburgh, PA"], ["actor-1"]);
  get_actor_yaml := λ d _, Ok (Report.path_join d "actors.yaml");
  get_yaml_entities := λ _ _, Ok [("LCA team", "Morgantown, WV")];
  query_actor := λ uid _,
    Ok (if String.eqb uid "actor-1" then Some ("NETL", "Pittsburgh, PA") else None);
  get_reference_process := λ _ _, Ok (Some "reference process");
  add_actor_entity := λ _ n, (Ok true, n);
  add_process_entity := λ _ n, (Ok true, n)
|}.

Definition os_with (pandoc : bool) : OperatingSystem := {|
  isdir := λ d, String.eqb d "data";
  isfile := λ f, String.eqb f "data/aluminum_single_system.zip";
  glob := λ pattern,
    if String.eqb pattern "data/*.zip" then ["data/aluminum_single_system.zip"]
    else [];
  pandoc_installed := pandoc
|}.

Definition os : OperatingSystem := os_with true.

Definition project0 : project := {|
  opened := None;
  server_up := false;
  port := 8080;
  systems := [("ps-1", "Aluminum, production mix, shape casted");
              ("ps-2", "Alkaline electrolysis")]
|}.

(** A session in its read loop, with the given lines still to be typed. *)
Definition running (lines : list string) : @Interface.Session netlolca :=
  Interface.with_is_running true (@Interface.init netlolca project0 lines).

Definition today : date := {| year := 2024; month := 11; day := 1 |}.

Definition disk : Report.FileSystem :=
  {| Report.files := ∅; Report.writable := λ _, true |}.

(** A stand-in for sympy: it takes a text that does not end in an
    operator and returns it as it is. *)
Definition latex_of (s : string) : option string :=
  match Py.last_char s with
  | Some c => if Ascii.eqb c "*"%char then None else Some s
  | None => None
  end.

(** The triangular distribution of the report's example.  A number is
    given by the text that Python prints for it. *)
Definition triangle : Report.Uncertainty string := {|
  Report.distribution_type := Some "TRIANGLE_DISTRIBUTION";
  Report.geom_mean := None;
  Report.geom_sd := None;
  Report.maximum := Some "13.0";
  Report.mean := None;
  Report.minimum := Some "5.0";
  Report.mode := Some "7.5";
  Report.sd := None
|}.

End Demo.

(** * Further projects for the concrete runs *)

Module Cases.

(** A project without actors. *)
Definition no_actors : NetlOlca := {|
  connector := Demo.project;
  actor := string * string;
  process := string;
  actor_name := fst;
  actor_address := snd;
  with_reviewer := λ _ p, p;
  netl_open := @netl_open Demo.netlolca;
  netl_read := @netl_read Demo.netlolca;
  netl_connect := @netl_connect Demo.netlolca;
  netl_port := Demo.port;
  netl_set_port := @netl_set_port Demo.netlolca;
  get_number_product_systems := @get_number_product_systems Demo.netlolca;
  print_project := @print_project Demo.netlolca;
  get_spec_ids := @get_spec_ids Demo.netlolca;
  get_reference_name := @get_reference_name Demo.netlolca;
  get_reviewer := λ _ _, Ok "N/A";
  get_actors := λ _, Ok ([], [], []);
  get_actor_yaml := @get_actor_yaml Demo.netlolca;
  get_yaml_entities := @get_yaml_entities Demo.netlolca;
  query_actor := @query_actor Demo.netlolca;
  get_reference_process := @get_reference_process Demo.netlolca;
  add_actor_entity := @add_actor_entity Demo.netlolca;
  add_process_entity := @add_process_entity Demo.netlolca
|}.

(** A project with one product system. *)
Definition single_system : Demo.project := {|
  Demo.opened := None;
  Demo.server_up := false;
  Demo.port := 8080;
  Demo.systems := [("ps-1", "Aluminum, production mix, shape casted")]
|}.


(** A flow table of two rows, a number being given by its text. *)
Definition two_flows : Report.FlowTable string := {|
  Report.flow_category := ["air"; "water"];
  Report.flow_dq := ["1"; "2"];
  Report.flow_name := ["Carbon dioxide"; "Water"];
  Report.flow_amount := ["1.000E+00"; "2.500E-01"];
  Report.flow_unit := ["kg"; "kg"]
|}.

(** An input parameter of the process and a calculated global one. *)
Definition efficiency : Report.ProcessParameter string := {|
  Report.parameter_name := "eff";
  Report.parameter_value := "9.000E-01";
  Report.is_input_parameter := true;
  Report.parameter_scope := "PROCESS_SCOPE";
  Report.parameter_formula := PyNone;
  Report.parameter_description := "Efficiency";
  Report.parameter_uncertainty := Some Demo.triangle
|}.

Definition loss : Report.ProcessParameter string := {|
  Report.parameter_name := "loss";
  Report.parameter_value := "1.000E-01";
  Report.is_input_parameter := false;
  Report.parameter_scope := "GLOBAL_SCOPE";
  Report.parameter_formula := PyStr "1-eff";
  Report.parameter_description := "Loss";
  Report.parameter_uncertainty := None
|}.

(** Methods outside the model that do nothing. *)
Definition no_extern : Interface.action → @Interface.M Demo.netlolca unit :=
  λ _ s, (Interface.Done (), s).

End Cases.

(** * The vocabulary of the specification

    The definitions below follow the wording of the specification, not
    the code; the theorems compare the two. *)

(** ** File names *)

(** Every maximal run of characters of a class becomes one underscore.
    [in_run] tells whether the previous character belonged to the class. *)
Fixpoint collapse_runs_from (in_run : bool) (cls : ascii → bool) (s : string) : string :=
  match s with
  | EmptyString => EmptyString
  | String c s' =>
      if cls c then
        if in_run then collapse_runs_from true cls s'
        else String "_"%char (collapse_runs_from true cls s')
      else String c (collapse_runs_from false cls s')
  end.

Definition collapse_runs : (ascii → bool) → string → string :=
  collapse_runs_from false.

Definition drop_trailing_underscore (s : string) : string :=
  match Py.last_char s with
  | Some c => if Ascii.eqb c "_"%char then Py.drop_last s else s
  | None => s
  end.

(** The steps of [get_file_name] on a name, with the character classes
    and the slices of the embedding: the form in which the proofs follow
    the code. *)
Definition derived_stem (name : string) : string :=
  drop_trailing_underscore
    (collapse_runs Report.is_underscore
       (collapse_runs Report.is_special
          (collapse_runs Py.isspace_char name))).




(** The extension a caller asks for, in lower case and with its dot. *)
Definition requested_ext (ext : string) : string :=
  let ext := Py.lower ext in
  if Py.startswith ext "." then ext else "." +:+ ext.

(** A request for [.txt] is written as [.md]. *)
Definition written_ext (ext : string) : string :=
  if String.eqb ext ".txt" then ".md" else ext.

(** *** The file name in the words of the specification

    What is replaced in a reference process name is listed here character
    by character; nothing below uses the embedding of [get_file_name] or
    the string primitives of [Py]. *)

(** White space in ASCII text, by code: TAB, LF, VT, FF, CR, the
    separators FS, GS, RS and US, and the space. *)
Definition white_codes : list N := [9; 10; 11; 12; 13; 28; 29; 30; 31; 32]%N.
Definition white (c : ascii) : bool := bool_decide (N_of_ascii c ∈ white_codes).






(** ** Rendering *)

(** Two documents have the same field state when every attribute that
    the template reads is the same. *)
Definition same_fields (a b : Report.NetlOlcaReport) : Prop :=
  Report.create_date a = Report.create_date b ∧
  Report.reference_name a = Report.reference_name b ∧
  Report.reference_flow a = Report.reference_flow b ∧
  Report.reference_description a = Report.reference_description b ∧
  Report.boundary_doc a = Report.boundary_doc b ∧
  Report.input_flows a = Report.input_flows b ∧
  Report.output_flows a = Report.output_flows b ∧
  Report.process_doc a = Report.process_doc b ∧
  Report.param_table a = Report.param_table b ∧
  Report.project_doc a = Report.project_doc b ∧
  Report.poc a = Report.poc b ∧
  Report.version a = Report.version b ∧
  Report.allocation_info a = Report.allocation_info b ∧
  Report.sources a = Report.sources b ∧
  Report.calculations_content a = Report.calculations_content b ∧
  Report.disclaimer a = Report.disclaimer b.

(** ** Formulas and uncertainty *)

(** The literal fallback: every star and every underscore gets a backslash. *)
Fixpoint markdown_escape (s : string) : string :=
  match s with
  | EmptyString => EmptyString
  | String c s' =>
      if Ascii.eqb c "*"%char || Ascii.eqb c "_"%char
      then String (ascii_of_N 92) (String c (markdown_escape s'))
      else String c (markdown_escape s')
  end.

Definition block_math (body : string) : string :=
  "$$" +:+ Report.nl +:+ body +:+ Report.nl +:+ "$$".

(** The seven members of an uncertainty record under their report names,
    in the order of the report. *)
Definition members {V : Type} (u : Report.Uncertainty V) : list (string * option V) :=
  [ ("gmean", Report.geom_mean u); ("gsdev", Report.geom_sd u);
    ("max", Report.maximum u); ("ave", Report.mean u);
    ("min", Report.minimum u); ("mode", Report.mode u); ("sdev", Report.sd u) ].

(** [key:value] for exactly the members that are not null. *)
Definition non_null_members {V : Type} (show : V → string) (u : Report.Uncertainty V)
    : list string :=
  omap (λ '(k, v), (λ x, k +:+ ":" +:+ show x) <$> v) (members u).

Definition title_case_name (distribution : string) : string :=
  Py.title (Py.replace_char "_" " " distribution).

(** ** Reading a report back *)

(** The loop of [read_report_markdown] as a recursion over the lines,
    and its composition with [readlines]: the form in which the proofs
    follow the code. *)
Fixpoint stripped_lines (lines : list string) : string :=
  match lines with
  | [] => EmptyString
  | l :: ls => Py.rstrip l +:+ Report.nl +:+ stripped_lines ls
  end.

Definition read_back (text : string) : string :=
  stripped_lines (Report.readlines text).

(** The text made of the given lines, each closed by a line feed. *)
Fixpoint unlines (xs : list string) : string :=
  match xs with
  | [] => EmptyString
  | x :: xs' => x +:+ Report.nl +:+ unlines xs'
  end.

Definition is_line_end (c : ascii) : bool :=
  Ascii.eqb c Report.LF || Ascii.eqb c Report.CR.

(** A text without line ends, and a text without carriage returns. *)
Definition plain (x : string) : bool :=
  Py.all_chars (λ c, negb (is_line_end c)) x.
Definition no_cr (x : string) : bool :=
  Py.all_chars (λ c, negb (Ascii.eqb c Report.CR)) x.

(** *** The text read back in the words of the specification

    The lines of a text and the white space at the end of a line are
    described here on their own; nothing below uses the embedding of
    [readlines] and [read_report_markdown] or the string primitives of
    [Py]. *)

(** A text of white space only. *)
Fixpoint only_white (x : string) : bool :=
  match x with
  | EmptyString => true
  | String c x' => white c && only_white x'
  end.

(** A text up to its last character that is not white space. *)
Fixpoint without_trailing_space (x : string) : string :=
  match x with
  | EmptyString => EmptyString
  | String c x' =>
      if only_white x then EmptyString else String c (without_trailing_space x')
  end.

(** The lines of a text.  A line ends at LF, at CR LF or at CR, and the
    line end is no part of it; the characters behind the last line end
    are a line when there are any.  [line] is the line read so far, and
    [after_cr] tells that the character before was a CR, whose LF is
    skipped. *)
Fixpoint lines_from (after_cr : bool) (line s : string) : list string :=
  match s with
  | EmptyString => if String.eqb line EmptyString then [] else [line]
  | String c s' =>
      if Ascii.eqb c (ascii_of_N 13) then line :: lines_from true EmptyString s'
      else if Ascii.eqb c (ascii_of_N 10) then
        if after_cr then lines_from false line s'
        else line :: lines_from false EmptyString s'
      else lines_from false (line +:+ String c EmptyString) s'
  end.

Definition text_lines : string → list string := lines_from false EmptyString.

(** The text as it is read: every line without the white space at its
    end, closed by one line feed. *)
Definition text_read (text : string) : string :=
  unlines (without_trailing_space <$> text_lines text).

(** Two devices of the proofs: a text put in front of the first of some
    lines (a line of its own when there is none and the text is not
    empty), and a text without the line feed at its start. *)
Definition prepend (p : string) (ls : list string) : list string :=
  match ls with
  | [] => if String.eqb p EmptyString then [] else [p]
  | l :: ls' => (p +:+ l) :: ls'
  end.

Definition skip_lf (s : string) : string :=
  match s with
  | String c s' => if Ascii.eqb c Report.LF then s' else s
  | EmptyString => EmptyString
  end.

(** Two texts are the same up to the white space at their very end. *)
Definition same_up_to_trailing_space (a b : string) : Prop :=
  Py.rstrip a = Py.rstrip b.

(** ** Menus *)

(** An option is listed in a category menu when it belongs to the
    category and is visible. *)
Definition listed (ps : gmap string Interface.MenuOption) (category k : string) : bool :=
  match ps !! k with
  | Some o => String.eqb (Interface.type o) category && Interface.show o
  | None => false
  end.

(** The codes of a category menu: lexicographic order, visible only. *)
Definition menu_codes (ps : gmap string Interface.MenuOption) (category : string)
    : list string :=
  List.filter (listed ps category) (Interface.sorted_keys ps).

(** The line of an option in a menu, and its line in the review menu. *)
Definition option_line (ps : gmap string Interface.MenuOption) (k : string)
    : option string :=
  (λ o, Interface.rjust2 k +:+ " ..... " +:+ Interface.text o) <$> ps !! k.

Definition review_line (ps : gmap string Interface.MenuOption) (k : string)
    : option string :=
  (λ o, k +:+ " ..... " +:+ Interface.text o) <$> ps !! k.

Definition banner (msg : string) : list string :=
  [Interface.dashes (String.length msg); msg; Interface.dashes (String.length msg)].

(** The visibility flags after a connection. *)
Definition connection_toggles : list (string * bool) :=
  [("1", false); ("2", false); ("3", true); ("4", true); ("5", true);
   ("6", true); ("7", true); ("o", true)].

Definition toggled (ps : gmap string Interface.MenuOption)
    : gmap string Interface.MenuOption :=
  foldl (λ ps '(k, v), alter (Interface.set_show v) k ps) ps connection_toggles.

(** A method that leaves the option table alone, whatever its outcome. *)
Definition keeps_params `{NetlOlca} {A : Type} (m : Interface.M A) : Prop :=
  ∀ s, Interface.params (m s).2 = Interface.params s.

(** The nine process-type codes. *)
Definition process_type_codes : list string :=
  ["EP"; "MP"; "BP"; "IP"; "EC"; "TP"; "RP"; "WT"; "AP"].

(** ** Citations, tables and wrapped messages *)

(** A text that holds the pair CR LF. *)
Fixpoint has_crlf (s : string) : bool :=
  match s with
  | String c ((String c' _) as s') =>
      (Ascii.eqb c Report.CR && Ascii.eqb c' Report.LF) || has_crlf s'
  | _ => false
  end.

(** The first character of a text is the given one. *)
Definition head_is (a : ascii) (s : string) : bool :=
  match s with
  | String c _ => Ascii.eqb c a
  | EmptyString => false
  end.

(** How often a character occurs in a text. *)
Fixpoint count_char (a : ascii) (s : string) : nat :=
  match s with
  | EmptyString => 0
  | String c s' => (if Ascii.eqb c a then 1 else 0) + count_char a s'
  end.

(** The row of a flow, and the rows of a table given by its columns. *)
Definition flow_line (comp name quantity unit dq : string) : string :=
  "| " +:+ comp +:+ " | " +:+ name +:+ " | " +:+ quantity +:+ " | " +:+ unit
  +:+ " | " +:+ dq +:+ " |" +:+ Report.nl.

Fixpoint flow_lines (comps names quantities units dqs : list string) : string :=
  match comps, names, quantities, units, dqs with
  | c :: comps, n :: names, q :: quantities, u :: units, d :: dqs =>
      flow_line c n q u d +:+ flow_lines comps names quantities units dqs
  | _, _, _, _, _ => EmptyString
  end.


(** The text of a list of texts, one behind the other. *)
Definition concat_str (l : list string) : string :=
  foldr String.append EmptyString l.

(** The four groups of the parameter table, and a text that is written
    when a list has members. *)
Definition in_group {V : Type} (input : bool) (scope : string)
    (x : Report.ProcessParameter V) : bool :=
  Bool.eqb (Report.is_input_parameter x) input
  && String.eqb (Report.parameter_scope x) scope.

Definition when_some {A : Type} (l : list A) (text : string) : string :=
  match l with
  | [] => EmptyString
  | _ => text
  end.

(** A wrapped line fits: it is empty, or it has at most [char_count - 3]
    characters, or it is one word of the message and its space. *)
Definition fits (char_count : nat) (msg : list string) (line : string) : Prop :=
  line = EmptyString
  ∨ (Z.of_nat (String.length line) ≤ Z.of_nat char_count - 3)%Z
  ∨ ∃ w, w ∈ msg ∧ line = w +:+ " ".

(** A word opens a new line: it follows a line feed, or the line would
    grow beyond [char_count - 4]. *)
Definition breaks (char_count : nat) (prev : option string) (cur word : string) : bool :=
  bool_decide (prev = Some Report.nl)
  || bool_decide (Z.of_nat (String.length (cur +:+ word)) > Z.of_nat char_count - 4)%Z.

(** ** Help requests and prompts *)

(** A help request in its written form: [h(] or [help(], a code of one or
    two characters of the class, a closing parenthesis, and any text. *)
Definition help_form (h_str h_opt : string) : Prop :=
  ∃ tail,
    (h_str = "h(" +:+ h_opt +:+ ")" +:+ tail
     ∨ h_str = "help(" +:+ h_opt +:+ ")" +:+ tail)
    ∧ (String.length h_opt = 1 ∨ String.length h_opt = 2)
    ∧ Py.all_chars Interface.help_class h_opt = true.

(** The help pattern behind its [h] or [help]. *)
Definition after_h (rest : string) : option string :=
  match rest with
  | String p body =>
      if Ascii.eqb p "("%char then
        match body with
        | String a (String b (String c _)) =>
            if Interface.help_class a && Interface.help_class b && Ascii.eqb c ")"%char
            then Some (String a (String b EmptyString))
            else if Interface.help_class a && Ascii.eqb b ")"%char
            then Some (String a EmptyString)
            else None
        | String a (String b EmptyString) =>
            if Interface.help_class a && Ascii.eqb b ")"%char
            then Some (String a EmptyString)
            else None
        | _ => None
        end
      else None
  | EmptyString => None
  end.

(** An answer that the confirmation prompt takes for a yes. *)
Definition confirmed (ans : string) : bool :=
  String.eqb (Py.lower ans) "y" || String.eqb (Py.lower ans) "yes".

(** The lines typed by an operator who enters a value and declines it at
    the confirmation, once for each pair. *)
Definition typed (tries : list (string * string)) : list string :=
  tries ≫= λ '(value, answer), [value; answer].

(** * Facts about the string primitives *)

Lemma str_app_cons (c : ascii) (s t : string) :
  String c s +:+ t = String c (s +:+ t).
Proof. reflexivity. Qed.

Lemma str_app_nil_r (s : string) : s +:+ EmptyString = s.
Proof. induction s as [|c s IH]; [done|]. by rewrite str_app_cons, IH. Qed.

Lemma str_app_assoc (a b c : string) : (a +:+ b) +:+ c = a +:+ (b +:+ c).
Proof. induction a as [|x a IH]; [done|]. by rewrite !str_app_cons, IH. Qed.

Lemma last_char_None (s : string) : Py.last_char s = None ↔ s = EmptyString.
Proof.
  split; [|by intros ->].
  induction s as [|c s IH]; [done|].
  simpl. destruct s; [done|]. intros Hl. by specialize (IH Hl).
Qed.

(** Behind a character of the class, collapsing goes on where the run ends. *)
Lemma collapse_runs_skip cls s :
  collapse_runs_from true cls s = collapse_runs_from false cls (Py.span cls s).2.
Proof.
  induction s as [|c s IH]; simpl; [done|].
  destruct (cls c) eqn:Hc; simpl.
  - rewrite IH. by destruct (Py.span cls s).
  - by rewrite Hc.
Qed.

(** The substitution of the regular expression is the collapsing of runs. *)
Lemma re_sub_plus_collapse_runs cls s :
  Py.re_sub_plus cls "_" s = collapse_runs cls s.
Proof.
  unfold collapse_runs.
  funelim (Py.re_sub_plus cls "_" s); simp re_sub_plus; [done|].
  simpl. destruct (cls c) eqn:Hc.
  - rewrite H. simpl. by rewrite collapse_runs_skip.
  - by rewrite H0.
Qed.

Lemma collapse_runs_empty cls s :
  collapse_runs cls s = EmptyString → s = EmptyString.
Proof.
  destruct s as [|c s]; [done|]. unfold collapse_runs. simpl. by destruct (cls c).
Qed.

(** * The report assembler *)

(** A case for each of the 256 characters. *)
Ltac each_ascii c := destruct c as [[] [] [] [] [] [] [] []].

Section ReportFacts.
Import Report.

(** ** File names *)


Lemma get_file_name_unset self ext :
  truthy (reference_name self) = false →
  requested_ext ext ∈ valid_ext →
  get_file_name self ext = Ok ("report" +:+ written_ext (requested_ext ext)).
Proof.
  intros Hname Hext. unfold get_file_name, requested_ext, written_ext in *.
  destruct (Py.startswith (Py.lower ext) "."); simpl in *;
    rewrite bool_decide_eq_true_2 by done; simpl; by rewrite Hname.
Qed.

(** With a name, the index [r_name[-1]] is never out of range: the three
    substitutions keep a non-empty text non-empty. *)
Lemma get_file_name_set self name ext :
  reference_name self = Some name → name ≠ EmptyString →
  requested_ext ext ∈ valid_ext →
  get_file_name self ext = Ok (derived_stem name +:+ written_ext (requested_ext ext)).
Proof.
  intros Hname Hne Hext.
  assert (Htruthy : truthy (reference_name self) = true).
  { rewrite Hname. by destruct name. }
  assert (Hrun : ∀ e, (if truthy (reference_name self) then
      let name := default EmptyString (reference_name self) in
      let r_name := Py.re_sub_plus Py.isspace_char "_" name in
      let r_name := Py.re_sub_plus is_special "_" r_name in
      let r_name := Py.re_sub_plus is_underscore "_" r_name in
      match Py.last_char r_name with
      | None => Raise IndexError
      | Some c =>
          let r_name := if Ascii.eqb c "_"%char then Py.drop_last r_name else r_name in
          Ok (r_name +:+ e)
      end
    else Ok ("report" +:+ e)) = Ok (derived_stem name +:+ e)).
  { intros e. rewrite Htruthy, Hname. simpl.
    rewrite !re_sub_plus_collapse_runs. unfold derived_stem, drop_trailing_underscore.
    destruct (Py.last_char _) as [c|] eqn:Hlast; [done|].
    apply last_char_None in Hlast.
    by do 3 apply collapse_runs_empty in Hlast. }
  unfold get_file_name, requested_ext, written_ext in *.
  destruct (Py.startswith (Py.lower ext) "."); simpl in *;
    rewrite bool_decide_eq_true_2 by done; simpl; apply Hrun.
Qed.

(** *** What a derived stem looks like *)











(** *** The words of the specification and the steps of the code *)

Lemma white_isspace c : white c = Py.isspace_char c.
Proof. each_ascii c; vm_compute; reflexivity. Qed.








(** C10.  With no reference process name (None or the empty string) and
    a valid extension, [get_file_name] returns [report] followed by the
    extension, [.txt] being written as [.md]; it does not fail. *)
Theorem get_file_name_default :
  ∀ self ext,
    reference_name self = None ∨ reference_name self = Some EmptyString →
    requested_ext ext ∈ valid_ext →
    get_file_name self ext = Ok ("report" +:+ written_ext (requested_ext ext)).
Proof.
  intros self ext Hname Hext. apply get_file_name_unset; [|done].
  by destruct Hname as [-> | ->].
Qed.

Lemma get_file_name_default_witness :
  reference_name init = None
  ∧ requested_ext "txt" ∈ valid_ext
  ∧ get_file_name init "txt" = Ok "report.md".
Proof.
  assert (Hext : requested_ext "txt" ∈ valid_ext).
  { vm_compute. repeat constructor. }
  split; [reflexivity|]. split; [exact Hext|].
  rewrite (get_file_name_default init "txt" (or_introl eq_refl) Hext).
  vm_compute. reflexivity.
Defined.

(** ** Rendering *)

Lemma or_default_truthy x d d' : truthy x = true → or_default x d = or_default x d'.
Proof. by destruct x as [[|c s]|]. Qed.

(** C1, amended.  The rendered text is a function of the fields that the
    template reads and of the current date: two documents with the same
    field state render to the same text when the date of creation is set,
    or when both calls see the same date.  (An unset date of creation is
    replaced by the date of the call, so the text follows the clock.) *)
Theorem create_report_markdown_pure :
  ∀ (a b : NetlOlcaReport) (today today' : date),
    same_fields a b →
    truthy (create_date a) = true ∨ today = today' →
    create_report_markdown a today = create_report_markdown b today'.
Proof.
  intros a b d d' (Hcd & Hrn & Hrf & Hrd & Hbd & Hif & Hof & Hpd & Hpt & Hpj
                   & Hpoc & Hv & Hal & Hs & Hcc & Hdis) Hdate.
  unfold create_report_markdown.
  rewrite <- Hrn, <- Hrf, <- Hrd, <- Hbd, <- Hif, <- Hof, <- Hpd, <- Hpt, <- Hpj,
    <- Hpoc, <- Hv, <- Hal, <- Hs, <- Hcc, <- Hdis, <- Hcd.
  destruct Hdate as [Hset | ->]; [|done].
  by rewrite (or_default_truthy _ (isoformat d) (isoformat d')).
Qed.

Lemma create_report_markdown_pure_witness :
  same_fields init (set_md (Some "stale text") init)
  ∧ create_report_markdown init Demo.today
    = create_report_markdown (set_md (Some "stale text") init) Demo.today.
Proof.
  assert (Hsame : same_fields init (set_md (Some "stale text") init)).
  { repeat split; reflexivity. }
  split; [exact Hsame|].
  exact (create_report_markdown_pure init (set_md (Some "stale text") init)
           Demo.today Demo.today Hsame (or_intror eq_refl)).
Defined.

(** C1 as stated fails: the same field state, rendered on two days. *)
Lemma create_report_markdown_reads_clock :
  create_report_markdown init {| year := 2024; month := 11; day := 1 |}
  ≠ create_report_markdown init {| year := 2024; month := 11; day := 2 |}.
Proof. by vm_compute. Qed.

End ReportFacts.

(** ** Formulas *)

Section FormulaFacts.
Import Report.

Lemma re_sub_one_app cls repl a b :
  Py.re_sub_one cls repl (a +:+ b)
  = Py.re_sub_one cls repl a +:+ Py.re_sub_one cls repl b.
Proof.
  induction a as [|c a IH]; [done|].
  rewrite str_app_cons. simpl. rewrite IH.
  destruct (cls c); [by rewrite str_app_assoc|done].
Qed.

(** The two substitutions of the fallback escape each star and each
    underscore once: the backslashes of the first are not touched by the
    second. *)
Lemma escape_twice s :
  Py.re_sub_one is_underscore (backslash +:+ "_")
    (Py.re_sub_one is_star (backslash +:+ "*") s) = markdown_escape s.
Proof.
  induction s as [|c s IH]; [done|].
  simpl. unfold is_star at 1.
  destruct (Ascii.eqb_spec c "*"%char) as [->|Hstar]; simpl.
  - by rewrite re_sub_one_app, IH.
  - unfold is_underscore at 1.
    destruct (Ascii.eqb_spec c "_"%char) as [->|Hus]; by rewrite IH.
Qed.

Variable latex_of : string → option string.

(** C5, amended.  Without formula text (empty, NaN or None)
    [_fix_formula] returns the empty string, whatever the name.  With a
    name and a formula: when sympy fails on either side the result is the
    literal [name = formula] with every star and underscore escaped, and no
    exception leaves the function; when sympy succeeds on both sides the
    result is [left = right] between block math delimiters.  With a formula
    and no name the same holds for the formula alone. *)
Theorem _fix_formula_cases :
  ∀ (p_name f_txt : pyval) (name formula : string),
    (is_given f_txt = false →
       _fix_formula latex_of p_name f_txt false = Ok EmptyString)
    ∧ (p_name = PyStr name → name ≠ EmptyString →
       f_txt = PyStr formula → formula ≠ EmptyString →
       ((latex_of name = None ∨ latex_of formula = None) →
          _fix_formula latex_of p_name f_txt false
          = Ok (markdown_escape (name +:+ " = " +:+ formula)))
       ∧ (∀ l r, latex_of name = Some l → latex_of formula = Some r →
          _fix_formula latex_of p_name f_txt false
          = Ok (block_math (l +:+ " = " +:+ r))))
    ∧ (is_given p_name = false →
       f_txt = PyStr formula → formula ≠ EmptyString →
       (latex_of formula = None →
          _fix_formula latex_of p_name f_txt false = Ok (markdown_escape formula))
       ∧ (∀ r, latex_of formula = Some r →
          _fix_formula latex_of p_name f_txt false = Ok (block_math r))).
Proof.
  intros p_name f_txt name formula. split; [|split].
  - intros Hf. unfold _fix_formula. by rewrite Hf.
  - intros -> Hn -> Hf.
    assert (Hgn : is_given (PyStr name) = true) by by destruct name.
    assert (Hgf : is_given (PyStr formula) = true) by by destruct formula.
    unfold _fix_formula. rewrite Hgn, Hgf. simpl. split.
    + intros [Hl | Hr].
      * rewrite Hl. by rewrite escape_twice.
      * rewrite Hr. destruct (latex_of name); by rewrite escape_twice.
    + intros l r Hl Hr. by rewrite Hl, Hr.
  - intros Hn -> Hf.
    assert (Hgf : is_given (PyStr formula) = true) by by destruct formula.
    unfold _fix_formula. rewrite Hn, Hgf. simpl. split.
    + intros Hr. rewrite Hr. by rewrite escape_twice.
    + intros r Hr. by rewrite Hr.
Qed.

End FormulaFacts.

Lemma _fix_formula_cases_witness :
  Demo.latex_of "b * c *" = None
  ∧ Report._fix_formula Demo.latex_of (PyStr "A_tot") (PyStr "b * c *") false
    = Ok (markdown_escape "A_tot = b * c *")
  ∧ Demo.latex_of "A_tot" = Some "A_tot"
  ∧ Demo.latex_of "b * c" = Some "b * c"
  ∧ Report._fix_formula Demo.latex_of (PyStr "A_tot") (PyStr "b * c") false
    = Ok (block_math "A_tot = b * c").
Proof.
  split; [reflexivity|].
  destruct (_fix_formula_cases Demo.latex_of (PyStr "A_tot") (PyStr "b * c *")
              "A_tot" "b * c *") as (_ & Hfails & _).
  destruct (Hfails eq_refl ltac:(discriminate) eq_refl ltac:(discriminate))
    as [Hfail _].
  split; [apply Hfail; right; reflexivity|].
  destruct (_fix_formula_cases Demo.latex_of (PyStr "A_tot") (PyStr "b * c")
              "A_tot" "b * c") as (_ & Hworks & _).
  destruct (Hworks eq_refl ltac:(discriminate) eq_refl ltac:(discriminate))
    as [_ Hok].
  split; [reflexivity|]. split; [reflexivity|].
  exact (Hok "A_tot" "b * c" eq_refl eq_refl).
Defined.

(** C5 as stated fails: a name that sympy accepts, and no formula text. *)
Lemma _fix_formula_name_only :
  Demo.latex_of "x" = Some "x"
  ∧ Report._fix_formula Demo.latex_of (PyStr "x") (PyStr EmptyString) false
    = Ok EmptyString
  ∧ Report._fix_formula Demo.latex_of (PyStr "x") (PyStr EmptyString) false
    ≠ Ok (block_math "x").
Proof. by vm_compute. Qed.

(** ** Uncertainty *)

(** C7.  A parameter that carries an uncertainty with a distribution
    renders as the title-cased distribution name, a space, and in
    parentheses the comma-separated [key:value] of exactly the non-null
    members among gmean, gsdev, max, ave, min, mode, sdev, in that order;
    a parameter without uncertainty, or no parameter, renders as [none];
    the triangular example renders as
    [Triangle Distribution (max:13.0, min:5.0, mode:7.5)]. *)
Theorem _fix_uncertainty_render :
  ∀ (V : Type) (show : V → string) (param : Report.OlcaParameter V),
    (∀ u distribution,
       Report.uncertainty param = Some u →
       Report.distribution_type u = Some distribution →
       Report._fix_uncertainty show (Some param)
       = Ok (title_case_name distribution +:+ " ("
             +:+ Py.join ", " (non_null_members show u) +:+ ")"))
    ∧ (Report.uncertainty param = None →
       Report._fix_uncertainty show (Some param) = Ok "none")
    ∧ Report._fix_uncertainty show None = Ok "none"
    ∧ Report._fix_uncertainty id (Some {| Report.uncertainty := Some Demo.triangle |})
      = Ok "Triangle Distribution (max:13.0, min:5.0, mode:7.5)".
Proof.
  intros V show param. split; [|split; [|split; [done|by vm_compute]]].
  - intros u distribution Hu Hd. unfold Report._fix_uncertainty. rewrite Hu, Hd.
    unfold non_null_members, members, title_case_name.
    destruct u as [dt gm gs mx av mn md sdv]. simpl.
    by destruct gm, gs, mx, av, mn, md, sdv.
  - intros Hu. unfold Report._fix_uncertainty. by rewrite Hu.
Qed.

Lemma _fix_uncertainty_render_witness :
  Report.distribution_type Demo.triangle = Some "TRIANGLE_DISTRIBUTION"
  ∧ Report._fix_uncertainty id (Some {| Report.uncertainty := Some Demo.triangle |})
    = Ok ("Triangle Distribution" +:+ " ("
          +:+ Py.join ", " ["max:13.0"; "min:5.0"; "mode:7.5"] +:+ ")").
Proof.
  split; [reflexivity|].
  exact (proj1 (_fix_uncertainty_render string id
                  {| Report.uncertainty := Some Demo.triangle |})
           Demo.triangle "TRIANGLE_DISTRIBUTION" eq_refl eq_refl).
Defined.

(** ** Writing a report and reading it back *)

Section RoundTripFacts.
Import Report.

Lemma strip_lines_from acc lines :
  foldl (λ md_txt line, md_txt +:+ (Py.rstrip line +:+ nl)) acc lines
  = acc +:+ stripped_lines lines.
Proof.
  revert acc. induction lines as [|l ls IH]; intros acc; simpl.
  - by rewrite str_app_nil_r.
  - by rewrite IH, !str_app_assoc.
Qed.

Lemma strip_lines_stripped lines : strip_lines lines = stripped_lines lines.
Proof. unfold strip_lines. by rewrite strip_lines_from. Qed.

(** The markdown path of a document always exists. *)
Lemma get_file_path_md self : ∃ path, get_file_path self "md" = Ok path.
Proof.
  assert (Hext : requested_ext "md" ∈ valid_ext).
  { vm_compute. repeat constructor. }
  unfold get_file_path.
  destruct (truthy (reference_name self)) eqn:Hname.
  - destruct (reference_name self) as [name|] eqn:Hn; [|done].
    rewrite (get_file_name_set self name "md"); [by eexists|done|by destruct name|done].
  - rewrite (get_file_name_unset self "md"); [by eexists|done..].
Qed.

Lemma rstrip_cons c x :
  Py.rstrip (String c x) =
    match Py.rstrip x with
    | EmptyString => if Py.isspace_char c then EmptyString else String c EmptyString
    | r => String c r
    end.
Proof. done. Qed.

Lemma rstrip_app_nl x : Py.rstrip (x +:+ nl) = Py.rstrip x.
Proof.
  induction x as [|c x IH]; [done|].
  by rewrite str_app_cons, !rstrip_cons, IH.
Qed.

Lemma rstrip_idem x : Py.rstrip (Py.rstrip x) = Py.rstrip x.
Proof.
  induction x as [|c x IH]; [done|].
  rewrite rstrip_cons. destruct (Py.rstrip x) as [|d r] eqn:Hr.
  - destruct (Py.isspace_char c) eqn:Hc; [done|]. by rewrite rstrip_cons, Hc.
  - by rewrite rstrip_cons, IH.
Qed.

Lemma universal_newlines_no_cr s : no_cr s = true → universal_newlines s = s.
Proof.
  unfold no_cr. induction s as [|c s IH]; [done|].
  simpl. intros [Hc Hs]%andb_prop. apply negb_true_iff in Hc.
  by rewrite Hc, IH.
Qed.

Lemma universal_newlines_cr s :
  universal_newlines (String CR s) =
    match s with
    | String c' s'' =>
        if Ascii.eqb c' LF then String LF (universal_newlines s'')
        else String LF (universal_newlines s)
    | EmptyString => String LF EmptyString
    end.
Proof. done. Qed.

Lemma universal_newlines_other c s :
  Ascii.eqb c CR = false →
  universal_newlines (String c s) = String c (universal_newlines s).
Proof. intros Hc. simpl. by rewrite Hc. Qed.

(** No carriage return survives the reading. *)
Lemma no_cr_universal_newlines s : no_cr (universal_newlines s) = true.
Proof.
  assert (Hlen : ∀ n s, String.length s ≤ n → no_cr (universal_newlines s) = true).
  { clear s. induction n as [|n IH]; intros [|c s] Hn; try done; [simpl in Hn; lia|].
    simpl in Hn. destruct (Ascii.eqb c CR) eqn:Hc.
    - apply Ascii.eqb_eq in Hc as ->. rewrite universal_newlines_cr.
      destruct s as [|c' s]; [done|]. simpl in Hn.
      destruct (Ascii.eqb c' LF); unfold no_cr; cbn [Py.all_chars];
        apply andb_true_intro; (split; [done|]); apply IH; simpl; lia.
    - rewrite universal_newlines_other by done.
      unfold no_cr. cbn [Py.all_chars]. rewrite Hc. simpl. apply IH. lia. }
  by apply (Hlen (String.length s)).
Qed.

Lemma keepends_plain x rest :
  plain x = true → keepends (x +:+ String LF rest) = (x +:+ nl) :: keepends rest.
Proof.
  unfold plain. induction x as [|c x IH]; [done|].
  simpl. intros [Hc Hx]%andb_prop. rewrite !str_app_cons. simpl. rewrite (IH Hx).
  unfold is_line_end in Hc. apply negb_true_iff, orb_false_elim in Hc as [-> _]. done.
Qed.

(** A line that was read holds no line end once it is stripped. *)
Lemma keepends_lines_plain s :
  no_cr s = true → Forall (λ l, plain (Py.rstrip l) = true) (keepends s).
Proof.
  unfold no_cr. induction s as [|c s IH]; [constructor|].
  simpl. intros [Hc Hs]%andb_prop. specialize (IH Hs). apply negb_true_iff in Hc.
  destruct (Ascii.eqb c LF) eqn:Hlf.
  - constructor; [|done]. apply Ascii.eqb_eq in Hlf as ->. done.
  - assert (Hplain : negb (is_line_end c) = true).
    { unfold is_line_end. by rewrite Hlf, Hc. }
    destruct (keepends s) as [|l ls].
    + repeat constructor. rewrite rstrip_cons. simpl.
      destruct (Py.isspace_char c); [done|]. unfold plain. simpl. by rewrite Hplain.
    + inversion IH as [|? ? Hl Hls]; subst. constructor; [|done].
      rewrite rstrip_cons. destruct (Py.rstrip l) as [|d r].
      * destruct (Py.isspace_char c); [done|]. unfold plain. simpl. by rewrite Hplain.
      * unfold plain in *. simpl in *. by rewrite Hplain.
Qed.

Lemma stripped_lines_unlines ls : stripped_lines ls = unlines (Py.rstrip <$> ls).
Proof. induction ls as [|l ls IH]; [done|]. simpl. by rewrite IH. Qed.

Lemma plain_no_cr x : plain x = true → no_cr x = true.
Proof.
  unfold plain, no_cr. induction x as [|c x IH]; [done|].
  simpl. intros [Hc Hx]%andb_prop. rewrite (IH Hx).
  unfold is_line_end in Hc. apply negb_true_iff, orb_false_elim in Hc as [_ ->]. done.
Qed.

Lemma no_cr_app a b : no_cr a = true → no_cr b = true → no_cr (a +:+ b) = true.
Proof.
  unfold no_cr. induction a as [|c a IH]; [done|].
  simpl. intros [Hc Ha]%andb_prop Hb. rewrite ?str_app_cons. simpl. by rewrite Hc, IH.
Qed.

Lemma no_cr_unlines xs :
  Forall (λ x, plain x = true) xs → no_cr (unlines xs) = true.
Proof.
  induction 1 as [|x xs Hx _ IH]; [done|].
  simpl. apply no_cr_app; [by apply plain_no_cr|]. by apply no_cr_app.
Qed.

Lemma readlines_unlines xs :
  Forall (λ x, plain x = true) xs →
  readlines (unlines xs) = (λ x, x +:+ nl) <$> xs.
Proof.
  intros Hxs. unfold readlines.
  rewrite universal_newlines_no_cr by by apply no_cr_unlines.
  induction Hxs as [|x xs Hx _ IH]; [done|].
  simpl. change (nl +:+ unlines xs) with (String LF (unlines xs)).
  by rewrite keepends_plain, IH.
Qed.

(** A text of stripped lines, each closed by a line feed, is read back
    as it is. *)
Lemma read_back_unlines xs :
  Forall (λ x, plain x = true ∧ Py.rstrip x = x) xs →
  read_back (unlines xs) = unlines xs.
Proof.
  intros Hxs. unfold read_back.
  rewrite readlines_unlines by (eapply Forall_impl; [done|]; by intros ? []).
  induction Hxs as [|x xs [_ Hx] _ IH]; [done|].
  rewrite fmap_cons. cbn [stripped_lines unlines].
  by rewrite rstrip_app_nl, Hx, IH.
Qed.

(** What is read back is such a text. *)
Lemma read_back_stripped text :
  ∃ xs, read_back text = unlines xs
        ∧ Forall (λ x, plain x = true ∧ Py.rstrip x = x) xs.
Proof.
  exists (Py.rstrip <$> readlines text). split.
  - apply stripped_lines_unlines.
  - apply Forall_fmap. unfold readlines.
    eapply Forall_impl; [apply keepends_lines_plain, no_cr_universal_newlines|].
    intros l Hl. simpl. split; [done|apply rstrip_idem].
Qed.

Lemma read_back_idempotent text : read_back (read_back text) = read_back text.
Proof.
  destruct (read_back_stripped text) as (xs & -> & Hxs). by apply read_back_unlines.
Qed.

(** *** The words of the specification and the steps of the code *)

Lemma rstrip_only_white x : only_white x = true → Py.rstrip x = EmptyString.
Proof.
  induction x as [|c x IH]; [done|]. simpl. intros [Hc Hx]%andb_prop.
  rewrite (IH Hx). rewrite white_isspace in Hc. by rewrite Hc.
Qed.

Lemma without_trailing_space_nil x :
  without_trailing_space x = EmptyString → only_white x = true.
Proof.
  destruct x as [|c x]; [done|].
  cbn [without_trailing_space]. by destruct (only_white (String c x)).
Qed.

Lemma rstrip_without_trailing_space x : Py.rstrip x = without_trailing_space x.
Proof.
  induction x as [|c x IH]; [done|].
  rewrite rstrip_cons. cbn [without_trailing_space].
  destruct (only_white (String c x)) eqn:Hw.
  - apply rstrip_only_white in Hw. by rewrite rstrip_cons in Hw.
  - rewrite IH. destruct (without_trailing_space x) as [|d r] eqn:Hx; [|done].
    apply without_trailing_space_nil in Hx. simpl in Hw. rewrite Hx, andb_true_r in Hw.
    rewrite white_isspace in Hw. by rewrite Hw.
Qed.

Lemma prepend_nil ls : prepend EmptyString ls = ls.
Proof. by destruct ls. Qed.

Lemma prepend_char a c ls :
  prepend a (prepend (String c EmptyString) ls) = prepend (a +:+ String c EmptyString) ls.
Proof.
  destruct ls as [|l ls]; simpl.
  - by destruct a.
  - by rewrite str_app_assoc.
Qed.

Lemma keepends_other c t :
  Ascii.eqb c LF = false →
  keepends (String c t) = prepend (String c EmptyString) (keepends t).
Proof. intros Hc. simpl. rewrite Hc. by destruct (keepends t). Qed.

Lemma universal_newlines_skip s :
  universal_newlines (String CR s) = String LF (universal_newlines (skip_lf s)).
Proof.
  rewrite universal_newlines_cr. destruct s as [|c s]; [done|].
  simpl. by destruct (Ascii.eqb c LF).
Qed.

Lemma skip_lf_length s : String.length (skip_lf s) ≤ String.length s.
Proof. destruct s as [|c s]; [done|]. simpl. destruct (Ascii.eqb c LF); simpl; lia. Qed.

Lemma lines_from_after_cr line s :
  lines_from true line s = lines_from false line (skip_lf s).
Proof.
  destruct s as [|c s]; [done|]. unfold skip_lf.
  destruct (Ascii.eqb_spec c LF) as [->|Hc]; [done|].
  cbn [lines_from]. by rewrite (proj2 (Ascii.eqb_neq c (ascii_of_N 10)) Hc).
Qed.

(** The lines that the code reads and strips are the lines of the text
    without their trailing white space. *)
Lemma stripped_lines_text_lines (n : nat) :
  ∀ s line, String.length s ≤ n →
    stripped_lines (prepend line (keepends (universal_newlines s)))
    = unlines (without_trailing_space <$> lines_from false line s).
Proof.
  induction n as [|n IH]; intros [|c s] line Hn; try (simpl in Hn; lia).
  - simpl. destruct (String.eqb line EmptyString); [done|].
    simpl. by rewrite rstrip_without_trailing_space.
  - simpl. destruct (String.eqb line EmptyString); [done|].
    simpl. by rewrite rstrip_without_trailing_space.
  - simpl in Hn. destruct (Ascii.eqb_spec c CR) as [->|Hcr].
    + rewrite universal_newlines_skip.
      change (lines_from false line (String CR s))
        with (line :: lines_from true EmptyString s).
      rewrite lines_from_after_cr.
      change (keepends (String LF (universal_newlines (skip_lf s))))
        with (nl :: keepends (universal_newlines (skip_lf s))).
      cbn [prepend stripped_lines fmap list_fmap unlines].
      rewrite rstrip_app_nl, rstrip_without_trailing_space.
      rewrite <- (IH (skip_lf s) EmptyString)
        by (pose proof (skip_lf_length s); lia).
      by rewrite prepend_nil.
    + rewrite universal_newlines_other by by apply Ascii.eqb_neq.
      destruct (Ascii.eqb_spec c LF) as [->|Hlf].
      * change (lines_from false line (String LF s))
          with (line :: lines_from false EmptyString s).
        change (keepends (String LF (universal_newlines s)))
          with (nl :: keepends (universal_newlines s)).
        cbn [prepend stripped_lines fmap list_fmap unlines].
        rewrite rstrip_app_nl, rstrip_without_trailing_space.
        rewrite <- (IH s EmptyString) by lia.
        by rewrite prepend_nil.
      * rewrite keepends_other by by apply Ascii.eqb_neq.
        rewrite prepend_char.
        replace (lines_from false line (String c s))
          with (lines_from false (line +:+ String c EmptyString) s).
        2:{ cbn [lines_from].
            rewrite (proj2 (Ascii.eqb_neq c (ascii_of_N 13))) by exact Hcr.
            by rewrite (proj2 (Ascii.eqb_neq c (ascii_of_N 10))) by exact Hlf. }
        apply IH. lia.
Qed.

(** What the code reads back is the text read, as the specification
    words it. *)
Lemma read_back_text_read text : read_back text = text_read text.
Proof.
  unfold read_back, text_read, text_lines, readlines.
  rewrite <- (stripped_lines_text_lines (String.length text) text EmptyString) by lia.
  by rewrite prepend_nil.
Qed.

(** C8, amended.  Writing the rendered report with [save_markdown] and
    reading it back with [read_report_markdown] succeeds whenever the
    markdown path can be written; the file holds the rendered report as
    it is; and, for a report of ASCII text, the text read back is the
    rendered report in which every line has lost the white space at its
    end and is closed by one line feed (line ends CR LF and CR are read
    as LF), nothing else being changed.  That text is a fixed point:
    reading it back again changes nothing. *)
Theorem save_then_read :
  ∀ (self : NetlOlcaReport) (today : date) (fs : FileSystem) (path : string),
    get_file_path self "md" = Ok path →
    writable fs path = true →
    Py.isascii (create_report_markdown self today) = true →
    ∃ saved fs' loaded,
      save_markdown self today fs = (Ok (), saved, fs')
      ∧ md saved = Some (create_report_markdown self today)
      ∧ files fs' !! path = Some (create_report_markdown self today)
      ∧ read_report_markdown saved fs' None = Ok loaded
      ∧ md loaded = Some (text_read (create_report_markdown self today))
      ∧ text_read (text_read (create_report_markdown self today))
        = text_read (create_report_markdown self today).
Proof.
  intros self today fs path Hpath Hw _.
  assert (Hsame : ∀ v, get_file_path (set_md v self) "md" = get_file_path self "md")
    by done.
  unfold save_markdown. rewrite Hsame, Hpath, Hw.
  do 3 eexists. split; [done|]. split; [done|]. simpl. split.
  - by rewrite lookup_insert_eq.
  - unfold read_report_markdown. rewrite Hsame, Hpath. simpl.
    rewrite lookup_insert_eq. split; [done|]. simpl.
    rewrite strip_lines_stripped.
    change (stripped_lines (readlines (create_report_markdown self today)))
      with (read_back (create_report_markdown self today)).
    rewrite <- !read_back_text_read. split; [done|]. apply read_back_idempotent.
Qed.

End RoundTripFacts.

(** The text read, on a text with the three line ends, white space at the
    end of lines, and a last line without a line end. *)
Lemma text_read_example :
  text_read ("one  " +:+ String Report.CR (String Report.LF "  two")
             +:+ String (ascii_of_N 9) (String Report.CR "three ")
             +:+ String Report.LF (String Report.LF "four"))
  = "one" +:+ Report.nl +:+ "  two" +:+ Report.nl +:+ "three" +:+ Report.nl
    +:+ Report.nl +:+ "four" +:+ Report.nl.
Proof. vm_compute. reflexivity. Qed.

Lemma save_then_read_witness :
  Report.get_file_path Report.init "md" = Ok "output/report.md"
  ∧ Report.writable Demo.disk "output/report.md" = true
  ∧ Py.isascii (Report.create_report_markdown Report.init Demo.today) = true
  ∧ ∃ saved fs' loaded,
      Report.save_markdown Report.init Demo.today Demo.disk = (Ok (), saved, fs')
      ∧ Report.read_report_markdown saved fs' None = Ok loaded
      ∧ Report.md loaded
        = Some (text_read (Report.create_report_markdown Report.init Demo.today)).
Proof.
  split; [reflexivity|]. split; [reflexivity|].
  assert (Hascii : Py.isascii (Report.create_report_markdown Report.init Demo.today)
                   = true) by (vm_compute; reflexivity).
  split; [exact Hascii|].
  destruct (save_then_read Report.init Demo.today Demo.disk "output/report.md"
              eq_refl eq_refl Hascii)
    as (saved & fs' & loaded & Hsave & _ & _ & Hread & Hmd & _).
  exists saved, fs', loaded. split; [exact Hsave|]. split; [exact Hread|exact Hmd].
Defined.

(** C8 as stated fails: a reference process name that ends in two spaces
    comes back without them, in the middle of the report. *)
Lemma save_then_read_changes_text :
  let self := Report.set_reference_name (Some "Steel  ") Report.init in
  let saved := (Report.save_markdown self Demo.today Demo.disk).1.2 in
  let fs' := (Report.save_markdown self Demo.today Demo.disk).2 in
  (Report.save_markdown self Demo.today Demo.disk).1.1 = Ok ()
  ∧ ∃ loaded text text',
      Report.read_report_markdown saved fs' None = Ok loaded
      ∧ Report.md saved = Some text
      ∧ Report.md loaded = Some text'
      ∧ ¬ same_up_to_trailing_space text text'.
Proof.
  split; [by vm_compute|].
  eexists _, _, _. split; [vm_compute; reflexivity|].
  split; [vm_compute; reflexivity|]. split; [vm_compute; reflexivity|].
  unfold same_up_to_trailing_space. by vm_compute.
Qed.

(** * The menu interpreter *)

(** ** The quit keywords are not numbers *)

Lemma lower_char_q c : Py.lower_char c = "q"%char → c = "q"%char ∨ c = "Q"%char.
Proof. each_ascii c; vm_compute; intros Hc; try discriminate Hc; auto. Qed.

Lemma lower_char_u c : Py.lower_char c = "u"%char → c = "u"%char ∨ c = "U"%char.
Proof. each_ascii c; vm_compute; intros Hc; try discriminate Hc; auto. Qed.

Lemma lower_char_i c : Py.lower_char c = "i"%char → c = "i"%char ∨ c = "I"%char.
Proof. each_ascii c; vm_compute; intros Hc; try discriminate Hc; auto. Qed.

Lemma lower_char_t c : Py.lower_char c = "t"%char → c = "t"%char ∨ c = "T"%char.
Proof. each_ascii c; vm_compute; intros Hc; try discriminate Hc; auto. Qed.

Lemma lower_nil s : Py.lower s = EmptyString → s = EmptyString.
Proof. by destruct s. Qed.

Lemma quit_keyword_not_int ans :
  Interface.quit_keyword ans = true → Interface.py_int ans = None.
Proof.
  unfold Interface.quit_keyword.
  intros [Hq | Hq]%orb_prop; apply String.eqb_eq in Hq.
  - destruct ans as [|c ans]; [done|]. injection Hq as Hc Hrest.
    apply lower_nil in Hrest as ->.
    by destruct (lower_char_q c Hc) as [-> | ->].
  - destruct ans as [|c1 [|c2 [|c3 [|c4 ans]]]]; try done.
    injection Hq as H1 H2 H3 H4 Hrest. apply lower_nil in Hrest as ->.
    destruct (lower_char_q c1 H1) as [-> | ->], (lower_char_u c2 H2) as [-> | ->],
      (lower_char_i c3 H3) as [-> | ->], (lower_char_t c4 H4) as [-> | ->]; done.
Qed.

Lemma all_space_lstrip s :
  Py.all_chars Py.isspace_char s = true → Py.lstrip s = EmptyString.
Proof.
  induction s as [|c s IH]; [done|]. simpl. intros [Hc Hs]%andb_prop. by rewrite Hc, IH.
Qed.

Lemma int_rstrip_head c s :
  Interface.int_space c = false →
  ∃ r, Interface.int_rstrip (String c s) = String c r.
Proof.
  intros Hc. simpl. destruct (Interface.int_rstrip s); rewrite ?Hc; eauto.
Qed.

Lemma int_lstrip_space s :
  Py.all_chars Py.isspace_char s = true →
  Interface.int_lstrip s = EmptyString
  ∨ ∃ c s', Interface.int_lstrip s = String c s'
            ∧ Py.isspace_char c = true ∧ Interface.int_space c = false.
Proof.
  induction s as [|c s IH]; [by left|]. simpl. intros [Hc Hs]%andb_prop.
  destruct (Interface.int_space c) eqn:Hi; [by apply IH|]. right. eauto.
Qed.

Lemma blank_not_int ans : Interface.blank ans = true → Interface.py_int ans = None.
Proof.
  unfold Interface.blank, Interface.py_int. intros [Hs | He]%orb_prop.
  - destruct ans as [|c ans]; [done|]. unfold Py.isspace in Hs.
    destruct (int_lstrip_space _ Hs) as [-> | (d & s' & -> & Hd & Hi)]; [done|].
    destruct (int_rstrip_head d s' Hi) as [r ->]. clear Hs Hi.
    each_ascii d; vm_compute in Hd; try discriminate Hd; reflexivity.
  - by apply String.eqb_eq in He as ->.
Qed.

Lemma StronglySorted_filter {A : Type} (R : relation A) (f : A → bool) (l : list A) :
  StronglySorted R l → StronglySorted R (List.filter f l).
Proof.
  induction 1 as [|x l Hl IH Hx]; simpl; [constructor|].
  destruct (f x); [|done]. constructor; [done|].
  apply Forall_forall. intros y Hy%list_elem_of_In%filter_In.
  destruct Hy as [Hy _]. rewrite Forall_forall in Hx. apply Hx. by apply list_elem_of_In.
Qed.

Section InterpreterFacts.
Import Interface.
Context `{NetlOlca}.
Variable os : OperatingSystem.

Ltac bind_step := unfold mbind at 1; unfold M_bind at 1.

(** ** Single steps *)

Lemma with_stdout_same (s : Session) : with_stdout (stdout s ++ []) s = s.
Proof. destruct s. unfold with_stdout. simpl. by rewrite app_nil_r. Qed.

Lemma print_run (line : string) (s : Session) :
  print line s = (Done (), with_stdout (stdout s ++ [line]) s).
Proof. done. Qed.

Lemma input_run (prompt line : string) (rest : list string) (s : Session) :
  stdin s = line :: rest →
  input prompt s = (Done line, with_stdin rest (with_stdout (stdout s ++ [prompt]) s)).
Proof. intros Hin. unfold input. simpl. by rewrite Hin. Qed.

Lemma ask_run {A : Type} (f : connector → result A) (a : A) (s : Session) :
  f (netl s) = Ok a → ask f s = (Done a, s).
Proof. intros Hf. unfold ask. by rewrite Hf. Qed.

Lemma request_run (msg : string) (s : Session) :
  request msg s = (Done (), with_stdout (stdout s ++ banner msg) s).
Proof.
  unfold request, banner. unfold mbind, M_bind. rewrite !print_run.
  f_equal. unfold with_stdout. simpl. by rewrite <- !app_assoc.
Qed.

Lemma for_each_print (lines : list string) (s : Session) :
  for_each lines print s = (Done (), with_stdout (stdout s ++ lines) s).
Proof.
  revert s. induction lines as [|l ls IH]; intros s.
  - simpl. unfold mret, M_ret. by rewrite with_stdout_same.
  - cbn [for_each]. bind_step. unfold print at 1, modify.
    rewrite IH. f_equal. unfold with_stdout. simpl. by rewrite <- app_assoc.
Qed.

Lemma check_val_quit (ans : string) (s : Session) :
  quit_keyword ans = true →
  check_val ans s
  = (Done true,
     with_stdout (stdout s ++ ["Exiting..."])
       (with_hidden_state (-1) (with_is_running false s))).
Proof. intros Hq. unfold check_val. by rewrite Hq. Qed.

Lemma check_val_blank (ans : string) (s : Session) :
  quit_keyword ans = false → blank ans = true →
  check_val ans s = (Done true, s).
Proof. intros Hq Hb. unfold check_val. by rewrite Hq, Hb. Qed.

Lemma check_ans_run (val ans : string) (rest : list string) (s : Session) :
  stdin s = ans :: rest →
  ∃ s', check_ans val s
        = (Done (String.eqb (Py.lower ans) "y" || String.eqb (Py.lower ans) "yes"), s')
        ∧ is_running s' = is_running s ∧ stdin s' = rest.
Proof.
  intros Hin. unfold check_ans. bind_step. rewrite (input_run _ ans rest) by done.
  eexists. split; [by destruct (_ || _)|done].
Qed.

Lemma load_json_set_run (d : string) (s : Session) :
  ∃ s1, load_json_set os d s = (Done (), s1)
        ∧ stdin s1 = stdin s ∧ is_running s1 = is_running s
        ∧ params s1 = params s ∧ netl s1 = netl s ∧ work_file s1 = work_file s.
Proof.
  unfold load_json_set. unfold mbind, M_bind, gets, modify, mret, M_ret, warn.
  destruct (isdir os d); simpl; case_bool_decide; simpl; eauto 10.
Qed.

Lemma load_excel_set_run (d : string) (s : Session) :
  ∃ s1, load_excel_set os d s = (Done (), s1)
        ∧ stdin s1 = stdin s ∧ is_running s1 = is_running s.
Proof.
  unfold load_excel_set. unfold mbind, M_bind, gets, modify, mret, M_ret, warn.
  destruct (isdir os d); simpl; case_bool_decide; simpl; eauto.
Qed.

Lemma set_working_dir_params (d : string) (s : Session) :
  ∃ b s1, set_working_dir os d s = (Done b, s1) ∧ params s1 = params s.
Proof.
  unfold set_working_dir. destruct (isdir os d && dir_has_json os d); [|by eauto].
  destruct (load_json_set_run d s) as (s1 & Hl & _ & _ & Hps & _).
  unfold mbind at 1, M_bind. rewrite Hl. simpl. eauto.
Qed.

(** ** C9: the process type *)

(** C9.  [set_process_type] looks the input up in upper case: when the
    upper-cased input is one of the nine codes it returns True and the
    process code becomes that code, nothing else changing; for any other
    input of ASCII text it returns False and the session is left as it
    was; inputs that differ in case only are treated alike. *)
Theorem set_process_type_atomic :
  ∀ (s : Session) (val : string),
    Report.process_types.*1 = process_type_codes
    ∧ (Py.upper val ∈ process_type_codes →
       set_process_type val s
       = (Done true, with_rd (Report.set_process_code (Py.upper val) (rd s)) s)
       ∧ process_code (set_process_type val s).2 = Py.upper val)
    ∧ (Py.isascii val = true → Py.upper val ∉ process_type_codes →
       set_process_type val s = (Done false, s))
    ∧ (∀ val', Py.upper val' = Py.upper val →
       set_process_type val' s = set_process_type val s).
Proof.
  intros s val. unfold set_process_type. split; [done|]. split; [|split].
  - intros Hin. by rewrite bool_decide_eq_true_2.
  - intros _ Hin. by rewrite bool_decide_eq_false_2.
  - by intros val' ->.
Qed.

(** ** C6: the menus *)

Lemma sorted_keys_lookup (ps : gmap string MenuOption) (k : string) :
  k ∈ sorted_keys ps → is_Some (ps !! k).
Proof.
  unfold sorted_keys. rewrite merge_sort_Permutation.
  intros [[k' o] [-> Hin]]%list_elem_of_fmap. simpl.
  apply elem_of_map_to_list in Hin. eauto.
Qed.

Lemma sorted_keys_sorted (ps : gmap string MenuOption) :
  StronglySorted String.le (sorted_keys ps).
Proof. apply StronglySorted_merge_sort; apply _. Qed.

Lemma sorted_keys_NoDup (ps : gmap string MenuOption) : NoDup (sorted_keys ps).
Proof.
  unfold sorted_keys. rewrite merge_sort_Permutation. apply NoDup_fst_map_to_list.
Qed.

Lemma menu_codes_elem (ps : gmap string MenuOption) (category k : string) :
  k ∈ menu_codes ps category
  ↔ ∃ o, ps !! k = Some o ∧ type o = category ∧ show o = true.
Proof.
  unfold menu_codes. rewrite list_elem_of_In, filter_In, <- list_elem_of_In.
  unfold listed, sorted_keys. rewrite merge_sort_Permutation. split.
  - intros [_ Hl]. destruct (ps !! k) as [o|]; [|done].
    apply andb_prop in Hl as [Ht Hs]. apply String.eqb_eq in Ht. eauto.
  - intros (o & Ho & Ht & Hs). split.
    + apply list_elem_of_fmap. exists (k, o). split; [done|].
      by apply elem_of_map_to_list.
    + rewrite Ho, Hs, Ht. by rewrite String.eqb_refl.
Qed.

Lemma menu_codes_sorted (ps : gmap string MenuOption) (category : string) :
  StronglySorted String.le (menu_codes ps category).
Proof. apply StronglySorted_filter, sorted_keys_sorted. Qed.

Lemma menu_codes_NoDup (ps : gmap string MenuOption) (category : string) :
  NoDup (menu_codes ps category).
Proof.
  unfold menu_codes. apply NoDup_ListNoDup, List.NoDup_filter, NoDup_ListNoDup,
    sorted_keys_NoDup.
Qed.

(** A loop over option codes whose body writes one line for the codes
    that pass a test, and nothing else. *)
Lemma for_each_lines (l : list string) (test : string → bool → bool)
    (emit : string → M unit) (line : gmap string MenuOption → string → option string)
    (s : Session) :
  (∀ k o (s' : Session), params s' = params s → params s !! k = Some o →
     ∃ text, line (params s) k = Some text
             ∧ emit k s' = (Done (), with_stdout (stdout s' ++ [text]) s')) →
  (∀ k, k ∈ l → is_Some (params s !! k)) →
  for_each l (λ arg,
    ps ← gets params;
    match ps !! arg with
    | Some o => if test (type o) (show o) then emit arg else mret ()
    | None => raise (KeyError arg)
    end) s
  = (Done (),
     with_stdout
       (stdout s ++ omap (line (params s))
          (List.filter (λ k, match params s !! k with
                             | Some o => test (type o) (show o)
                             | None => false
                             end) l)) s).
Proof.
  intros Hemit.
  assert (Hgen : ∀ (s' : Session), params s' = params s →
    (∀ k, k ∈ l → is_Some (params s !! k)) →
    for_each l (λ arg,
      ps ← gets params;
      match ps !! arg with
      | Some o => if test (type o) (show o) then emit arg else mret ()
      | None => raise (KeyError arg)
      end) s'
    = (Done (),
       with_stdout
         (stdout s' ++ omap (line (params s))
            (List.filter (λ k, match params s !! k with
                               | Some o => test (type o) (show o)
                               | None => false
                               end) l)) s')); [|by apply Hgen].
  induction l as [|k l IH]; intros s' Hps Hdom.
  - simpl. by rewrite with_stdout_same.
  - destruct (Hdom k) as [o Ho]; [by left|].
    cbn [for_each List.filter]. bind_step. bind_step. unfold gets at 1.
    rewrite Hps, Ho.
    destruct (test (type o) (show o)) eqn:Htest.
    + destruct (Hemit k o s' Hps Ho) as (text & Hline & ->).
      rewrite IH; [|done|by intros; apply Hdom; right].
      cbn [omap list_omap]. rewrite Hline. simpl.
      f_equal. unfold with_stdout. simpl. by rewrite <- app_assoc.
    + unfold mret at 1, M_ret. rewrite IH; [done|done|].
      by intros; apply Hdom; right.
Qed.

Lemma for_sorted_params_run (test : string → bool → bool) (emit : string → M unit)
    (line : gmap string MenuOption → string → option string) (s : Session) :
  (∀ k o (s' : Session), params s' = params s → params s !! k = Some o →
     ∃ text, line (params s) k = Some text
             ∧ emit k s' = (Done (), with_stdout (stdout s' ++ [text]) s')) →
  for_sorted_params (λ arg param_type to_show,
    if test param_type to_show then emit arg else mret ()) s
  = (Done (),
     with_stdout
       (stdout s ++ omap (line (params s))
          (List.filter (λ k, match params s !! k with
                             | Some o => test (type o) (show o)
                             | None => false
                             end) (sorted_keys (params s)))) s).
Proof.
  intros Hemit. unfold for_sorted_params. bind_step. unfold gets at 1.
  apply for_each_lines; [done|]. apply sorted_keys_lookup.
Qed.

Lemma print_menu_option_run (k : string) (s : Session) :
  print_menu_option k s
  = (Done (), with_stdout (stdout s ++ omap (option_line (params s)) [k]) s).
Proof.
  unfold print_menu_option, option_line. unfold mbind, M_bind, gets.
  cbn [omap list_omap]. destruct (params s !! k) as [o|]; simpl; [done|].
  unfold mret, M_ret. by rewrite with_stdout_same.
Qed.

Lemma print_menu_option_emits (s : Session) :
  ∀ k o (s' : Session), params s' = params s → params s !! k = Some o →
    ∃ text, option_line (params s) k = Some text
            ∧ print_menu_option k s' = (Done (), with_stdout (stdout s' ++ [text]) s').
Proof.
  intros k o s' Hps Ho. rewrite print_menu_option_run, Hps.
  unfold option_line. cbn [omap list_omap]. rewrite Ho. simpl. eauto.
Qed.

(** The shape shared by the category menus: banner, the options that
    pass the test of the menu, then [m] and [q]. *)
Lemma category_menu_run (title : string) (test : string → bool → bool) (s : Session) :
  (request title;;
   for_sorted_params (λ arg param_type to_show,
     if test param_type to_show then print_menu_option arg else mret ());;
   print_menu_option "m";;
   print_menu_option "q") s
  = (Done (),
     with_stdout
       (stdout s ++ banner title
        ++ omap (option_line (params s))
             (List.filter (λ k, match params s !! k with
                                | Some o => test (type o) (show o)
                                | None => false
                                end) (sorted_keys (params s)) ++ ["m"; "q"])) s).
Proof.
  bind_step. rewrite request_run. bind_step.
  rewrite (for_sorted_params_run test print_menu_option option_line)
    by apply print_menu_option_emits.
  bind_step. rewrite !print_menu_option_run.
  f_equal. unfold with_stdout. simpl.
  rewrite omap_app. cbn [omap list_omap].
  rewrite <- !app_assoc. repeat f_equal.
  destruct (option_line (params s) "m"), (option_line (params s) "q"); done.
Qed.

Lemma filter_none {A : Type} (l : list A) : List.filter (λ _, false) l = [].
Proof. by induction l. Qed.

(** The review menu: its option lines, and what follows them. *)
Lemma query_run (s : Session) :
  ∃ r footer,
    query s
    = (r, with_stdout
            (stdout s ++ banner "REVIEW MENU: Select an option"
             ++ omap (review_line (params s)) (menu_codes (params s) "query")
             ++ footer) s).
Proof.
  unfold query. bind_step. rewrite request_run. bind_step.
  rewrite (for_sorted_params_run (λ pt ts, String.eqb pt "query" && ts) _ review_line).
  - bind_step. unfold gets at 1. simpl.
    destruct (params s !! "q") as [o|].
    + eexists _, [_]. rewrite print_run. f_equal. unfold with_stdout. simpl.
      by rewrite <- !app_assoc.
    + eexists _, []. unfold raise. f_equal. unfold with_stdout. simpl.
      by rewrite app_nil_r, <- !app_assoc.
  - intros k o s' Hps Ho. unfold review_line. simpl in *. rewrite Ho. simpl.
    eexists. split; [done|].
    unfold mbind, M_bind, gets. rewrite Hps. simpl in *. rewrite Ho. apply print_run.
Qed.

(** The publishing menu of an operator who goes on without pandoc. *)
Lemma publication_without_pandoc (ans : string) (rest : list string) (s : Session) :
  pandoc_installed os = false →
  stdin s = ans :: rest →
  Py.lower (Py.lower (Py.strip ans)) = "y" →
  handle_report_publication os s
  = (Done (),
     with_stdin rest
       (with_stdout
          (stdout s
           ++ ["Pandoc is not installed. " +:+
               "Reports in PDF, Word, or HTML format cannot be generated.";
               "Would you like to continue anyway? (y/n): "]
           ++ banner "PUBLISHING MENU: Select an option"
           ++ omap (option_line (params s)) ["m"; "q"]) s)).
Proof.
  intros Hpandoc Hin Hy. unfold handle_report_publication. rewrite Hpandoc. simpl.
  bind_step. rewrite print_run. bind_step.
  rewrite (input_run _ ans rest) by done.
  rewrite Hy. simpl. unfold publishing_menu.
  rewrite (category_menu_run _ (λ pt ts, String.eqb pt "publish" && ts && negb true)).
  rewrite (filter_ext _ (λ _, false)), filter_none.
  - f_equal. unfold with_stdout, with_stdin. simpl. by rewrite <- !app_assoc.
  - intros k. simpl. destruct (params s !! k); [|done]. by rewrite andb_false_r.
Qed.

(** C6, amended.  The codes of a category menu are the visible options
    of the category, in lexicographic order and without repetition.  The
    openLCA connection, edit, report and miscellany menus write their
    banner, the lines of these codes, then the lines of [m] and [q]; the
    JSON-LD connection menu does so after it has read the working
    directory; the publishing menu does so when pandoc is installed, and
    without pandoc it lists [m] and [q] alone once the operator has chosen
    to go on.  The review menu writes its banner and the lines of its codes
    in the same order; what follows them is not part of this statement. *)
Theorem category_menus :
  ∀ (s : Session),
    let ps := params s in
    let menu title category (s0 : Session) :=
      (Done (),
       with_stdout
         (stdout s0 ++ banner title
          ++ omap (option_line ps) (menu_codes ps category ++ ["m"; "q"])) s0) in
    (∀ category k,
       k ∈ menu_codes ps category
       ↔ ∃ o, ps !! k = Some o ∧ type o = category ∧ show o = true)
    ∧ (∀ category,
       StronglySorted String.le (menu_codes ps category)
       ∧ NoDup (menu_codes ps category))
    ∧ connect_olca s = menu "CONNECTION MENU: Select an option" "connection_olca" s
    ∧ edit s = menu "EDIT MENU: Select an option" "edit" s
    ∧ handle_report_generation s = menu "REPORT MENU: Select an option" "report" s
    ∧ show_misc s = menu "MISCELLANY MENU: Select an option" "misc" s
    ∧ (∃ b s1, set_working_dir os (work_dir s) s = (Done b, s1)
               ∧ connect_json os s
                 = menu "CONNECTION MENU: Select an option" "connection_json" s1)
    ∧ (pandoc_installed os = true →
       handle_report_publication os s
       = menu "PUBLISHING MENU: Select an option" "publish" s)
    ∧ (pandoc_installed os = false →
       ∀ ans rest, stdin s = ans :: rest →
         Py.lower (Py.lower (Py.strip ans)) = "y" →
         handle_report_publication os s
         = (Done (),
            with_stdin rest
              (with_stdout
                 (stdout s
                  ++ ["Pandoc is not installed. " +:+
                      "Reports in PDF, Word, or HTML format cannot be generated.";
                      "Would you like to continue anyway? (y/n): "]
                  ++ banner "PUBLISHING MENU: Select an option"
                  ++ omap (option_line ps) ["m"; "q"]) s)))
    ∧ (∃ r footer,
         query s
         = (r, with_stdout
                 (stdout s ++ banner "REVIEW MENU: Select an option"
                  ++ omap (review_line ps) (menu_codes ps "query") ++ footer) s)).
Proof.
  intros s ps menu. subst ps menu. cbv beta.
  split; [apply menu_codes_elem|].
  split; [by split; [apply menu_codes_sorted|apply menu_codes_NoDup]|].
  split; [apply category_menu_run|].
  split; [apply category_menu_run|].
  split; [apply category_menu_run|].
  split; [apply category_menu_run|].
  split; [|split; [|split; [|apply query_run]]].
  - destruct (set_working_dir_params (work_dir s) s) as (b & s1 & Hs1 & Hps).
    exists b, s1. split; [done|].
    unfold connect_json. bind_step. unfold gets at 1. bind_step. rewrite Hs1.
    rewrite (category_menu_run _ (λ pt ts, String.eqb pt "connection_json" && ts)).
    by rewrite Hps.
  - intros Hpandoc. unfold handle_report_publication. rewrite Hpandoc. simpl.
    unfold publishing_menu.
    rewrite (category_menu_run _ (λ pt ts, String.eqb pt "publish" && ts && negb false)).
    unfold menu_codes.
    rewrite (filter_ext _ (listed (params s) "publish")); [done|].
    intros k. unfold listed. destruct (params s !! k); [|done].
    by rewrite andb_true_r.
  - intros Hpandoc ans rest Hin Hy. by apply (publication_without_pandoc ans rest).
Qed.

(** ** C3: the quit keyword at the prompts *)

Lemma prompt_working_dir_quit (ans : string) (rest : list string) (s : Session) :
  stdin s = ans :: rest → quit_keyword ans = true →
  ∃ s', prompt_working_dir os s = (Done true, s')
        ∧ is_running s' = false ∧ stdin s' = rest.
Proof.
  intros Hin Hq. unfold prompt_working_dir.
  bind_step. unfold gets at 1.
  bind_step. rewrite (input_run _ _ _ _ Hin).
  bind_step. rewrite (check_val_quit _ _ Hq).
  simpl. eexists. split; [done|]. done.
Qed.

Lemma prompt_server_port_quit (ans : string) (rest : list string) (s : Session) :
  stdin s = ans :: rest → quit_keyword ans = true →
  ∃ s', prompt_server_port s = (Done true, s')
        ∧ is_running s' = false ∧ stdin s' = rest.
Proof.
  intros Hin Hq. unfold prompt_server_port.
  bind_step. unfold gets at 1.
  bind_step. rewrite (input_run _ _ _ _ Hin).
  bind_step. rewrite (check_val_quit _ _ Hq).
  simpl. eexists. split; [done|]. done.
Qed.

Lemma prompt_process_type_quit (ans : string) (rest : list string) (s : Session) :
  stdin s = ans :: rest → quit_keyword ans = true →
  ∃ s', prompt_process_type s = (Done true, s')
        ∧ is_running s' = false ∧ stdin s' = rest.
Proof.
  intros Hin Hq. unfold prompt_process_type.
  bind_step.
  replace (for_each Report.process_types (λ '(k, v), print (k +:+ " ... " +:+ v)))
    with (for_each ((λ '(k, v), k +:+ " ... " +:+ v) <$> Report.process_types) print)
    by done.
  rewrite for_each_print.
  bind_step. unfold gets at 1.
  bind_step. rewrite (input_run _ ans rest) by done.
  bind_step. rewrite (check_val_quit _ _ Hq).
  simpl. eexists. split; [done|]. done.
Qed.

(** The file prompts go on to [int(ans)] after the quit; the keyword is
    no number, so a warning is all that follows. *)
Lemma prompt_project_file_quit (fuel : nat) (ans : string) (rest : list string)
    (s : Session) :
  stdin s = ans :: rest → quit_keyword ans = true →
  ∃ s', prompt_project_file os fuel s = (Done true, s')
        ∧ is_running s' = false ∧ stdin s' = rest.
Proof.
  intros Hin Hq. unfold prompt_project_file.
  bind_step. unfold gets at 1.
  destruct (load_json_set_run (work_dir s) s) as (s1 & Hl & Hin1 & _).
  bind_step. rewrite Hl.
  bind_step. unfold gets at 1.
  bind_step. rewrite (input_run _ ans rest) by congruence.
  bind_step. rewrite (check_val_quit _ _ Hq).
  bind_step. unfold gets at 1.
  rewrite (quit_keyword_not_int _ Hq).
  simpl. eexists. split; [done|]. done.
Qed.

Lemma prompt_calculation_file_quit (ans : string) (rest : list string) (s : Session) :
  stdin s = ans :: rest → quit_keyword ans = true →
  ∃ s', prompt_calculation_file os s = (Done true, s')
        ∧ is_running s' = false ∧ stdin s' = rest.
Proof.
  intros Hin Hq. unfold prompt_calculation_file.
  bind_step. unfold gets at 1.
  destruct (load_excel_set_run (calc_dir s) s) as (s1 & Hl & Hin1 & _).
  bind_step. rewrite Hl.
  bind_step. unfold gets at 1.
  bind_step. rewrite (input_run _ ans rest) by congruence.
  bind_step. rewrite (check_val_quit _ _ Hq).
  bind_step. unfold gets at 1.
  rewrite (quit_keyword_not_int _ Hq).
  simpl. eexists. split; [done|]. done.
Qed.

Lemma prompt_product_system_quit (ans : string) (rest : list string) (s : Session)
    (num_ps : nat) (lines : list string) :
  get_number_product_systems (netl s) = Ok num_ps → num_ps ≠ 1 →
  print_project "Product system" (netl s) = Ok lines →
  stdin s = ans :: rest → quit_keyword ans = true →
  ∃ s', prompt_product_system s = (Done true, s')
        ∧ is_running s' = false ∧ stdin s' = rest.
Proof.
  intros Hn Hne Hlines Hin Hq. unfold prompt_product_system.
  bind_step. rewrite (ask_run _ _ _ Hn).
  rewrite bool_decide_eq_false_2 by done.
  bind_step. bind_step. rewrite (ask_run _ _ _ Hlines).
  bind_step. rewrite for_each_print.
  bind_step. rewrite (input_run _ ans rest) by done.
  bind_step. rewrite (check_val_quit _ _ Hq).
  simpl. eexists. split; [done|]. done.
Qed.

(** The rows of the reviewer list. *)
Lemma reviewer_rows_run (addr_list names : list string) (i : nat) (s : Session) :
  i + length names ≤ length addr_list →
  ∃ rows,
    (fix rows (i : nat) (names : list string) : M (list string) :=
       match names with
       | [] => mret []
       | nm :: names' =>
           addr ← index addr_list i;
           rest ← rows (S i) names';
           mret ((nm +:+ ", " +:+ addr) :: rest)
       end) i names s = (Done rows, s).
Proof.
  revert i. induction names as [|nm names IH]; intros i Hlen; [by eexists|].
  simpl in Hlen. destruct (lookup_lt_is_Some_2 addr_list i) as [addr Haddr]; [lia|].
  destruct (IH (S i)) as [rows Hrows]; [lia|].
  eexists. bind_step. unfold index at 1. rewrite Haddr.
  unfold mret at 1, M_ret at 1. bind_step. rewrite Hrows. done.
Qed.

Lemma prompt_reviewer_quit (fuel : nat) (ans : string) (rest : list string)
    (s : Session) (r_name : string) (names addrs uuids : list string) :
  get_reviewer (product_sys_uid s) (netl s) = Ok r_name →
  get_actors (netl s) = Ok (names, addrs, uuids) →
  names ≠ [] → length names ≤ length addrs →
  stdin s = ans :: rest → quit_keyword ans = true →
  ∃ s', prompt_reviewer fuel s = (Done true, s')
        ∧ is_running s' = false ∧ stdin s' = rest.
Proof.
  intros Hr Ha Hne Hlen Hin Hq. unfold prompt_reviewer.
  bind_step. unfold gets at 1.
  bind_step. rewrite (ask_run _ _ _ Hr).
  bind_step. rewrite (ask_run _ _ _ Ha).
  destruct (reviewer_rows_run addrs names 0 s) as [rows Hrows]; [simpl; lia|].
  bind_step. rewrite Hrows.
  bind_step. rewrite bool_decide_eq_false_2 by by destruct names.
  unfold mret at 1, M_ret at 1.
  bind_step. rewrite (input_run _ ans rest) by done.
  bind_step. rewrite (check_val_quit _ _ Hq).
  cbn [negb]. eexists. split; [done|]. done.
Qed.

(** C3, amended.  At the value prompts (working directory, project
    file, server port, process type, calculation workbook, and, once the
    connector has answered the queries that precede them, product system
    and reviewer) a line that is [q] or [quit] in any letter case stops the
    session: the prompt returns done and [is_running] is False.  At the
    yes/no confirmation prompt the same line counts as a no: the prompt
    returns False and [is_running] is left as it was. *)
Theorem quit_at_value_prompts :
  ∀ (fuel : nat) (s : Session) (ans : string) (rest : list string),
    stdin s = ans :: rest →
    quit_keyword ans = true →
    let stops (r : outcome bool * Session) :=
      r.1 = Done true ∧ is_running r.2 = false ∧ stdin r.2 = rest in
    stops (prompt_working_dir os s)
    ∧ stops (prompt_project_file os fuel s)
    ∧ stops (prompt_server_port s)
    ∧ stops (prompt_process_type s)
    ∧ stops (prompt_calculation_file os s)
    ∧ (∀ num_ps lines,
         get_number_product_systems (netl s) = Ok num_ps → num_ps ≠ 1 →
         print_project "Product system" (netl s) = Ok lines →
         stops (prompt_product_system s))
    ∧ (∀ r_name names addrs uuids,
         get_reviewer (product_sys_uid s) (netl s) = Ok r_name →
         get_actors (netl s) = Ok (names, addrs, uuids) →
         names ≠ [] → length names ≤ length addrs →
         stops (prompt_reviewer fuel s))
    ∧ (∀ val, ∃ s',
         check_ans val s = (Done false, s') ∧ is_running s' = is_running s).
Proof.
  intros fuel s ans rest Hin Hq stops. subst stops. cbv beta.
  repeat split.
  all: try (edestruct prompt_working_dir_quit as (s' & -> & ? & ?); by eauto).
  all: try (edestruct prompt_project_file_quit as (s' & -> & ? & ?); by eauto).
  all: try (edestruct prompt_server_port_quit as (s' & -> & ? & ?); by eauto).
  all: try (edestruct prompt_process_type_quit as (s' & -> & ? & ?); by eauto).
  all: try (edestruct prompt_calculation_file_quit as (s' & -> & ? & ?); by eauto).
  all: try (edestruct prompt_product_system_quit as (s' & -> & ? & ?); by eauto).
  all: try (edestruct prompt_reviewer_quit as (s' & -> & ? & ?); by eauto).
  intros val. destruct (check_ans_run val ans rest s Hin) as (s' & Hs' & Hrun & _).
  exists s'. split; [|done]. rewrite Hs'. f_equal.
  (* a quit keyword is not a yes *)
  unfold quit_keyword in Hq. apply orb_prop in Hq as [Hq|Hq];
    apply String.eqb_eq in Hq; rewrite Hq; done.
Qed.

(** ** C2: the switch of the menu after a connection *)

Lemma make_param_visible_run (p : string) (v : bool) (s : Session) :
  is_Some (params s !! p) →
  make_param_visible p v s
  = (Done (), with_params (alter (set_show v) p (params s)) s).
Proof.
  intros [o Ho]. unfold make_param_visible. bind_step. unfold gets at 1.
  rewrite Ho. unfold modify. do 2 f_equal.
  apply map_eq. intros k. destruct (decide (p = k)) as [->|Hne].
  - by rewrite lookup_insert_eq, lookup_alter_eq, Ho.
  - by rewrite lookup_insert_ne, lookup_alter_ne.
Qed.

Lemma alter_is_Some (f : MenuOption → MenuOption) (k k' : string)
    (ps : gmap string MenuOption) :
  is_Some (ps !! k') → is_Some (alter f k ps !! k').
Proof.
  intros [o Ho]. destruct (decide (k = k')) as [->|Hne].
  - rewrite lookup_alter_eq, Ho. by eexists.
  - rewrite lookup_alter_ne by done. by eexists.
Qed.

(** The eight calls of [make_param_visible] after a connection are one
    step on the option table: none of them can raise on a table that
    holds the eight codes, and nothing is read or written between them. *)
Lemma connection_toggles_run {A : Type} (k : M A) (s : Session) :
  (∀ k, k ∈ connection_toggles.*1 → is_Some (params s !! k)) →
  (make_param_visible "1" false;;
   make_param_visible "2" false;;
   make_param_visible "3" true;;
   make_param_visible "4" true;;
   make_param_visible "5" true;;
   make_param_visible "6" true;;
   make_param_visible "7" true;;
   make_param_visible "o" true;;
   k) s
  = k (with_params (toggled (params s)) s).
Proof.
  intros Hdom.
  assert (H1 := Hdom "1" ltac:(set_solver)). assert (H2 := Hdom "2" ltac:(set_solver)).
  assert (H3 := Hdom "3" ltac:(set_solver)). assert (H4 := Hdom "4" ltac:(set_solver)).
  assert (H5 := Hdom "5" ltac:(set_solver)). assert (H6 := Hdom "6" ltac:(set_solver)).
  assert (H7 := Hdom "7" ltac:(set_solver)). assert (Ho := Hdom "o" ltac:(set_solver)).
  do 8 (bind_step; rewrite make_param_visible_run
          by (simpl; repeat apply alter_is_Some; done)).
  done.
Qed.

Lemma show_options_run (s : Session) :
  ∃ out, show_options s = (Done (), with_stdout (stdout s ++ out) s).
Proof.
  unfold show_options. bind_step. rewrite request_run.
  bind_step.
  rewrite (for_sorted_params_run (λ pt ts, String.eqb pt "option" && ts)
             print_menu_option option_line) by apply print_menu_option_emits.
  rewrite print_menu_option_run. eexists. f_equal. unfold with_stdout. simpl.
  by rewrite <- !app_assoc.
Qed.

(** An operator who leaves the file prompt with a blank line: no file is
    opened, and the menu is switched all the same. *)
Lemma assign_project_file_blank (fuel : nat) (ans : string) (rest : list string)
    (s : Session) :
  stdin s = ans :: rest →
  quit_keyword ans = false → blank ans = true →
  (∀ k, k ∈ connection_toggles.*1 → is_Some (params s !! k)) →
  ∃ s', assign_project_file os (S fuel) None s = (Done None, s')
        ∧ netl s' = netl s
        ∧ work_file s' = work_file s
        ∧ params s' = toggled (params s).
Proof.
  intros Hin Hq Hb Hdom. unfold assign_project_file.
  bind_step. rewrite request_run.
  bind_step. cbn [until_done]. bind_step.
  (* one round of the prompt *)
  unfold prompt_project_file at 1.
  bind_step. unfold gets at 1.
  destruct (load_json_set_run (work_dir (with_stdout
     (stdout s ++ banner "Select project file") s))
     (with_stdout (stdout s ++ banner "Select project file") s))
    as (s1 & Hl & Hin1 & Hrun1 & Hps1 & Hnetl1 & Hwf1).
  bind_step. rewrite Hl.
  bind_step. unfold gets at 1.
  bind_step. rewrite (input_run _ ans rest) by (rewrite Hin1; done).
  bind_step. rewrite (check_val_blank _ _ Hq Hb).
  bind_step. unfold gets at 1.
  rewrite (blank_not_int _ Hb).
  bind_step. unfold warn at 1. rewrite print_run.
  unfold mret at 1, M_ret at 1. unfold mret at 1, M_ret at 1.
  (* the switches *)
  rewrite connection_toggles_run by (simpl; by rewrite Hps1).
  bind_step. edestruct show_options_run as [out ->].
  eexists. split; [done|]. simpl. by rewrite Hnetl1, Hwf1, Hps1.
Qed.

(** *** Methods that leave the option table alone *)

Lemma keeps_ret {A : Type} (a : A) : keeps_params (mret a).
Proof. by intros s. Qed.

Lemma keeps_bind {A B : Type} (m : M A) (k : A → M B) :
  keeps_params m → (∀ a, keeps_params (k a)) → keeps_params (m ≫= k).
Proof.
  intros Hm Hk s. unfold mbind, M_bind. specialize (Hm s).
  destruct (m s) as [[a| e|] s1]; simpl in *; [|done..].
  by rewrite Hk.
Qed.

Lemma keeps_fmap {A B : Type} (f : A → B) (m : M A) :
  keeps_params m → keeps_params (f <$> m).
Proof. intros Hm. apply keeps_bind; [done|]. intros a. apply keeps_ret. Qed.

Lemma keeps_raise {A : Type} (e : exn) : keeps_params (raise e : M A).
Proof. by intros s. Qed.

Lemma keeps_out_of_fuel {A : Type} : keeps_params (out_of_fuel : M A).
Proof. by intros s. Qed.

Lemma keeps_gets {A : Type} (f : Session → A) : keeps_params (gets f).
Proof. by intros s. Qed.

Lemma keeps_modify (f : Session → Session) :
  (∀ s, params (f s) = params s) → keeps_params (modify f).
Proof. intros Hf s. apply Hf. Qed.

Lemma keeps_ask {A : Type} (f : connector → result A) : keeps_params (ask f).
Proof. intros s. unfold ask. by destruct (f (netl s)). Qed.

Lemma keeps_tell {A : Type} (f : connector → result A * connector) :
  keeps_params (tell f).
Proof. intros s. unfold tell. by destruct (f (netl s)) as [[a|e] n]. Qed.

Lemma keeps_print (line : string) : keeps_params (print line).
Proof. by intros s. Qed.

Lemma keeps_input (prompt : string) : keeps_params (input prompt).
Proof. intros s. unfold input. simpl. by destruct (stdin s). Qed.

Lemma keeps_index {A : Type} (l : list A) (i : nat) : keeps_params (index l i).
Proof. intros s. unfold index. by destruct (l !! i). Qed.

Lemma keeps_for_each {A : Type} (l : list A) (body : A → M unit) :
  (∀ x, keeps_params (body x)) → keeps_params (for_each l body).
Proof.
  intros Hbody. induction l as [|x l IH]; [apply keeps_ret|].
  simpl. apply keeps_bind; [apply Hbody|done].
Qed.

Lemma keeps_until_done (fuel : nat) (body : M bool) :
  keeps_params body → keeps_params (until_done fuel body).
Proof.
  intros Hbody. induction fuel as [|fuel IH]; [apply keeps_out_of_fuel|].
  simpl. apply keeps_bind; [done|]. intros [|]; [apply keeps_ret|done].
Qed.

Lemma keeps_try {A B : Type} (body : M A) (handled : exn → bool) (handler : M B)
    (orelse : A → M B) :
  keeps_params body → keeps_params handler → (∀ a, keeps_params (orelse a)) →
  keeps_params (try_except_else body handled handler orelse).
Proof.
  intros Hb Hh Ho s. unfold try_except_else. specialize (Hb s).
  destruct (body s) as [[a|e|] s1]; simpl in *; [by rewrite Ho| |done].
  destruct (handled e); [by rewrite Hh|done].
Qed.

Lemma keeps_if {A : Type} (b : bool) (m1 m2 : M A) :
  keeps_params m1 → keeps_params m2 → keeps_params (if b then m1 else m2).
Proof. by destruct b. Qed.

Create HintDb keeps.
#[local] Hint Resolve keeps_ret keeps_bind keeps_fmap keeps_raise keeps_out_of_fuel
  keeps_gets keeps_ask keeps_tell keeps_print keeps_input keeps_index
  keeps_for_each keeps_until_done keeps_try keeps_if : keeps.
#[local] Hint Extern 1 (keeps_params (modify _)) =>
  (apply keeps_modify; intros; reflexivity) : keeps.
#[local] Hint Extern 2 (keeps_params (match ?x with _ => _ end)) =>
  destruct x : keeps.
#[local] Hint Extern 2 (∀ _, keeps_params _) => intros : keeps.

Ltac keeps := eauto 40 with keeps.

Lemma keeps_warn (msg : string) : keeps_params (warn msg).
Proof. unfold warn. keeps. Qed.

Lemma keeps_success : keeps_params success.
Proof. unfold success. keeps. Qed.

Lemma keeps_request (msg : string) : keeps_params (request msg).
Proof. unfold request. keeps. Qed.

Lemma keeps_quit : keeps_params quit.
Proof. unfold quit. keeps. Qed.

#[local] Hint Resolve keeps_warn keeps_success keeps_request keeps_quit : keeps.

Lemma keeps_check_ans (val : string) : keeps_params (check_ans val).
Proof. unfold check_ans. keeps. Qed.

Lemma keeps_check_val (val : string) : keeps_params (check_val val).
Proof. unfold check_val. keeps. Qed.

#[local] Hint Resolve keeps_check_ans keeps_check_val : keeps.

Lemma keeps_set_product_system (val : string) : keeps_params (set_product_system val).
Proof. unfold set_product_system. keeps. Qed.

#[local] Hint Resolve keeps_set_product_system : keeps.

Lemma keeps_prompt_product_system : keeps_params prompt_product_system.
Proof. unfold prompt_product_system. keeps. Qed.

#[local] Hint Resolve keeps_prompt_product_system : keeps.

Lemma keeps_assign_product_system (fuel : nat) (val : option string) :
  keeps_params (assign_product_system fuel val).
Proof. unfold assign_product_system. keeps. Qed.

#[local] Hint Resolve keeps_assign_product_system : keeps.

Lemma keeps_load_json_set (d : string) : keeps_params (load_json_set os d).
Proof. unfold load_json_set. keeps. Qed.

#[local] Hint Resolve keeps_load_json_set : keeps.

Lemma keeps_set_project_file (val : string) : keeps_params (set_project_file os val).
Proof. unfold set_project_file, open_file. keeps. Qed.

#[local] Hint Resolve keeps_set_project_file : keeps.

Lemma keeps_prompt_project_file (fuel : nat) :
  keeps_params (prompt_project_file os fuel).
Proof. unfold prompt_project_file. keeps. Qed.

Lemma keeps_show_options : keeps_params show_options.
Proof. intros s. by destruct (show_options_run s) as [out ->]. Qed.

(** The server path switches the menu only behind a successful read. *)
Lemma open_server_failed (fuel : nat) (s : Session) :
  (∃ e n, netl_connect (netl s) = (Raise e, n))
  ∨ (∃ n1 e n2, netl_connect (netl s) = (Ok (), n1) ∧ netl_read n1 = (Raise e, n2)) →
  params (open_server fuel s).2 = params s.
Proof.
  intros [(e & n & Hc) | (n1 & e & n2 & Hc & Hr)]; unfold open_server;
    bind_step; unfold tell at 1; rewrite Hc; [done|].
  unfold try_except_else, tell at 1. simpl. by rewrite Hr.
Qed.

(** Both connection paths leave the option table as it was or switch all
    eight flags: no run ends between two of the switches. *)
Lemma open_server_cases (fuel : nat) (s : Session) (P : Session → Prop) :
  (∀ k, k ∈ connection_toggles.*1 → is_Some (params s !! k)) →
  (∀ s', params s' = params s → P s') →
  (∀ s', params s' = toggled (params s) → P s') →
  P (open_server fuel s).2.
Proof.
  intros Hdom Hsame Htoggled. unfold open_server. bind_step.
  pose proof (keeps_tell netl_connect s) as Hc.
  destruct (tell netl_connect s) as [[[]|e|] s1]; simpl in Hc; [|by apply Hsame..].
  unfold try_except_else.
  pose proof (keeps_tell netl_read s1) as Hr.
  destruct (tell netl_read s1) as [[[]|e|] s2]; simpl in Hr.
  - bind_step.
    pose proof (keeps_assign_product_system fuel None s2) as Ha.
    destruct (assign_product_system fuel None s2) as [[a|e|] s3]; simpl in Ha;
      [|apply Hsame; simpl; congruence..].
    rewrite connection_toggles_run by (intros; rewrite Ha, Hr, Hc; auto).
    apply Htoggled. rewrite keeps_show_options. simpl. congruence.
  - apply Hsame. simpl. congruence.
  - apply Hsame. simpl. congruence.
Qed.

Lemma assign_project_file_cases (fuel : nat) (s : Session) (P : Session → Prop) :
  (∀ k, k ∈ connection_toggles.*1 → is_Some (params s !! k)) →
  (∀ s', params s' = params s → P s') →
  (∀ s', params s' = toggled (params s) → P s') →
  P (assign_project_file os fuel None s).2.
Proof.
  intros Hdom Hsame Htoggled.
  unfold assign_project_file. bind_step. rewrite request_run. bind_step.
  pose proof (keeps_until_done fuel _ (keeps_prompt_project_file fuel)
                (with_stdout (stdout s ++ banner "Select project file") s)) as Hu.
  destruct (until_done fuel (prompt_project_file os fuel) _) as [[[]|e|] s1];
    simpl in Hu; [|by apply Hsame..].
  rewrite connection_toggles_run by (intros; rewrite Hu; auto).
  bind_step. pose proof (keeps_show_options (with_params (toggled (params s1)) s1)) as Hs.
  destruct (show_options _) as [[[]|e|] s2]; simpl in *; apply Htoggled; congruence.
Qed.

Lemma visibility_all_or_nothing (fuel : nat) (s : Session) :
  (∀ k, k ∈ connection_toggles.*1 → is_Some (params s !! k)) →
  (params (open_server fuel s).2 = params s
   ∨ params (open_server fuel s).2 = toggled (params s))
  ∧ (params (assign_project_file os fuel None s).2 = params s
     ∨ params (assign_project_file os fuel None s).2 = toggled (params s)).
Proof.
  intros Hdom. split.
  - apply (open_server_cases fuel s (λ s', params s' = params s
                                            ∨ params s' = toggled (params s))); auto.
  - apply (assign_project_file_cases fuel s (λ s', params s' = params s
                                            ∨ params s' = toggled (params s))); auto.
Qed.

End InterpreterFacts.

(** * Concrete runs *)

Lemma set_process_type_atomic_witness :
  Py.upper "wt" ∈ process_type_codes
  ∧ Interface.process_code (Interface.set_process_type "wt" (Demo.running [])).2 = "WT"
  ∧ Py.isascii "xx" = true
  ∧ (Py.upper "xx" ∉ process_type_codes)
  ∧ Interface.set_process_type "xx" (Demo.running [])
    = (Interface.Done false, Demo.running []).
Proof.
  assert (Hin : Py.upper "wt" ∈ process_type_codes).
  { vm_compute. repeat constructor. }
  assert (Hout : Py.upper "xx" ∉ process_type_codes).
  { vm_compute. intros Hx. repeat (apply elem_of_cons in Hx as [Hx|Hx]; [discriminate|]).
    by apply elem_of_nil in Hx. }
  destruct (set_process_type_atomic (Demo.running []) "wt") as (_ & Hyes & _).
  destruct (set_process_type_atomic (Demo.running []) "xx") as (_ & _ & Hno & _).
  split; [exact Hin|].
  split; [|split; [reflexivity|split; [exact Hout|exact (Hno eq_refl Hout)]]].
  rewrite (proj2 (Hyes Hin)). vm_compute. reflexivity.
Defined.

Lemma category_menus_witness :
  pandoc_installed Demo.os = true
  ∧ Interface.stdout
      (Interface.handle_report_publication Demo.os (Demo.running [])).2
    = banner "PUBLISHING MENU: Select an option"
      ++ ["5a ..... publish report as .pdf";
          "5b ..... publish report as .docx";
          "5c ..... publish report as .html";
          " m ..... main menu";
          " q ..... quit"]
  ∧ pandoc_installed (Demo.os_with false) = false
  ∧ drop 2 (Interface.stdout
              (Interface.handle_report_publication (Demo.os_with false)
                 (Demo.running [" Y "])).2)
    = banner "PUBLISHING MENU: Select an option"
      ++ [" m ..... main menu"; " q ..... quit"].
Proof.
  split; [reflexivity|].
  destruct (category_menus Demo.os (Demo.running []))
    as (_ & _ & _ & _ & _ & _ & _ & Hpublish & _).
  split; [rewrite (Hpublish eq_refl); vm_compute; reflexivity|].
  split; [reflexivity|].
  destruct (category_menus (Demo.os_with false) (Demo.running [" Y "]))
    as (_ & _ & _ & _ & _ & _ & _ & _ & Hwithout & _).
  rewrite (Hwithout eq_refl " Y " [] eq_refl eq_refl). vm_compute. reflexivity.
Defined.

(** C6 as stated fails.  Without pandoc the publishing menu leaves out
    the options of its category although they are visible; and the review
    menu has no line for [m].  Neither output ends with the lines that the
    statement describes. *)
Lemma menus_not_uniform :
  let s := Demo.running ["y"] in
  let ps := Interface.params s in
  let claimed category :=
    omap (option_line ps) (menu_codes ps category ++ ["m"; "q"]) in
  menu_codes ps "publish" = ["5a"; "5b"; "5c"]
  ∧ (¬ ∃ before,
       Interface.stdout
         (Interface.handle_report_publication (Demo.os_with false) s).2
       = before ++ claimed "publish")
  ∧ (¬ ∃ before,
       Interface.stdout (Interface.query s).2 = before ++ claimed "query").
Proof.
  intros s ps claimed. split; [by vm_compute|]. split.
  - intros [before Hout].
    apply (f_equal (λ l, take 3 (reverse l))) in Hout.
    rewrite reverse_app, take_app_le in Hout by (vm_compute; lia).
    by vm_compute in Hout.
  - intros [before Hout].
    apply (f_equal (λ l, take 2 (reverse l))) in Hout.
    rewrite reverse_app, take_app_le in Hout by (vm_compute; lia).
    by vm_compute in Hout.
Qed.

Lemma quit_at_value_prompts_witness :
  let s := Demo.running ["Quit"] in
  Interface.stdin s = ["Quit"]
  ∧ Interface.quit_keyword "Quit" = true
  ∧ Interface.is_running s = true
  ∧ Interface.is_running (Interface.prompt_working_dir Demo.os s).2 = false
  ∧ Interface.is_running (Interface.prompt_product_system s).2 = false
  ∧ Interface.is_running (Interface.prompt_reviewer 1 s).2 = false.
Proof.
  intros s.
  destruct (quit_at_value_prompts Demo.os 1 s "Quit" [] eq_refl eq_refl)
    as (Hdir & _ & _ & _ & _ & Hsystem & Hreviewer & _).
  split; [reflexivity|]. split; [reflexivity|]. split; [reflexivity|].
  split; [exact (proj1 (proj2 Hdir))|]. split.
  - refine (proj1 (proj2 (Hsystem 2 _ eq_refl _ eq_refl))). discriminate.
  - refine (proj1 (proj2 (Hreviewer "N/A" ["NETL"] ["Pittsburgh, PA"] ["actor-1"]
                            eq_refl eq_refl _ _))); [discriminate|].
    simpl. apply le_n.
Defined.

(** C3 as stated fails: [q] at the confirmation prompt is a no, and the
    session goes on. *)
Lemma check_ans_ignores_quit :
  let s := Demo.running ["q"] in
  Interface.quit_keyword "q" = true
  ∧ Interface.is_running s = true
  ∧ (Interface.check_ans "8080" s).1 = Interface.Done false
  ∧ Interface.is_running (Interface.check_ans "8080" s).2 = true.
Proof. by vm_compute. Qed.

(** C2, at the failing input.  The operator opens the file prompt and
    leaves it with an empty line: no file is opened and the connector is as
    it was, yet the menu is switched as after a connection (the review
    option [3] becomes visible, the connect option [1] hidden). *)
Theorem assign_project_file_abandoned :
  let s := Demo.running [EmptyString] in
  let r := Interface.assign_project_file Demo.os 1 None s in
  r.1 = Interface.Done None
  ∧ Interface.netl r.2 = Demo.project0
  ∧ Demo.opened (Interface.netl r.2) = None
  ∧ Interface.work_file r.2 = EmptyString
  ∧ Interface.show <$> Interface.params s !! "3" = Some false
  ∧ Interface.show <$> Interface.params r.2 !! "3" = Some true
  ∧ Interface.show <$> Interface.params r.2 !! "1" = Some false
  ∧ Interface.params r.2 = toggled (Interface.params s).
Proof.
  intros s r.
  do 7 (split; [vm_compute; reflexivity|]).
  vm_compute; reflexivity.
Qed.

(** * Further facts about the report assembler *)

Section FormatterFacts.
Import Report.

(** ** The path of a report *)






(** ** Citations *)

Lemma has_crlf_cons c s :
  has_crlf (String c s) = (Ascii.eqb c CR && head_is LF s) || has_crlf s.
Proof. destruct s; simpl; [by rewrite andb_false_r|done]. Qed.

Lemma re_sub_crlf_pair repl s :
  re_sub_crlf repl (String CR (String LF s)) = repl +:+ re_sub_crlf repl s.
Proof. done. Qed.

Lemma re_sub_crlf_other repl c s :
  Ascii.eqb c CR && head_is LF s = false →
  re_sub_crlf repl (String c s) = String c (re_sub_crlf repl s).
Proof.
  intros Hc. destruct s as [|c' s]; [done|]. simpl in *. by rewrite Hc.
Qed.

(** Replacing each pair by a space leaves none, and a line feed opens the
    result only where one opens the text. *)
Lemma re_sub_crlf_space_clean n s :
  String.length s ≤ n →
  has_crlf (re_sub_crlf " " s) = false
  ∧ head_is LF (re_sub_crlf " " s) = head_is LF s.
Proof.
  revert s. induction n as [|n IH]; intros s Hlen.
  { destruct s; [done|simpl in Hlen; lia]. }
  destruct s as [|c s]; [done|]. simpl in Hlen.
  destruct (Ascii.eqb c CR && head_is LF s) eqn:Hpair.
  - destruct s as [|c' s]; [by rewrite andb_false_r in Hpair|].
    simpl in Hpair. apply andb_true_iff in Hpair as [Hc Hc'].
    apply Ascii.eqb_eq in Hc, Hc'. subst c c'. rewrite re_sub_crlf_pair.
    simpl in Hlen. destruct (IH s) as [IH1 IH2]; [lia|].
    change (" " +:+ re_sub_crlf " " s) with (String " " (re_sub_crlf " " s)).
    rewrite has_crlf_cons, IH1. done.
  - rewrite re_sub_crlf_other by done. destruct (IH s) as [IH1 IH2]; [lia|].
    rewrite has_crlf_cons, IH1, IH2, Hpair. done.
Qed.

(** X2.  A citation holds no pair CR LF, whatever the fields of the
    source hold: the pairs of the name, the title and the description
    become spaces, and a pair that the removal of the pairs of the URL
    leaves behind becomes a space as well. *)
Theorem format_source_no_crlf (s_obj : Source) :
  has_crlf (format_source s_obj) = false.
Proof. unfold format_source. by eapply re_sub_crlf_space_clean. Qed.

(** ** Process documentation *)

Lemma split_length sep s : length (split sep s) = S (count_char sep s).
Proof.
  induction s as [|c s IH]; [done|]. simpl.
  destruct (Ascii.eqb c sep); simpl; [by rewrite IH|].
  destruct (split sep s); simpl in *; lia.
Qed.

Lemma split_nonempty sep s : split sep s ≠ [].
Proof. intros Hs. assert (Hlen := split_length sep s). by rewrite Hs in Hlen. Qed.

Lemma split_first sep s w ws :
  split sep s = w :: ws → count_char sep w = 0 ∧
  match ws with
  | [] => s = w
  | _ => ∃ rest, s = w +:+ String sep rest ∧ split sep rest = ws
  end.
Proof.
  revert w ws. induction s as [|c s IH]; intros w ws; simpl.
  - by intros [= <- <-].
  - destruct (Ascii.eqb c sep) eqn:Hc.
    + intros [= <- <-]. apply Ascii.eqb_eq in Hc as ->. split; [done|].
      destruct (split sep s) eqn:Hs; [by apply split_nonempty in Hs|]. by exists s.
    + destruct (split sep s) as [|w' ws'] eqn:Hs; [by apply split_nonempty in Hs|].
      intros [= <- <-]. destruct (IH w' ws' eq_refl) as [Hw Hrest].
      split; [simpl; by rewrite Hc|].
      destruct ws' as [|x ws']; [by rewrite Hrest|].
      destruct Hrest as (rest & -> & Hrest). by exists rest.
Qed.

(** X3.  A process documentation whose creation date does not hold
    exactly one [T] gives no table: [format_process_doc] returns the
    sentence of its [except] clause with the text of the unpacking error.
    This is the case when the key [creationDate] is missing, its default
    [N/A] holding no [T]. *)
Theorem format_process_doc_error (unpack_error : nat → string)
    (self : NetlOlcaReport) (p : gmap string string) :
  p ≠ ∅ →
  count_char "T" (dict_get p "creationDate" "N/A") ≠ 1 →
  format_process_doc unpack_error self p
  = "Error in processing process documentation: "
    +:+ unpack_error (S (count_char "T" (dict_get p "creationDate" "N/A"))).
Proof.
  intros Hp Hcount. unfold format_process_doc.
  rewrite bool_decide_eq_false_2 by done.
  assert (Hlen := split_length "T" (dict_get p "creationDate" "N/A")).
  destruct (split _ _) as [|a [|b [|c l]]] eqn:Hs; simpl in Hlen;
    try (by rewrite <- Hlen); lia.
Qed.

Lemma format_process_doc_error_witness :
  format_process_doc (λ n, pretty n) init {["validFrom" := "2020-01-01"]}
  = "Error in processing process documentation: 1".
Proof.
  rewrite (format_process_doc_error (λ n, pretty n) init {["validFrom" := "2020-01-01"]}).
  - vm_compute. reflexivity.
  - apply insert_non_empty.
  - vm_compute. lia.
Defined.

(** X4.  With exactly one [T] in the creation date, [format_process_doc]
    returns the table of eight rows: the creation date is cut at the [T],
    the line feeds of the technology description are spaces, the system
    boundary reads Cradle-to-Gate, and each missing key shows its
    default. *)
Theorem format_process_doc_table (unpack_error : nat → string)
    (self : NetlOlcaReport) (p : gmap string string) :
  p ≠ ∅ →
  count_char "T" (dict_get p "creationDate" "N/A") = 1 →
  ∃ date_part time_part,
    dict_get p "creationDate" "N/A" = date_part +:+ String "T" time_part
    ∧ count_char "T" date_part = 0
    ∧ format_process_doc unpack_error self p
      = Py.join nl
          [ "| Feature | Information |";
            "|-----------|----------|";
            "| Location | " +:+ or_default (location self) "N/A" +:+ " |";
            "| Valid From | " +:+ dict_get p "validFrom" "N/A" +:+ " |";
            "| Valid Until | " +:+ dict_get p "validUntil" "N/A" +:+ " |";
            "| Creation Date | " +:+ date_part +:+ " |";
            "| Process Type | " +:+ dict_get p "processType" (process_code self) +:+ " |";
            "| Process Scope | "
              +:+ Py.replace_char LF " " (dict_get p "technologyDescription" "N/A")
              +:+ " |";
            "| System Boundary | Cradle-to-Gate |";
            "| Completeness | " +:+ dict_get p "completeness_description" "N/A" +:+ " |";
            EmptyString ].
Proof.
  intros Hp Hcount. unfold format_process_doc.
  rewrite bool_decide_eq_false_2 by done.
  assert (Hlen := split_length "T" (dict_get p "creationDate" "N/A")).
  rewrite Hcount in Hlen.
  destruct (split _ _) as [|a [|b [|c l]]] eqn:Hs; simpl in Hlen; try lia.
  destruct (split_first _ _ _ _ Hs) as (Ha & rest & Hrest & _).
  exists a, rest. split; [done|]. split; [done|].
  cbn [Py.join]. rewrite !str_app_assoc. done.
Qed.

Lemma format_process_doc_table_witness :
  ∃ date_part time_part,
    "2024-05-28T10:15:00" = date_part +:+ String "T" time_part
    ∧ count_char "T" date_part = 0
    ∧ ∃ table,
        format_process_doc (λ n, pretty n) init
          {["creationDate" := "2024-05-28T10:15:00"]} = table.
Proof.
  destruct (format_process_doc_table (λ n, pretty n) init
              {["creationDate" := "2024-05-28T10:15:00"]})
    as (date_part & time_part & Hcut & Hdate & Htable).
  - apply insert_non_empty.
  - vm_compute. reflexivity.
  - exists date_part, time_part. split; [exact Hcut|]. split; [exact Hdate|].
    eexists. exact Htable.
Defined.

(** ** Flow tables *)

Lemma drop_lookup_cons {A : Type} (l : list A) (k : nat) :
  k < length l → ∃ x, l !! k = Some x ∧ drop k l = x :: drop (S k) l.
Proof.
  intros Hk. destruct (lookup_lt_is_Some_2 l k Hk) as [x Hx].
  exists x. split; [done|]. by apply drop_S.
Qed.

Lemma flow_rows_drop {V : Type} (sci : V → option string) (t : FlowTable V)
    (m k : nat) (acc : string) :
  length (flow_category t) = length (flow_name t) →
  length (flow_dq t) = length (flow_name t) →
  length (flow_amount t) = length (flow_name t) →
  length (flow_unit t) = length (flow_name t) →
  k + m = length (flow_name t) →
  flow_rows sci t (seq k m) acc
  = Ok ((λ qs, acc +:+ flow_lines (drop k (flow_category t)) (drop k (flow_name t))
                         qs (drop k (flow_unit t)) (drop k (flow_dq t)))
        <$> mapM sci (drop k (flow_amount t))).
Proof.
  intros Hc Hd Ha Hu. revert k acc. induction m as [|m IH]; intros k acc Hk.
  - simpl. rewrite (drop_ge (flow_amount t)) by lia. simpl.
    rewrite (drop_ge (flow_category t)) by lia. simpl. by rewrite str_app_nil_r.
  - cbn [seq flow_rows]. unfold flow_row.
    destruct (drop_lookup_cons (flow_category t) k) as (c & -> & ->); [lia|].
    destruct (drop_lookup_cons (flow_dq t) k) as (d & -> & ->); [lia|].
    destruct (drop_lookup_cons (flow_name t) k) as (n & -> & ->); [lia|].
    destruct (drop_lookup_cons (flow_amount t) k) as (a & -> & ->); [lia|].
    destruct (drop_lookup_cons (flow_unit t) k) as (u & -> & ->); [lia|].
    cbn [mapM]. destruct (sci a) as [q|]; [|done]. simpl.
    rewrite IH by lia. destruct (mapM sci _) as [qs|]; [|done]. simpl.
    by rewrite str_app_assoc.
Qed.

(** X5.  On a dictionary whose five lists have the same length,
    [format_flows] returns the header and one row for each flow, in the
    order of the lists, when every amount can be written in scientific
    notation; one amount that cannot (the operator raises [TypeError])
    turns the whole table into the sentence of the [except] clause. *)
Theorem format_flows_table {V : Type} (sci : V → option string) (t : FlowTable V) :
  length (flow_category t) = length (flow_name t) →
  length (flow_dq t) = length (flow_name t) →
  length (flow_amount t) = length (flow_name t) →
  length (flow_unit t) = length (flow_name t) →
  format_flows sci (FlowsDict t)
  = Ok (match mapM sci (flow_amount t) with
        | Some quantities =>
            flows_header
            +:+ flow_lines (flow_category t) (flow_name t) quantities
                  (flow_unit t) (flow_dq t)
        | None => "Error in processing flow data."
        end).
Proof.
  intros Hc Hd Ha Hu. unfold format_flows.
  rewrite (flow_rows_drop sci t (length (flow_name t)) 0) by done.
  rewrite !drop_0. by destruct (mapM sci _).
Qed.

Lemma format_flows_table_witness :
  format_flows Some (FlowsDict Cases.two_flows)
  = Ok (flows_header
        +:+ flow_line "air" "Carbon dioxide" "1.000E+00" "kg" "1"
        +:+ flow_line "water" "Water" "2.500E-01" "kg" "2")
  ∧ format_flows (λ v, if String.eqb v "2.500E-01" then None else Some v)
      (FlowsDict Cases.two_flows)
    = Ok "Error in processing flow data.".
Proof.
  split.
  - rewrite (format_flows_table Some Cases.two_flows eq_refl eq_refl eq_refl eq_refl).
    vm_compute. reflexivity.
  - rewrite (format_flows_table (λ v, if String.eqb v "2.500E-01" then None else Some v)
               Cases.two_flows eq_refl eq_refl eq_refl eq_refl).
    vm_compute. reflexivity.
Defined.

Lemma flow_rows_app {V : Type} (sci : V → option string) (t : FlowTable V)
    (l1 l2 : list nat) (acc : string) :
  (∀ i, i ∈ l1 → ∃ row, flow_row sci t i = Ok (Some row)) →
  ∃ acc', flow_rows sci t (l1 ++ l2) acc = flow_rows sci t l2 acc'.
Proof.
  revert acc. induction l1 as [|i l1 IH]; intros acc Hrows; [by exists acc|].
  simpl. destruct (Hrows i) as [row ->]; [by left|].
  apply IH. intros j Hj. apply Hrows. by right.
Qed.

(** X6.  A list of categories that is shorter than the list of names
    makes [format_flows] raise [IndexError], which its [except] clause
    does not catch: the rows before the missing category are written and
    lost. *)
Theorem format_flows_short_list {V : Type} (sci : V → option string) (t : FlowTable V) :
  length (flow_category t) < length (flow_name t) →
  (∀ i, i < length (flow_category t) → ∃ row, flow_row sci t i = Ok (Some row)) →
  format_flows sci (FlowsDict t) = Raise IndexError.
Proof.
  intros Hlen Hrows. unfold format_flows.
  replace (length (flow_name t))
    with (length (flow_category t) + S (length (flow_name t) - S (length (flow_category t))))
    by lia.
  rewrite seq_app.
  destruct (flow_rows_app sci t (seq 0 (length (flow_category t)))
              (seq (0 + length (flow_category t))
                   (S (length (flow_name t) - S (length (flow_category t)))))
              flows_header) as [acc' ->].
  { intros i Hi. apply Hrows. apply elem_of_seq in Hi. lia. }
  cbn [seq flow_rows]. unfold flow_row.
  by rewrite (lookup_ge_None_2 (flow_category t)) by lia.
Qed.

Lemma format_flows_short_list_witness :
  format_flows Some
    (FlowsDict {| flow_category := ["air"]; flow_dq := ["1"; "2"];
                  flow_name := ["Carbon dioxide"; "Water"];
                  flow_amount := ["1.000E+00"; "2.500E-01"];
                  flow_unit := ["kg"; "kg"] |})
  = Raise IndexError.
Proof.
  apply format_flows_short_list.
  - simpl. lia.
  - intros i Hi. simpl in Hi. assert (i = 0) as -> by lia.
    eexists. vm_compute. reflexivity.
Defined.

(** ** The parameter section *)

Lemma concat_str_app l1 l2 : concat_str (l1 ++ l2) = concat_str l1 +:+ concat_str l2.
Proof.
  induction l1 as [|x l1 IH]; [done|]. simpl. rewrite IH.
  symmetry. apply str_app_assoc.
Qed.

Lemma parameter_rows_map {V : Type} (sci : V → option string) (show : V → string)
    (latex_of : string → option string) (calculated : bool)
    (cells : ProcessParameter V → string * string)
    (params : list (ProcessParameter V)) (md_table md_formula : string) :
  (∀ p, p ∈ params → parameter_row sci show latex_of calculated p = Ok (cells p)) →
  parameter_rows sci show latex_of calculated params md_table md_formula
  = Ok (md_table +:+ concat_str ((λ p, (cells p).1) <$> params),
        if calculated
        then md_formula +:+ concat_str ((λ p, (cells p).2 +:+ nl +:+ nl) <$> params)
        else md_formula).
Proof.
  revert md_table md_formula. induction params as [|p params IH];
    intros md_table md_formula Hrows.
  - simpl. rewrite !str_app_nil_r. by destruct calculated.
  - cbn [parameter_rows]. rewrite (Hrows p) by by left.
    destruct (cells p) as [row form] eqn:Hp. rewrite IH by (intros; apply Hrows; by right).
    rewrite !fmap_cons. cbn [concat_str foldr]. rewrite Hp. simpl.
    destruct calculated; by rewrite !str_app_assoc.
Qed.

Lemma filter_group {V : Type} (input : bool) (scope : string)
    (l : list (ProcessParameter V)) :
  List.filter (λ x, (if input then is_input_parameter x else negb (is_input_parameter x))
                    && String.eqb (parameter_scope x) scope) l
  = List.filter (in_group input scope) l.
Proof.
  induction l as [|x l IH]; [done|]. simpl. rewrite IH. unfold in_group.
  by destruct input, (is_input_parameter x).
Qed.

Lemma filter_group_elem {V : Type} (input : bool) (scope : string)
    (l : list (ProcessParameter V)) p :
  p ∈ List.filter (in_group input scope) l → p ∈ l ∧ is_input_parameter p = input.
Proof.
  rewrite list_elem_of_In, filter_In, <- list_elem_of_In. intros [Hp Hg].
  split; [done|]. unfold in_group in Hg. apply andb_true_iff in Hg as [Hg _].
  by apply Bool.eqb_prop in Hg.
Qed.

(** X7.  When the row of every parameter can be written,
    [format_parameter_table] returns the formulas and then the table.
    The formulas are those of the calculated parameters, process scope
    before global scope, under a sentence that is written when there is
    one.  The table has its header when the list has a member, then the
    process rows under their divider, input before calculated, then the
    global rows likewise; a divider is written only for a group with
    members, and a parameter of another scope gives no row. *)
Theorem format_parameter_table_layout {V : Type} (sci : V → option string)
    (show : V → string) (latex_of : string → option string)
    (cells : ProcessParameter V → string * string)
    (param_list : list (ProcessParameter V)) :
  (∀ p, p ∈ param_list →
        parameter_row sci show latex_of (negb (is_input_parameter p)) p = Ok (cells p)) →
  let proc_input := List.filter (in_group true PROCESS_SCOPE) param_list in
  let proc_calc := List.filter (in_group false PROCESS_SCOPE) param_list in
  let glob_input := List.filter (in_group true GLOBAL_SCOPE) param_list in
  let glob_calc := List.filter (in_group false GLOBAL_SCOPE) param_list in
  let row p := (cells p).1 in
  let formula p := (cells p).2 +:+ nl +:+ nl in
  format_parameter_table sci show latex_of param_list
  = Ok ((when_some (proc_calc ++ glob_calc)
           ("The following are parameter formulas used or referenced "
            +:+ "in this process." +:+ nl +:+ nl)
         +:+ concat_str (formula <$> proc_calc ++ glob_calc))
        +:+ (when_some param_list
               ("The following table provides process and global parameter "
                +:+ "values and their associated uncertainty." +:+ nl +:+ nl
                +:+ ("| Scope | Name | Value | Uncertainty | Description |" +:+ nl)
                +:+ ("|:------|:-----|------:|:------------|:------------|" +:+ nl))
             +:+ when_some (proc_input ++ proc_calc) ("| Process |  |  |  |  |" +:+ nl)
             +:+ concat_str (row <$> proc_input ++ proc_calc)
             +:+ when_some (glob_input ++ glob_calc) ("| Global |  |  |  |  |" +:+ nl)
             +:+ concat_str (row <$> glob_input ++ glob_calc))).
Proof.
  intros Hrows proc_input proc_calc glob_input glob_calc row formula.
  unfold format_parameter_table.
  rewrite (filter_group true PROCESS_SCOPE), (filter_group false PROCESS_SCOPE),
    (filter_group true GLOBAL_SCOPE), (filter_group false GLOBAL_SCOPE).
  fold proc_input proc_calc glob_input glob_calc.
  assert (Hin : ∀ input scope p, p ∈ List.filter (in_group input scope) param_list →
            parameter_row sci show latex_of (negb input) p = Ok (cells p)).
  { intros input scope p [Hp <-]%filter_group_elem. by apply Hrows. }
  set (intro := "The following are parameter formulas used or referenced "
                +:+ "in this process." +:+ nl +:+ nl).
  set (header := "The following table provides process and global parameter "
                 +:+ "values and their associated uncertainty." +:+ nl +:+ nl
                 +:+ ("| Scope | Name | Value | Uncertainty | Description |" +:+ nl)
                 +:+ ("|:------|:-----|------:|:------------|:------------|" +:+ nl)).
  assert (Hformula : (if bool_decide (0 < length proc_calc ∨ 0 < length glob_calc)
                      then intro else EmptyString)
                     = when_some (proc_calc ++ glob_calc) intro).
  { clear. destruct proc_calc, glob_calc; case_bool_decide; simpl in *; try done; lia. }
  assert (Htable : (if bool_decide (0 < length param_list) then header else EmptyString)
                   = when_some param_list header).
  { clear. destruct param_list; [done|]. case_bool_decide; [done|simpl in *; lia]. }
  rewrite Hformula, Htable. clear Hformula Htable.
  assert (Hpart : ∀ input_params calc_params title md_table md_formula,
    (∀ p, p ∈ input_params → parameter_row sci show latex_of false p = Ok (cells p)) →
    (∀ p, p ∈ calc_params → parameter_row sci show latex_of true p = Ok (cells p)) →
    (if bool_decide (0 < length input_params + length calc_params) then
       match parameter_rows sci show latex_of false input_params
               (md_table +:+ title) md_formula with
       | Raise e => Raise e
       | Ok (md_table, md_formula) =>
           parameter_rows sci show latex_of true calc_params md_table md_formula
       end
     else Ok (md_table, md_formula))
    = Ok (md_table +:+ when_some (input_params ++ calc_params) title
          +:+ concat_str (row <$> input_params ++ calc_params),
          md_formula +:+ concat_str (formula <$> calc_params))).
  { intros ip cp title t m Hip Hcp. case_bool_decide as Hn.
    - rewrite (parameter_rows_map sci show latex_of false cells) by done.
      rewrite (parameter_rows_map sci show latex_of true cells) by done.
      rewrite fmap_app, concat_str_app.
      replace (when_some (ip ++ cp) title) with title
        by (destruct ip, cp; simpl in *; try done; lia).
      by rewrite !str_app_assoc.
    - destruct ip, cp; simpl in Hn; try lia. simpl. by rewrite !str_app_nil_r. }
  rewrite (Hpart proc_input proc_calc);
    [|exact (Hin true PROCESS_SCOPE)|exact (Hin false PROCESS_SCOPE)].
  rewrite (Hpart glob_input glob_calc);
    [|exact (Hin true GLOBAL_SCOPE)|exact (Hin false GLOBAL_SCOPE)].
  f_equal. rewrite (fmap_app formula), (concat_str_app (formula <$> proc_calc)).
  by rewrite !str_app_assoc.
Qed.

(** ** Multi-line input *)

Lemma join_cons sep x y l :
  Py.join sep (x :: y :: l) = x +:+ sep +:+ Py.join sep (y :: l).
Proof. done. Qed.

Lemma join_split (s : string) : Py.join nl (split LF s) = s.
Proof.
  induction s as [|c s IH]; [done|]. simpl.
  destruct (Ascii.eqb c LF) eqn:Hc.
  - apply Ascii.eqb_eq in Hc as ->.
    destruct (split LF s) as [|w ws] eqn:Hs; [by apply split_nonempty in Hs|].
    rewrite join_cons, IH. done.
  - destruct (split LF s) as [|w ws] eqn:Hs; [by apply split_nonempty in Hs|].
    destruct ws as [|w' ws].
    + simpl in *. by rewrite IH.
    + rewrite join_cons in *. rewrite str_app_cons. by rewrite IH.
Qed.

Lemma read_until_app end_marker (lines_typed : list string) marker rest lines :
  Forall (λ l, Py.strip l ≠ end_marker) lines_typed →
  Py.strip marker = end_marker →
  read_until end_marker (lines_typed ++ marker :: rest) lines
  = (Ok (lines ++ lines_typed), rest).
Proof.
  intros Htyped Hmarker. revert lines.
  induction Htyped as [|l lines_typed Hl _ IH]; intros lines; simpl.
  - rewrite (proj2 (String.eqb_eq _ _)) by done. by rewrite app_nil_r.
  - rewrite (proj2 (String.eqb_neq _ _)) by done. rewrite IH.
    by rewrite <- app_assoc.
Qed.

(** X8.  [get_multiline_input] gives back the text that was typed: when
    the lines of an ASCII text are typed, none of them being the end
    marker up to the white space around it, and then a line of ASCII text
    that is the marker up to such white space, the value is the text, and
    the lines behind the marker are left on the console. *)
Theorem get_multiline_input_round_trip (prompt end_marker text marker : string)
    (rest : list string) :
  Py.isascii text = true → Py.isascii marker = true →
  Forall (λ l, Py.strip l ≠ end_marker) (split LF text) →
  Py.strip marker = end_marker →
  get_multiline_input prompt end_marker (split LF text ++ marker :: rest)
  = (Ok text, rest,
     [prompt; "(Type '" +:+ end_marker +:+ "' on a new line to finish)"]).
Proof.
  intros _ _ Htyped Hmarker. unfold get_multiline_input.
  rewrite (read_until_app end_marker (split LF text) marker rest []) by done.
  simpl. by rewrite join_split.
Qed.

Lemma get_multiline_input_round_trip_witness :
  get_multiline_input "Notes:" "EOF" ["first line"; "second line"; " EOF "; "q"]
  = (Ok ("first line" +:+ nl +:+ "second line"), ["q"],
     ["Notes:"; "(Type 'EOF' on a new line to finish)"]).
Proof.
  apply (get_multiline_input_round_trip "Notes:" "EOF"
           ("first line" +:+ nl +:+ "second line") " EOF " ["q"]).
  - vm_compute. reflexivity.
  - vm_compute. reflexivity.
  - repeat constructor; vm_compute; discriminate.
  - vm_compute. reflexivity.
Defined.

(** ** Publishing *)







End FormatterFacts.

Lemma format_parameter_table_layout_witness :
  Report.format_parameter_table Some id Demo.latex_of [Cases.loss; Cases.efficiency]
  = Ok (Py.join Report.nl
          [ "The following are parameter formulas used or referenced in this process.";
            EmptyString;
            "$$";
            "loss = 1-eff";
            "$$";
            EmptyString;
            "The following table provides process and global parameter values and their associated uncertainty.";
            EmptyString;
            "| Scope | Name | Value | Uncertainty | Description |";
            "|:------|:-----|------:|:------------|:------------|";
            "| Process |  |  |  |  |";
            "|  | eff | 9.000E-01 | Triangle Distribution (max:13.0, min:5.0, mode:7.5) | Efficiency |";
            "| Global |  |  |  |  |";
            "|  | loss | 1.000E-01 | none | Loss |";
            EmptyString ]).
Proof.
  rewrite (format_parameter_table_layout Some id Demo.latex_of
             (λ p, match Report.parameter_row Some id Demo.latex_of
                           (negb (Report.is_input_parameter p)) p with
                   | Ok c => c
                   | Raise _ => (EmptyString, EmptyString)
                   end)
             [Cases.loss; Cases.efficiency]).
  - vm_compute. reflexivity.
  - intros p Hp.
    repeat (apply elem_of_cons in Hp as [->|Hp]; [vm_compute; reflexivity|]).
    by apply elem_of_nil in Hp.
Defined.

(** * Further facts about the menu interpreter *)

Section ProtocolFacts.
Import Interface.
Context `{NetlOlca}.
Variable os : OperatingSystem.

Ltac bind_step := unfold mbind at 1; unfold M_bind at 1.

(** ** Files and setters *)

Lemma sorted_set_spec (l : list string) :
  StronglySorted String.le (sorted_set l)
  ∧ NoDup (sorted_set l)
  ∧ ∀ x, x ∈ sorted_set l ↔ x ∈ l.
Proof.
  unfold sorted_set. split; [|split].
  - apply StronglySorted_merge_sort; apply _.
  - rewrite merge_sort_Permutation. apply NoDup_remove_dups.
  - intros x. rewrite merge_sort_Permutation. apply elem_of_remove_dups.
Qed.

(** X11.  [find_json_files] returns the matches of [*.zip] and [*.json]
    in the directory, each once and in lexicographic order, and
    [dir_has_json] tells whether there is one. *)
Theorem find_json_files_sorted_set (my_dir : string) :
  StronglySorted String.le (find_json_files os my_dir)
  ∧ NoDup (find_json_files os my_dir)
  ∧ (∀ f, f ∈ find_json_files os my_dir
          ↔ f ∈ glob os (Report.path_join my_dir "*.zip")
            ∨ f ∈ glob os (Report.path_join my_dir "*.json"))
  ∧ (dir_has_json os my_dir = true
     ↔ ∃ f, f ∈ glob os (Report.path_join my_dir "*.zip")
            ∨ f ∈ glob os (Report.path_join my_dir "*.json")).
Proof.
  unfold dir_has_json, find_json_files.
  destruct (sorted_set_spec (glob os (Report.path_join my_dir "*.zip")
                             ++ glob os (Report.path_join my_dir "*.json")))
    as (Hs & Hn & He).
  assert (Hmem : ∀ f, f ∈ sorted_set (glob os (Report.path_join my_dir "*.zip")
                                     ++ glob os (Report.path_join my_dir "*.json"))
          ↔ f ∈ glob os (Report.path_join my_dir "*.zip")
            ∨ f ∈ glob os (Report.path_join my_dir "*.json")).
  { intros f. rewrite He. apply elem_of_app. }
  split; [done|]. split; [done|]. split; [done|].
  rewrite bool_decide_eq_true. split.
  - intros Hlen. destruct (sorted_set _) as [|f l] eqn:Hl; [simpl in Hlen; lia|].
    exists f. apply Hmem. by left.
  - intros [f Hf]. apply Hmem in Hf.
    destruct (sorted_set _); [by apply elem_of_nil in Hf|simpl; lia].
Qed.

(** X12.  [set_working_dir] checks before it commits: for a path that is
    no directory, or a directory without a JSON-LD file, it returns False
    and leaves the session as it was; otherwise it returns True, the
    working directory is the path, the file set is the one found there,
    [is_okay] is True, and the number of files is printed. *)
Theorem set_working_dir_validates (val : string) (s : Session) :
  set_working_dir os val s
  = if isdir os val && dir_has_json os val then
      (Done true,
       with_stdout
         (stdout s ++ ["Read " +:+ fmt_nat (length (find_json_files os val))
                       +:+ " files in working directory"])
         (with_work_dir val
            (with_is_okay true (with_json_set (find_json_files os val) s))))
    else (Done false, s).
Proof.
  unfold set_working_dir.
  destruct (isdir os val && dir_has_json os val) eqn:Hok; [|done].
  apply andb_true_iff in Hok as [Hdir Hjson].
  unfold dir_has_json in Hjson. apply bool_decide_eq_true in Hjson.
  unfold load_json_set. rewrite Hdir.
  unfold mbind, M_bind, modify, gets, num_files. simpl.
  rewrite bool_decide_eq_true_2 by done. done.
Qed.

(** X13.  [set_product_system] looks the identifier up among the product
    systems of the project: an unknown one gives False and changes
    nothing; a known one is kept, then its reference name is asked for
    and kept by the report, and the name is printed.  When the request
    for the name raises, the identifier has been changed already. *)
Theorem set_product_system_validates (val : string) (ids : list string) (s : Session) :
  get_spec_ids "Product system" (netl s) = Ok ids →
  set_product_system val s
  = if bool_decide (val ∈ ids) then
      match get_reference_name val (netl s) with
      | Ok r_name =>
          (Done true,
           with_stdout (stdout s ++ ["Product system set to '" +:+ fmt_opt r_name +:+ "'"])
             (with_rd (Report.set_reference_name r_name (rd s))
                (with_product_sys_uid val s)))
      | Raise e => (Raised e, with_product_sys_uid val s)
      end
    else (Done false, s).
Proof.
  intros Hids. unfold set_product_system. bind_step. rewrite (ask_run _ ids) by done.
  case_bool_decide; [|done].
  bind_step. unfold modify at 1. bind_step. unfold ask at 1. simpl.
  by destruct (get_reference_name val (netl s)).
Qed.

(** ** The value prompts *)

Lemma check_ans_exact (val ans : string) (rest : list string) (s : Session) :
  stdin s = ans :: rest →
  check_ans val s
  = (Done (confirmed ans),
     with_stdin rest
       (with_stdout (stdout s ++ ["You entered '" +:+ val +:+ "', is this correct (y/n)? "]) s)).
Proof.
  intros Hin. unfold check_ans. bind_step. rewrite (input_run _ ans rest) by done.
  unfold confirmed. by destruct (_ || _).
Qed.

Lemma check_val_other (ans : string) (s : Session) :
  quit_keyword ans = false → blank ans = false → check_val ans s = (Done false, s).
Proof. intros Hq Hb. unfold check_val. by rewrite Hq, Hb. Qed.

Lemma prompt_server_port_declined (ans conf : string) (rest : list string) (s : Session) :
  stdin s = ans :: conf :: rest →
  quit_keyword ans = false → blank ans = false → confirmed conf = false →
  prompt_server_port s
  = (Done false,
     with_stdin rest
       (with_stdout
          (stdout s ++ ["server port (" +:+ fmt_int (netl_port (netl s)) +:+ ")> ";
                        "You entered '" +:+ ans +:+ "', is this correct (y/n)? "]) s)).
Proof.
  intros Hin Hq Hb Hc.
  unfold prompt_server_port. bind_step. unfold gets at 1.
  bind_step. rewrite (input_run _ _ _ _ Hin).
  bind_step. rewrite check_val_other by done. cbn [negb].
  bind_step. rewrite (check_ans_exact _ conf rest) by done. rewrite Hc.
  unfold mret, M_ret. f_equal. unfold with_stdin, with_stdout. simpl.
  by rewrite <- app_assoc.
Qed.

Lemma prompt_working_dir_declined (ans conf : string) (rest : list string) (s : Session) :
  stdin s = ans :: conf :: rest →
  quit_keyword ans = false → blank ans = false → confirmed conf = false →
  prompt_working_dir os s
  = (Done false,
     with_stdin rest
       (with_stdout
          (stdout s ++ ["working dir (" +:+ work_dir s +:+ ")> ";
                        "You entered '" +:+ ans +:+ "', is this correct (y/n)? "]) s)).
Proof.
  intros Hin Hq Hb Hc.
  unfold prompt_working_dir. bind_step. unfold gets at 1.
  bind_step. rewrite (input_run _ _ _ _ Hin).
  bind_step. rewrite check_val_other by done. cbn [negb].
  bind_step. rewrite (check_ans_exact _ conf rest) by done. rewrite Hc.
  unfold mret, M_ret. f_equal. unfold with_stdin, with_stdout. simpl.
  by rewrite <- app_assoc.
Qed.

(** X14.  Nothing is committed without a yes: when the operator enters a
    value (an ASCII text that is neither a quit word nor blank) at the
    server-port prompt or at the working-directory prompt and answers the
    confirmation with anything but [y] or [yes], the prompt returns
    False, the two lines are read, the two prompts are written, and
    nothing else of the session changes. *)
Theorem no_commit_without_yes (ans conf : string) (rest : list string) (s : Session) :
  stdin s = ans :: conf :: rest →
  Py.isascii ans = true →
  quit_keyword ans = false → blank ans = false → confirmed conf = false →
  prompt_server_port s
  = (Done false,
     with_stdin rest
       (with_stdout
          (stdout s ++ ["server port (" +:+ fmt_int (netl_port (netl s)) +:+ ")> ";
                        "You entered '" +:+ ans +:+ "', is this correct (y/n)? "]) s))
  ∧ prompt_working_dir os s
    = (Done false,
       with_stdin rest
         (with_stdout
            (stdout s ++ ["working dir (" +:+ work_dir s +:+ ")> ";
                          "You entered '" +:+ ans +:+ "', is this correct (y/n)? "]) s)).
Proof.
  intros Hin _ Hq Hb Hc. split.
  - by apply (prompt_server_port_declined ans conf).
  - by apply (prompt_working_dir_declined ans conf).
Qed.

Lemma for_each_print_map {A : Type} (f : A → string) (l : list A) (s : Session) :
  for_each l (λ x, print (f x)) s = (Done (), with_stdout (stdout s ++ (f <$> l)) s).
Proof.
  revert s. induction l as [|x l IH]; intros s.
  - simpl. unfold mret, M_ret. by rewrite with_stdout_same.
  - cbn [for_each]. bind_step. unfold print at 1, modify.
    rewrite IH. f_equal. unfold with_stdout. simpl. by rewrite <- app_assoc.
Qed.

(** X15.  A blank line skips: at the prompts for the server port, the
    working directory and the process type, a line that is empty or
    white space ends the prompt as done; the prompt is written, the line
    is read, and nothing else of the session changes. *)
Theorem blank_line_skips (ans : string) (rest : list string) (s : Session) :
  stdin s = ans :: rest →
  quit_keyword ans = false → blank ans = true →
  prompt_server_port s
  = (Done true,
     with_stdin rest
       (with_stdout
          (stdout s ++ ["server port (" +:+ fmt_int (netl_port (netl s)) +:+ ")> "]) s))
  ∧ prompt_working_dir os s
    = (Done true,
       with_stdin rest
         (with_stdout (stdout s ++ ["working dir (" +:+ work_dir s +:+ ")> "]) s))
  ∧ prompt_process_type s
    = (Done true,
       with_stdin rest
         (with_stdout
            (stdout s ++ ((λ '(k, v), k +:+ " ... " +:+ v) <$> Report.process_types)
             ++ ["choose process type (" +:+ process_code s +:+ ") > "]) s)).
Proof.
  intros Hin Hq Hb. split; [|split].
  - unfold prompt_server_port. bind_step. unfold gets at 1.
    bind_step. rewrite (input_run _ _ _ _ Hin).
    bind_step. by rewrite check_val_blank.
  - unfold prompt_working_dir. bind_step. unfold gets at 1.
    bind_step. rewrite (input_run _ _ _ _ Hin).
    bind_step. by rewrite check_val_blank.
  - unfold prompt_process_type. bind_step.
    replace (for_each Report.process_types (λ '(k, v), print (k +:+ " ... " +:+ v)) s)
      with (Done (), with_stdout
              (stdout s ++ ((λ '(k, v), k +:+ " ... " +:+ v) <$> Report.process_types)) s).
    2:{ rewrite <- for_each_print_map. f_equal. }
    bind_step. unfold gets at 1. bind_step.
    rewrite (input_run _ ans rest) by done.
    bind_step. rewrite check_val_blank by done. simpl.
    unfold mret, M_ret. f_equal. unfold with_stdin, with_stdout. simpl.
    by rewrite <- app_assoc.
Qed.

(** ** The workbook set *)

Lemma load_excel_set_exact (my_dir : string) (s : Session) :
  load_excel_set os my_dir s
  = (Done (),
     let books := if isdir os my_dir then find_excel_files os my_dir else calc_set s in
     if bool_decide (0 < length (json_set s)) then
       with_is_okay true (with_calc_set books s)
     else
       with_stdout (stdout s ++ ["!!! No Excel files found !!!"])
         (with_is_okay false (with_calc_set books s))).
Proof.
  unfold load_excel_set, num_files.
  unfold mbind, M_bind, gets, modify, mret, M_ret, warn, print, modify.
  destruct (isdir os my_dir); simpl;
    destruct (bool_decide (0 < length (json_set s))); simpl; try done.
  all: by destruct s.
Qed.

(** X16.  [load_excel_set] judges by the JSON-LD files, not by the
    workbooks: after it, [is_okay] tells whether the session knows a
    JSON-LD file, and the warning that no Excel file was found is written
    exactly when it knows none, whatever workbooks the directory holds.
    The workbook set itself is the sorted set of the [*.xls] and
    [*.xlsx] matches when the directory exists, and is left alone when
    it does not. *)
Theorem load_excel_set_counts_json (my_dir : string) (s : Session) :
  ∃ s', load_excel_set os my_dir s = (Done (), s')
        ∧ is_okay s' = bool_decide (0 < length (json_set s))
        ∧ stdout s' = stdout s ++ (if bool_decide (0 < length (json_set s)) then []
                                   else ["!!! No Excel files found !!!"])
        ∧ calc_set s' = (if isdir os my_dir then find_excel_files os my_dir
                         else calc_set s)
        ∧ json_set s' = json_set s ∧ stdin s' = stdin s
        ∧ is_running s' = is_running s.
Proof.
  rewrite load_excel_set_exact. eexists. split; [done|]. cbv zeta.
  destruct (bool_decide (0 < length (json_set s))); simpl;
    rewrite ?app_nil_r; done.
Qed.

(** ** The option table *)

Lemma set_show_set_show v v' o : set_show v' (set_show v o) = set_show v' o.
Proof. by destruct o. Qed.

(** X17.  [make_param_visible] on a code that the table does not hold
    raises [ValueError] and changes nothing.  On a code that it holds it
    changes the visibility flag of that option and nothing else: the
    other fields of the option, the other options and the rest of the
    session stay.  Of two calls on the same code the second decides. *)
Theorem make_param_visible_flag (p : string) (v v' : bool) (s : Session) :
  match params s !! p with
  | Some o =>
      ∃ s', make_param_visible p v s = (Done (), s')
            ∧ params s' !! p = Some (set_show v o)
            ∧ (∀ k, k ≠ p → params s' !! k = params s !! k)
            ∧ with_params (params s) s' = s
  | None =>
      make_param_visible p v s
      = (Raised (ValueError ("Parameter, '" +:+ p +:+ "', not found!")), s)
  end
  ∧ (make_param_visible p v;; make_param_visible p v') s = make_param_visible p v' s.
Proof.
  split.
  - destruct (params s !! p) as [o|] eqn:Ho.
    + unfold make_param_visible. bind_step. unfold gets at 1. rewrite Ho.
      eexists. split; [done|]. simpl. split; [by rewrite lookup_insert_eq|].
      split; [by intros k Hk; rewrite lookup_insert_ne|]. by destruct s.
    + unfold make_param_visible. bind_step. unfold gets at 1. by rewrite Ho.
  - bind_step. unfold make_param_visible. bind_step. unfold gets at 1.
    destruct (params s !! p) as [o|] eqn:Ho.
    + unfold modify at 1. bind_step. unfold gets at 1. simpl.
      rewrite lookup_insert_eq. bind_step. unfold gets at 1. rewrite Ho.
      unfold modify. f_equal. unfold with_params. simpl.
      by rewrite insert_insert_eq, set_show_set_show.
    + unfold raise at 1. bind_step. unfold gets at 1. by rewrite Ho.
Qed.

(** ** Product systems and reviewers *)

(** X18.  A project with one product system needs no answer: when the
    connector counts one product system, [prompt_product_system] reads
    no line and asks for no confirmation; it selects the first
    identifier, the report takes its reference name, and the prompt is
    done. *)
Theorem single_product_system_is_selected (uid : string) (ids : list string)
    (r_name : option string) (s : Session) :
  get_number_product_systems (netl s) = Ok 1 →
  get_spec_ids "Product system" (netl s) = Ok (uid :: ids) →
  get_reference_name uid (netl s) = Ok r_name →
  prompt_product_system s
  = (Done true,
     with_stdout
       (stdout s ++ ["Product system set to '" +:+ fmt_opt r_name +:+ "'"; "Success!"])
       (with_rd (Report.set_reference_name r_name (rd s))
          (with_product_sys_uid uid s))).
Proof.
  intros Hn Hids Hname. unfold prompt_product_system.
  bind_step. rewrite (ask_run _ _ _ Hn).
  rewrite (bool_decide_eq_true_2 (1 = 1)) by done.
  bind_step. unfold mret at 1, M_ret at 1. cbn [negb].
  change (py_int "1") with (Some 1%Z). cbv beta iota.
  rewrite (bool_decide_eq_false_2 (1 < 1 ∨ 1 > Z.of_nat 1)%Z) by lia.
  rewrite (bool_decide_eq_true_2 (1%Z = 1%Z)) by done. cbn [andb].
  bind_step. rewrite (ask_run _ _ _ Hids).
  bind_step. change (index (uid :: ids) (Z.to_nat (1 - 1)) s) with (Done uid, s).
  bind_step. unfold set_product_system.
  bind_step. rewrite (ask_run _ _ _ Hids).
  rewrite bool_decide_eq_true_2 by by left.
  bind_step. unfold modify at 1. bind_step.
  rewrite (ask_run _ r_name) by done.
  bind_step. unfold modify at 1. bind_step. rewrite print_run.
  unfold mret at 1, M_ret at 1. cbn [negb].
  bind_step. unfold success. rewrite print_run. unfold mret, M_ret.
  f_equal. unfold with_stdout. simpl. by rewrite <- app_assoc.
Qed.

(** X19.  A project without actors: [prompt_reviewer] raises [NameError]
    before it writes its prompt or reads a line, the loop variable that
    numbers the entry for a new name being unbound after a loop over an
    empty list. *)
Theorem prompt_reviewer_without_actors (fuel : nat) (r_name : string)
    (addrs uuids : list string) (s : Session) :
  get_reviewer (product_sys_uid s) (netl s) = Ok r_name →
  get_actors (netl s) = Ok ([], addrs, uuids) →
  prompt_reviewer fuel s = (Raised (NameError "i"), s).
Proof.
  intros Hr Ha. unfold prompt_reviewer.
  bind_step. unfold gets at 1.
  bind_step. rewrite (ask_run _ _ _ Hr).
  bind_step. rewrite (ask_run _ _ _ Ha).
  bind_step. unfold mret at 1, M_ret at 1. done.
Qed.


(** ** The loop of an assignment *)

Lemma prompt_server_port_stop (ans : string) (rest : list string) (s : Session) :
  stdin s = ans :: rest → quit_keyword ans = true →
  ∃ s', prompt_server_port s = (Done true, s')
        ∧ netl s' = netl s ∧ is_running s' = false ∧ stdin s' = rest.
Proof.
  intros Hin Hq. unfold prompt_server_port.
  bind_step. unfold gets at 1.
  bind_step. rewrite (input_run _ _ _ _ Hin).
  bind_step. rewrite (check_val_quit _ _ Hq).
  simpl. eexists. split; [done|]. done.
Qed.

(** X30.  The loop of [assign_server_port] goes on until a prompt is
    done: an operator who enters any number of values (ASCII texts that
    are neither quit words nor blank), declines each at the confirmation
    and then types a quit word ends the method with the connector as it
    was, the session stopped, and exactly those lines read; one round of
    the loop is used for each value and one for the quit word. *)
Theorem assign_server_port_declined (fuel : nat) (tries : list (string * string))
    (last : string) (rest : list string) (s : Session) :
  Forall (λ '(value, answer),
            Py.isascii value = true
            ∧ quit_keyword value = false ∧ blank value = false
            ∧ confirmed answer = false) tries →
  quit_keyword last = true →
  length tries < fuel →
  stdin s = typed tries ++ last :: rest →
  ∃ s', assign_server_port fuel None s = (Done None, s')
        ∧ netl s' = netl s ∧ is_running s' = false ∧ stdin s' = rest.
Proof.
  intros Htries Hlast Hfuel Hin. unfold assign_server_port.
  bind_step. rewrite request_run. bind_step.
  assert (Hloop : ∀ s0, stdin s0 = typed tries ++ last :: rest →
            ∃ s', until_done fuel prompt_server_port s0 = (Done (), s')
                  ∧ netl s' = netl s0 ∧ is_running s' = false ∧ stdin s' = rest).
  { clear Hin. revert fuel Hfuel.
    induction Htries as [|[value answer] tries (_ & Hq & Hb & Hc) _ IH];
      intros fuel Hfuel s0 Hin; (destruct fuel as [|fuel]; [simpl in Hfuel; lia|]).
    - cbn [until_done]. bind_step.
      destruct (prompt_server_port_stop last rest s0) as (s' & -> & ?); [done..|].
      by exists s'.
    - cbn [until_done]. bind_step.
      rewrite (prompt_server_port_declined value answer (typed tries ++ last :: rest) s0)
        by done.
      destruct (IH fuel ltac:(simpl in Hfuel; lia)
        (with_stdin (typed tries ++ last :: rest)
           (with_stdout
              (stdout s0 ++
               ["server port (" +:+ fmt_int (netl_port (netl s0)) +:+ ")> ";
                "You entered '" +:+ value +:+ "', is this correct (y/n)? "]) s0)))
        as (s' & -> & Hn & Hr & Hi); [done|].
      by exists s'. }
  destruct (Hloop (with_stdout (stdout s ++ banner "Enter port number for IPC server") s))
    as (s' & -> & Hn & Hr & Hi); [done|].
  by exists s'.
Qed.

(** ** Wrapped messages *)

Lemma str_length_app a b : String.length (a +:+ b) = String.length a + String.length b.
Proof. induction a as [|c a IH]; [done|]. rewrite str_app_cons. simpl. by rewrite IH. Qed.

Lemma wrap_word_last char_count prev word init cur :
  wrap_word char_count prev word (init ++ [cur]) (length init)
  = Ok (if breaks char_count prev cur word
        then ((init ++ [cur]) ++ [word +:+ " "], length (init ++ [cur]))
        else (init ++ [(cur +:+ word) +:+ " "], length init)).
Proof.
  unfold wrap_word, breaks.
  rewrite lookup_app_r, Nat.sub_diag by done. simpl.
  destruct (bool_decide (prev = Some Report.nl)); simpl.
  - rewrite length_app. simpl.
    rewrite (lookup_app_r (init ++ [cur])) by (rewrite length_app; simpl; lia).
    rewrite length_app. simpl. replace (length init + 1 - (length init + 1)) with 0 by lia.
    simpl. do 2 f_equal.
    rewrite (insert_app_r_alt (init ++ [cur])) by (rewrite length_app; simpl; lia).
    rewrite length_app. simpl. by replace (length init + 1 - (length init + 1)) with 0 by lia.
  - destruct (bool_decide _); simpl.
    + rewrite length_app. simpl.
      rewrite (lookup_app_r (init ++ [cur])) by (rewrite length_app; simpl; lia).
      rewrite length_app. simpl. replace (length init + 1 - (length init + 1)) with 0 by lia.
      simpl. do 2 f_equal.
      rewrite (insert_app_r_alt (init ++ [cur])) by (rewrite length_app; simpl; lia).
      rewrite length_app. simpl. by replace (length init + 1 - (length init + 1)) with 0 by lia.
    + rewrite insert_app_r_alt, Nat.sub_diag by done. simpl.
      rewrite lookup_app_r, Nat.sub_diag by done. simpl.
      by rewrite insert_app_r_alt, Nat.sub_diag by done.
Qed.

Lemma wrap_words_run char_count all prev msg init cur :
  msg ⊆ all →
  Forall (fits char_count all) (init ++ [cur]) →
  ∃ out, wrap_words char_count prev msg (init ++ [cur]) (length init) = Ok out
         ∧ concat_str out
           = concat_str (init ++ [cur]) +:+ concat_str ((λ w, w +:+ " ") <$> msg)
         ∧ Forall (fits char_count all) out.
Proof.
  revert prev init cur. induction msg as [|w msg IH]; intros prev init cur Hsub Hfits.
  - exists (init ++ [cur]). simpl. by rewrite str_app_nil_r.
  - cbn [wrap_words]. rewrite wrap_word_last.
    assert (Hw : w ∈ all) by (apply Hsub; by left).
    assert (Hmsg : msg ⊆ all) by (intros x Hx; apply Hsub; by right).
    destruct (breaks char_count prev cur w) eqn:Hbr.
    + destruct (IH (Some w) (init ++ [cur]) (w +:+ " ") Hmsg) as (out & Hrun & Htxt & Hout).
      { apply Forall_app. split; [done|]. apply Forall_singleton.
        right. right. by exists w. }
      exists out. split; [done|]. split; [|done].
      rewrite Htxt. rewrite concat_str_app. simpl.
      rewrite !str_app_assoc. done.
    + destruct (IH (Some w) init ((cur +:+ w) +:+ " ") Hmsg) as (out & Hrun & Htxt & Hout).
      { apply Forall_app in Hfits as [Hinit _]. apply Forall_app. split; [done|].
        apply Forall_singleton. right. left.
        unfold breaks in Hbr. apply orb_false_iff in Hbr as [_ Hbr].
        apply bool_decide_eq_false in Hbr.
        rewrite str_length_app. simpl. lia. }
      exists out. split; [done|]. split; [|done].
      rewrite Htxt. rewrite !concat_str_app. simpl.
      rewrite !str_app_assoc. done.
Qed.

(** X21.  The wrapping of [print_messages] loses nothing and never
    fails: the lines of a message, one behind the other, are its words in
    their order, each followed by a space; and a line is empty, or has at
    most [char_count - 3] characters, or is one word with its space
    (a word that opens a line is never cut). *)
Theorem wrap_keeps_words (char_count : nat) (msg : string) :
  ∃ out_lines,
    wrap char_count msg = Ok out_lines
    ∧ concat_str out_lines = concat_str ((λ w, w +:+ " ") <$> words msg)
    ∧ Forall (fits char_count (words msg)) out_lines.
Proof.
  unfold wrap.
  destruct (wrap_words_run char_count (words msg) None (words msg) [] EmptyString)
    as (out & Hrun & Htxt & Hout); [done|by apply Forall_singleton; left|].
  exists out. split; [done|]. split; [|done]. by rewrite Htxt.
Qed.

Lemma with_stdout_app (a b : list string) (s : Session) :
  with_stdout (stdout (with_stdout (stdout s ++ a) s) ++ b) (with_stdout (stdout s ++ a) s)
  = with_stdout (stdout s ++ a ++ b) s.
Proof. unfold with_stdout. simpl. by rewrite <- app_assoc. Qed.

(** A loop whose rounds only write writes only. *)
Lemma for_each_writes {A : Type} (l : list A) (body : A → M unit) (s : Session) :
  (∀ x s, ∃ out, body x s = (Done (), with_stdout (stdout s ++ out) s)) →
  ∃ out, for_each l body s = (Done (), with_stdout (stdout s ++ out) s).
Proof.
  intros Hbody. revert s. induction l as [|x l IH]; intros s.
  - exists []. simpl. unfold mret, M_ret. by rewrite with_stdout_same.
  - cbn [for_each]. bind_step. destruct (Hbody x s) as [o1 ->].
    destruct (IH (with_stdout (stdout s ++ o1) s)) as [o2 ->].
    exists (o1 ++ o2). by rewrite with_stdout_app.
Qed.

Lemma print_messages_run (msg_list : list string) (char_count : nat)
    (prefix : option string) (s : Session) :
  ∃ out, print_messages msg_list char_count prefix s
         = (Done (), with_stdout (stdout s ++ out ++ [dashes char_count]) s).
Proof.
  unfold print_messages. bind_step.
  destruct (for_each_writes (imap (λ i m, (i, m)) msg_list)
    (λ '(i, m),
      match wrap char_count m with
      | Raise e => raise e
      | Ok out_lines =>
          for_each (imap (λ k l, (k, l)) out_lines) (λ '(k, line),
            if negb (Py.isspace line) && negb (String.eqb line EmptyString) then
              match prefix with
              | None =>
                  if bool_decide (k = 0)
                  then print (rjust2 (fmt_nat (i + 1)) +:+ ". " +:+ line)
                  else print ("    " +:+ line)
              | Some prefix =>
                  if bool_decide (k = 0)
                  then print (rjust 3 (String.substring 0 2 prefix) +:+ " " +:+ line)
                  else print ("    " +:+ line)
              end
            else mret ())
      end) s) as [out Hout].
  { intros [i m] s'. unfold wrap.
    destruct (wrap_words_run char_count (words m) None (words m) [] EmptyString)
      as (lines & Hlines & _); [done|by apply Forall_singleton; left|].
    simpl in Hlines. rewrite Hlines.
    apply for_each_writes. intros [k line] s''.
    destruct (negb (Py.isspace line) && negb (String.eqb line EmptyString)).
    - destruct prefix; case_bool_decide; eexists; apply print_run.
    - exists []. unfold mret, M_ret. by rewrite with_stdout_same. }
  rewrite Hout. rewrite print_run. exists out. by rewrite with_stdout_app.
Qed.

(** X22.  [print_messages] only writes: whatever the messages, the width
    and the prefix, it returns, the session is as before but for the
    console, and the last line written is the rule of [char_count]
    dashes; for an empty list the rule is all that is written. *)
Theorem print_messages_writes (msg_list : list string) (char_count : nat)
    (prefix : option string) (s : Session) :
  (∃ out, print_messages msg_list char_count prefix s
          = (Done (), with_stdout (stdout s ++ out ++ [dashes char_count]) s))
  ∧ print_messages [] char_count prefix s
    = (Done (), with_stdout (stdout s ++ [dashes char_count]) s).
Proof. split; [apply print_messages_run|done]. Qed.

(** ** Help *)

Lemma help_request_run (h_str : string) (s : Session) :
  ∃ out, help_request h_str s = (Done (), with_stdout (stdout s ++ out) s).
Proof.
  unfold help_request.
  destruct (bool_decide (h_pattern_match h_str = None)
            && Py.startswith (Py.lower h_str) "help"); [eexists; apply print_run|].
  destruct (bool_decide (h_pattern_match h_str = None)
            && Py.startswith (Py.lower h_str) "h"); [eexists; apply print_run|].
  destruct (h_pattern_match h_str) as [h_opt|]; [|apply show_options_run].
  unfold show_help. bind_step. unfold gets at 1.
  destruct (print_messages_run
              match params s !! h_opt with
              | Some o => [name o +:+ ": " +:+ help o]
              | None => ["ERROR: Option '" +:+ h_opt +:+ "' not recognized."]
              end 79 (Some ">>") s) as [out ->].
  by eexists.
Qed.

End ProtocolFacts.

Lemma help_class_not_paren c :
  Interface.help_class c = true → Ascii.eqb c ")" = false.
Proof.
  intros Hc. destruct (Ascii.eqb c ")") eqn:He; [|done].
  apply Ascii.eqb_eq in He as ->. by vm_compute in Hc.
Qed.

Lemma substring_all s : String.substring 0 (String.length s) s = s.
Proof. induction s as [|c s IH]; [done|]. simpl. by rewrite IH. Qed.

Lemma h_pattern_match_unfold h_str :
  Interface.h_pattern_match h_str
  = match h_str with
    | String c rest =>
        if Ascii.eqb c "h"%char then
          after_h (if Py.startswith rest "elp"
                   then String.substring 3 (String.length rest - 3) rest else rest)
        else None
    | EmptyString => None
    end.
Proof.
  destruct h_str as [|c rest]; [done|].
  destruct (Ascii.eqb c "h") eqn:Hc.
  - apply Ascii.eqb_eq in Hc as ->. unfold Interface.h_pattern_match.
    generalize (if Py.startswith rest "elp"
                then String.substring 3 (String.length rest - 3) rest else rest).
    intros [|p body]; [done|]. unfold after_h.
    destruct (Ascii.eqb p "(") eqn:Hp.
    + by apply Ascii.eqb_eq in Hp as ->.
    + destruct p as [[] [] [] [] [] [] [] []]; try done.
  - destruct c as [[] [] [] [] [] [] [] []]; try done.
Qed.

Lemma after_h_complete h_opt tail :
  (String.length h_opt = 1 ∨ String.length h_opt = 2) →
  Py.all_chars Interface.help_class h_opt = true →
  after_h ("(" +:+ h_opt +:+ ")" +:+ tail) = Some h_opt.
Proof.
  intros Hlen Hcls.
  destruct h_opt as [|a [|b [|c o]]]; simpl in Hlen; try lia; simpl in Hcls.
  - rewrite andb_true_r in Hcls.
    change ("(" +:+ String a EmptyString +:+ ")" +:+ tail)
      with (String "(" (String a (String ")" tail))).
    unfold after_h. simpl Ascii.eqb. cbv iota.
    destruct tail as [|c tail]; rewrite Hcls; [done|].
    change (Interface.help_class ")") with false. by rewrite andb_false_r.
  - rewrite andb_true_r in Hcls. apply andb_true_iff in Hcls as [Ha Hb].
    change ("(" +:+ String a (String b EmptyString) +:+ ")" +:+ tail)
      with (String "(" (String a (String b (String ")" tail)))).
    unfold after_h. simpl Ascii.eqb. cbv iota. by rewrite Ha, Hb.
Qed.

Lemma after_h_sound rest h_opt :
  after_h rest = Some h_opt →
  ∃ tail, rest = "(" +:+ h_opt +:+ ")" +:+ tail
          ∧ (String.length h_opt = 1 ∨ String.length h_opt = 2)
          ∧ Py.all_chars Interface.help_class h_opt = true.
Proof.
  unfold after_h. destruct rest as [|p body]; [done|].
  destruct (Ascii.eqb p "(") eqn:Hp; [|done]. apply Ascii.eqb_eq in Hp as ->.
  destruct body as [|a [|b [|c tail]]]; try done.
  - destruct (Interface.help_class a && Ascii.eqb b ")") eqn:Hab; [|done].
    intros [= <-]. apply andb_true_iff in Hab as [Ha Hb].
    apply Ascii.eqb_eq in Hb as ->. exists EmptyString.
    split; [done|]. split; [by left|]. simpl. by rewrite Ha.
  - destruct (Interface.help_class a && Interface.help_class b && Ascii.eqb c ")")
      eqn:Habc.
    + intros [= <-]. apply andb_true_iff in Habc as [Hab Hc].
      apply andb_true_iff in Hab as [Ha Hb].
      apply Ascii.eqb_eq in Hc as ->. exists tail.
      split; [done|]. split; [by right|]. simpl. by rewrite Ha, Hb.
    + destruct (Interface.help_class a && Ascii.eqb b ")") eqn:Hab; [|done].
      intros [= <-]. apply andb_true_iff in Hab as [Ha Hb].
      apply Ascii.eqb_eq in Hb as ->. exists (String c tail).
      split; [done|]. split; [by left|]. simpl. by rewrite Ha.
Qed.

Lemma startswith_elp rest :
  Py.startswith rest "elp" = true → ∃ r, rest = "elp" +:+ r.
Proof.
  destruct rest as [|a [|b [|c r]]]; cbn [Py.startswith]; try done.
  - by rewrite andb_false_r.
  - by rewrite !andb_false_r.
  - intros Habc.
    apply andb_true_iff in Habc as [Ha Hbc]. apply andb_true_iff in Hbc as [Hb Hc].
    apply andb_true_iff in Hc as [Hc _].
    apply Ascii.eqb_eq in Ha, Hb, Hc. subst. by exists r.
Qed.

Lemma h_pattern_match_complete (h_opt tail : string) :
  (String.length h_opt = 1 ∨ String.length h_opt = 2) →
  Py.all_chars Interface.help_class h_opt = true →
  Interface.h_pattern_match ("h(" +:+ h_opt +:+ ")" +:+ tail) = Some h_opt
  ∧ Interface.h_pattern_match ("help(" +:+ h_opt +:+ ")" +:+ tail) = Some h_opt.
Proof.
  intros Hlen Hcls. rewrite !h_pattern_match_unfold. split.
  - change ("h(" +:+ h_opt +:+ ")" +:+ tail)
      with (String "h" ("(" +:+ h_opt +:+ ")" +:+ tail)).
    cbv iota. simpl Ascii.eqb. cbv iota.
    change (Py.startswith ("(" +:+ h_opt +:+ ")" +:+ tail) "elp") with false.
    cbv iota. by apply after_h_complete.
  - change ("help(" +:+ h_opt +:+ ")" +:+ tail)
      with (String "h" ("elp" +:+ ("(" +:+ h_opt +:+ ")" +:+ tail))).
    cbv iota. simpl Ascii.eqb. cbv iota.
    change (Py.startswith ("elp" +:+ ("(" +:+ h_opt +:+ ")" +:+ tail)) "elp") with true.
    cbv iota.
    change (String.length ("elp" +:+ ("(" +:+ h_opt +:+ ")" +:+ tail)) - 3)
      with (String.length ("(" +:+ h_opt +:+ ")" +:+ tail) - 0).
    rewrite Nat.sub_0_r.
    change (String.substring 3 (String.length ("(" +:+ h_opt +:+ ")" +:+ tail))
              ("elp" +:+ ("(" +:+ h_opt +:+ ")" +:+ tail)))
      with (String.substring 0 (String.length ("(" +:+ h_opt +:+ ")" +:+ tail))
              ("(" +:+ h_opt +:+ ")" +:+ tail)).
    rewrite substring_all. by apply after_h_complete.
Qed.

(** X23.  The help pattern recognises a request exactly when it is
    written [h(] or [help(], then one or two characters that are
    lower-case letters, digits or the bar, then a closing parenthesis;
    the text behind the parenthesis is ignored, and the code between the
    parentheses is the option asked for.  Upper-case letters are not
    recognised, in the keyword or in the code. *)
Theorem h_pattern_match_help_form (h_str h_opt : string) :
  Interface.h_pattern_match h_str = Some h_opt ↔ help_form h_str h_opt.
Proof.
  split.
  - rewrite h_pattern_match_unfold.
    destruct h_str as [|c rest]; [done|].
    destruct (Ascii.eqb c "h") eqn:Hc; [|done]. apply Ascii.eqb_eq in Hc as ->.
    destruct (Py.startswith rest "elp") eqn:Help.
    + apply startswith_elp in Help as [r ->].
      change (String.length ("elp" +:+ r) - 3) with (String.length r - 0).
      rewrite Nat.sub_0_r.
      change (String.substring 3 (String.length r) ("elp" +:+ r))
        with (String.substring 0 (String.length r) r).
      rewrite substring_all. intros (tail & -> & Hlen & Hcls)%after_h_sound.
      exists tail. split; [by right|done].
    + intros (tail & -> & Hlen & Hcls)%after_h_sound.
      exists tail. split; [by left|done].
  - intros (tail & [-> | ->] & Hlen & Hcls).
    + by apply h_pattern_match_complete.
    + by apply h_pattern_match_complete.
Qed.

(** X24.  Every code of the option table can be asked for help: for each
    of the twenty-nine codes, the requests [h(code)] and [help(code)],
    with any text behind them, are recognised and name that code. *)
Theorem help_covers_menu (work_dir k tail : string) :
  k ∈ (Interface.initial_params work_dir).*1 →
  Interface.h_pattern_match ("h(" +:+ k +:+ ")" +:+ tail) = Some k
  ∧ Interface.h_pattern_match ("help(" +:+ k +:+ ")" +:+ tail) = Some k.
Proof.
  intros Hk. apply h_pattern_match_complete.
  - cbn [Interface.initial_params fmap list_fmap fst] in Hk.
    repeat (apply elem_of_cons in Hk as [->|Hk]; [by (left + right)|]).
    by apply elem_of_nil in Hk.
  - cbn [Interface.initial_params fmap list_fmap fst] in Hk.
    repeat (apply elem_of_cons in Hk as [->|Hk]; [by vm_compute|]).
    by apply elem_of_nil in Hk.
Qed.

Lemma help_covers_menu_witness :
  Interface.h_pattern_match "h(e2)" = Some "e2"
  ∧ Interface.h_pattern_match "help(e2) please" = Some "e2".
Proof.
  split.
  - refine (proj1 (help_covers_menu "data" "e2" EmptyString _)).
    cbn [Interface.initial_params fmap list_fmap fst]. repeat constructor.
  - refine (proj2 (help_covers_menu "data" "e2" " please" _)).
    cbn [Interface.initial_params fmap list_fmap fst]. repeat constructor.
Defined.

(** * Further facts about the main loop *)

Section MainLoopFacts.
Import Interface.
Context `{NetlOlca}.
Variable os : OperatingSystem.
Variable extern : action → M unit.

Ltac bind_step := unfold mbind at 1; unfold M_bind at 1.

(** X25.  The main loop tests the answer in lower case and looks it up
    as typed: an answer that is no quit word, does not begin with [h],
    and is the code of an option only once lowered (such as [Q] or [E1])
    raises [KeyError] out of [do_next]. *)
Theorem do_next_key_error (fuel : nat) (ans : string) (rest : list string) (s : Session) :
  stdin s = ans :: rest →
  Py.lower ans ∉ ["exit"; "quit"] →
  Py.startswith (Py.lower ans) "h" = false →
  is_Some (params s !! Py.lower ans) →
  params s !! ans = None →
  do_next os extern fuel s
  = (Raised (KeyError ans),
     with_stdin rest (with_stdout (stdout s ++ ["(h for help) > "]) s)).
Proof.
  intros Hin Hquit Hh Hlow Hans. unfold do_next.
  bind_step. rewrite (input_run _ ans rest) by done.
  rewrite bool_decide_eq_false_2 by done. rewrite Hh.
  bind_step. unfold gets at 1. simpl.
  rewrite bool_decide_eq_true_2 by done. by rewrite Hans.
Qed.

(** X26.  An answer that begins with [h] or [H], and an answer that is
    no code of the table, run nothing: [do_next] returns, and the session
    is as before but for the line read and the lines written.  In the
    second case the first line written behind the prompt is
    [Invalid option.].  So an option whose code begins with [h] cannot be
    run from the main loop. *)
Theorem do_next_only_writes (fuel : nat) (ans : string) (rest : list string) (s : Session) :
  stdin s = ans :: rest →
  Py.lower ans ∉ ["exit"; "quit"] →
  Py.startswith (Py.lower ans) "h" = true ∨ params s !! Py.lower ans = None →
  ∃ out,
    do_next os extern fuel s
    = (Done (),
       with_stdin rest (with_stdout (stdout s ++ "(h for help) > " :: out) s))
    ∧ (Py.startswith (Py.lower ans) "h" = false → ∃ menu, out = "Invalid option." :: menu).
Proof.
  intros Hin Hquit Hcase. unfold do_next.
  bind_step. rewrite (input_run _ ans rest) by done.
  rewrite bool_decide_eq_false_2 by done.
  destruct (Py.startswith (Py.lower ans) "h") eqn:Hh.
  - destruct (help_request_run ans
                (with_stdin rest (with_stdout (stdout s ++ ["(h for help) > "]) s)))
      as [out ->].
    exists out. split; [|done]. f_equal. unfold with_stdin, with_stdout. simpl.
    by rewrite <- app_assoc.
  - destruct Hcase as [|Hnone]; [done|].
    bind_step. unfold gets at 1. simpl.
    rewrite bool_decide_eq_false_2 by (rewrite Hnone; by intros [? ?]).
    bind_step. rewrite print_run.
    destruct (show_options_run
      (with_stdout
        (stdout (with_stdin rest (with_stdout (stdout s ++ ["(h for help) > "]) s))
         ++ ["Invalid option."])
        (with_stdin rest (with_stdout (stdout s ++ ["(h for help) > "]) s))))
      as [menu ->].
    exists ("Invalid option." :: menu). split; [|by eexists].
    f_equal. unfold with_stdin, with_stdout. simpl.
    by rewrite <- !app_assoc.
Qed.

(** X27.  A session that was quit does not start again: when the hidden
    state is not 0, as [quit] leaves it, [run] reads nothing and writes
    nothing, and returns with [is_running] set to True. *)
Theorem run_stopped (fuel : nat) (s : Session) :
  _hidden_state s ≠ 0%Z →
  run os extern fuel s = (Done (), with_is_running true s).
Proof.
  intros Hh. unfold run. bind_step. unfold modify at 1.
  bind_step. unfold gets at 1. simpl.
  by rewrite bool_decide_eq_false_2.
Qed.

(** X28.  [exit] and [quit], in any letter case, end the main loop at
    once: the line is read, [Exiting...] is written, the session is
    stopped with its hidden state at -1, and the loop returns without
    another round. *)
Theorem main_loop_quits (fuel rounds : nat) (ans : string) (rest : list string)
    (s : Session) :
  is_okay s = true → is_running s = true →
  stdin s = ans :: rest → Py.lower ans ∈ ["exit"; "quit"] →
  main_loop os extern fuel (S rounds) s
  = (Done (),
     with_stdout (stdout s ++ ["(h for help) > "; "Exiting..."])
       (with_hidden_state (-1) (with_is_running false (with_stdin rest s)))).
Proof.
  intros Hok Hrun Hin Hq.
  cbn [main_loop]. bind_step. unfold gets at 1. bind_step. unfold gets at 1.
  rewrite Hok, Hrun. cbn [andb].
  bind_step. unfold do_next.
  bind_step. rewrite (input_run _ ans rest) by done.
  rewrite bool_decide_eq_true_2 by done.
  unfold quit. unfold mbind at 1 2, M_bind at 1 2, modify at 1 2. rewrite print_run.
  destruct rounds; cbn [main_loop]; bind_step; unfold gets at 1; bind_step;
    unfold gets at 1; simpl; rewrite andb_false_r; unfold mret, M_ret;
    f_equal; unfold with_stdout, with_stdin, with_hidden_state, with_is_running; simpl;
    by rewrite <- app_assoc.
Qed.

Lemma prompt_calculation_file_blank (line : string) (rest : list string) (s : Session) :
  json_set s = [] →
  stdin s = line :: rest → quit_keyword line = false → blank line = true →
  ∃ s', prompt_calculation_file os s = (Done true, s')
        ∧ is_okay s' = false ∧ is_running s' = is_running s ∧ stdin s' = rest.
Proof.
  intros Hjson Hin Hq Hb. unfold prompt_calculation_file.
  bind_step. unfold gets at 1.
  bind_step. rewrite load_excel_set_exact. rewrite Hjson.
  rewrite bool_decide_eq_false_2 by (simpl; lia). cbv zeta.
  bind_step. unfold gets at 1.
  bind_step. rewrite (input_run _ line rest) by done.
  bind_step. rewrite check_val_blank by done.
  bind_step. unfold gets at 1.
  rewrite (blank_not_int line Hb).
  bind_step. unfold warn. rewrite print_run.
  eexists. split; [done|]. done.
Qed.

Lemma seven_is_no_quit_word : "7" ∉ ["exit"; "quit"].
Proof.
  intros Hin. apply elem_of_cons in Hin as [Hin|Hin]; [done|].
  apply elem_of_cons in Hin as [Hin|Hin]; [done|]. by apply elem_of_nil in Hin.
Qed.

(** X29.  Choosing the calculation workbook before any JSON-LD file is
    known ends the main loop: with an empty file set, option 7 followed
    by a blank line at the workbook prompt leaves [is_okay] False, so the
    loop returns although the session still counts as running, and the
    lines behind are not read. *)
Theorem workbook_prompt_ends_main_loop (fuel rounds : nat) (line : string)
    (rest : list string) (o : MenuOption) (s : Session) :
  is_okay s = true → is_running s = true →
  json_set s = [] →
  params s !! "7" = Some o → func o = Some AssignCalculationFile →
  stdin s = "7" :: line :: rest → quit_keyword line = false → blank line = true →
  ∃ s', main_loop os extern (S fuel) (S rounds) s = (Done (), s')
        ∧ is_okay s' = false ∧ is_running s' = true ∧ stdin s' = rest.
Proof.
  intros Hok Hrun Hjson Ho Hf Hin Hq Hb.
  cbn [main_loop]. bind_step. unfold gets at 1. bind_step. unfold gets at 1.
  rewrite Hok, Hrun. cbn [andb].
  bind_step. unfold do_next.
  bind_step. rewrite (input_run _ "7" (line :: rest)) by done.
  change (Py.lower "7") with "7".
  rewrite bool_decide_eq_false_2 by apply seven_is_no_quit_word.
  change (Py.startswith "7" "h") with false. cbv iota.
  bind_step. unfold gets at 1. cbn [params with_stdin with_stdout]. rewrite Ho.
  rewrite bool_decide_eq_true_2 by by eexists. rewrite Hf.
  unfold call. bind_step. unfold assign_calculation_file.
  bind_step. rewrite request_run.
  bind_step. cbn [until_done]. bind_step.
  destruct (prompt_calculation_file_blank line rest
    (with_stdout
       (stdout (with_stdin (line :: rest) (with_stdout (stdout s ++ ["(h for help) > "]) s))
        ++ banner "Select calculation workbook")
       (with_stdin (line :: rest) (with_stdout (stdout s ++ ["(h for help) > "]) s))))
    as (s1 & -> & Hok1 & Hrun1 & Hin1); [done..|].
  unfold mret at 1, M_ret at 1.
  bind_step. destruct (show_options_run s1) as [out ->].
  unfold mret at 1, M_ret at 1. unfold mret at 1, M_ret at 1.
  destruct rounds; cbn [main_loop]; bind_step; unfold gets at 1; simpl is_okay;
    rewrite Hok1; bind_step; unfold gets at 1; cbn [andb];
    (eexists; split; [done|]; simpl; rewrite Hrun1, Hin1; simpl; by rewrite Hrun).
Qed.

End MainLoopFacts.

(** * Further concrete runs *)

Lemma set_product_system_validates_witness :
  Interface.product_sys_uid (Interface.set_product_system "ps-2" (Demo.running [])).2
    = "ps-2"
  ∧ Interface.set_product_system "ps-9" (Demo.running [])
    = (Interface.Done false, Demo.running []).
Proof.
  split.
  - rewrite (set_product_system_validates "ps-2" ["ps-1"; "ps-2"] (Demo.running [])
               eq_refl).
    vm_compute. reflexivity.
  - rewrite (set_product_system_validates "ps-9" ["ps-1"; "ps-2"] (Demo.running [])
               eq_refl).
    vm_compute. reflexivity.
Defined.

Lemma no_commit_without_yes_witness :
  let s := Demo.running ["9090"; "q"] in
  Py.isascii "9090" = true
  ∧ Interface.quit_keyword "9090" = false
  ∧ Interface.blank "9090" = false
  ∧ confirmed "q" = false
  ∧ (Interface.prompt_server_port s).1 = Interface.Done false
  ∧ Interface.netl (Interface.prompt_server_port s).2 = Demo.project0
  ∧ (Interface.prompt_working_dir Demo.os s).1 = Interface.Done false
  ∧ Interface.work_dir (Interface.prompt_working_dir Demo.os s).2 = "data".
Proof.
  intros s.
  destruct (no_commit_without_yes Demo.os "9090" "q" [] s
              eq_refl eq_refl eq_refl eq_refl eq_refl)
    as [Hport Hdir].
  split; [reflexivity|]. split; [reflexivity|]. split; [reflexivity|].
  split; [reflexivity|].
  rewrite Hport, Hdir. repeat split; reflexivity.
Defined.

Lemma blank_line_skips_witness :
  let s := Demo.running ["  "; "1"] in
  Interface.quit_keyword "  " = false
  ∧ Interface.blank "  " = true
  ∧ Interface.prompt_server_port s
    = (Interface.Done true,
       Interface.with_stdin ["1"]
         (Interface.with_stdout ["server port (8080)> "] s)).
Proof.
  intros s. split; [reflexivity|]. split; [reflexivity|].
  exact (proj1 (blank_line_skips Demo.os "  " ["1"] s eq_refl eq_refl eq_refl)).
Defined.

Lemma single_product_system_is_selected_witness :
  let s := Interface.with_is_running true
             (@Interface.init Demo.netlolca Cases.single_system ["q"]) in
  (Interface.prompt_product_system s).1 = Interface.Done true
  ∧ Interface.product_sys_uid (Interface.prompt_product_system s).2 = "ps-1"
  ∧ Interface.stdin (Interface.prompt_product_system s).2 = ["q"].
Proof.
  intros s.
  rewrite (single_product_system_is_selected "ps-1" []
             (Some "Aluminum, production mix, shape casted") s eq_refl eq_refl eq_refl).
  repeat split; reflexivity.
Defined.

Lemma prompt_reviewer_without_actors_witness :
  let s := @Interface.init Cases.no_actors Demo.project0 ["1"] in
  Interface.prompt_reviewer 1 s = (Interface.Raised (NameError "i"), s).
Proof.
  intros s.
  exact (prompt_reviewer_without_actors 1 "N/A" [] [] s eq_refl eq_refl).
Defined.


Lemma assign_server_port_declined_witness :
  let s := Demo.running ["9090"; "n"; "9091"; "no"; "Q"; "m"] in
  ∃ s', Interface.assign_server_port 3 None s = (Interface.Done None, s')
        ∧ Interface.netl s' = Demo.project0
        ∧ Interface.is_running s' = false
        ∧ Interface.stdin s' = ["m"].
Proof.
  intros s.
  refine (assign_server_port_declined 3 [("9090", "n"); ("9091", "no")] "Q" ["m"] s
            _ eq_refl _ eq_refl).
  - repeat constructor.
  - simpl. lia.
Defined.

Lemma do_next_key_error_witness :
  let s := Demo.running ["Q"] in
  Interface.do_next Demo.os Cases.no_extern 1 s
  = (Interface.Raised (KeyError "Q"),
     Interface.with_stdin [] (Interface.with_stdout ["(h for help) > "] s)).
Proof.
  intros s.
  refine (do_next_key_error Demo.os Cases.no_extern 1 "Q" [] s eq_refl _ eq_refl _ _).
  - intros Hin. apply elem_of_cons in Hin as [Hin|Hin]; [discriminate|].
    apply elem_of_cons in Hin as [Hin|Hin]; [discriminate|].
    by apply elem_of_nil in Hin.
  - vm_compute. eexists. reflexivity.
  - vm_compute. reflexivity.
Defined.

Lemma do_next_only_writes_witness :
  let s := Demo.running ["Help me"; "8"] in
  ∃ out,
    Interface.do_next Demo.os Cases.no_extern 1 s
    = (Interface.Done (),
       Interface.with_stdin ["8"]
         (Interface.with_stdout ("(h for help) > " :: out) s)).
Proof.
  intros s.
  destruct (do_next_only_writes Demo.os Cases.no_extern 1 "Help me" ["8"] s eq_refl)
    as (out & Hout & _).
  - intros Hin. apply elem_of_cons in Hin as [Hin|Hin]; [discriminate|].
    apply elem_of_cons in Hin as [Hin|Hin]; [discriminate|].
    by apply elem_of_nil in Hin.
  - left. reflexivity.
  - exists out. exact Hout.
Defined.

Lemma run_stopped_witness :
  let s := (Interface.quit (Demo.running ["1"])).2 in
  Interface._hidden_state s = (-1)%Z
  ∧ Interface.run Demo.os Cases.no_extern 2 s
    = (Interface.Done (), Interface.with_is_running true s).
Proof.
  intros s. split; [reflexivity|].
  apply (run_stopped Demo.os Cases.no_extern 2 s). discriminate.
Defined.

Lemma main_loop_quits_witness :
  let s := Demo.running ["EXIT"; "1"] in
  Interface.main_loop Demo.os Cases.no_extern 1 1 s
  = (Interface.Done (),
     Interface.with_stdout ["(h for help) > "; "Exiting..."]
       (Interface.with_hidden_state (-1)
          (Interface.with_is_running false (Interface.with_stdin ["1"] s)))).
Proof.
  intros s.
  refine (main_loop_quits Demo.os Cases.no_extern 1 0 "EXIT" ["1"] s
            eq_refl eq_refl eq_refl _).
  vm_compute. repeat constructor.
Defined.

Lemma workbook_prompt_ends_main_loop_witness :
  let s := Demo.running ["7"; ""; "1"] in
  ∃ s', Interface.main_loop Demo.os Cases.no_extern 1 1 s = (Interface.Done (), s')
        ∧ Interface.is_okay s' = false
        ∧ Interface.is_running s' = true
        ∧ Interface.stdin s' = ["1"].
Proof.
  intros s.
  eapply (workbook_prompt_ends_main_loop Demo.os Cases.no_extern 0 0 "" ["1"]).
  - reflexivity.
  - reflexivity.
  - reflexivity.
  - vm_compute. reflexivity.
  - reflexivity.
  - reflexivity.
  - reflexivity.
  - reflexivity.
Defined.
